(** * The persistent state subsystem of the COMPASS hook handler

    A shallow embedding of the usage ledger, the activity sensor and the
    knowledge-query cache of [.compass/handlers/compass-handler.py], and the
    properties of them that the specification states; then the functions
    around them (the emergency cleanup, the session marker, the journal, the
    reading of prompts and tool calls) and further properties of the code.

    Modelling conventions.
    - Every hook invocation is a fresh process, so all state lives in files.
      Each function of the handler becomes a function from the state of the
      files it touches (and the clock reading) to their new state and the
      value returned.
    - The filesystem is taken to work: [stat], [open], [write] and [unlink]
      succeed, and the lock is acquired.  The journal written by
      [log_handler_activity] is left out of the ledger and cache functions:
      that function swallows its own failures and nothing it writes is read
      back by them.  The journal has a model of its own.
    - The clock is read once per call ([now], in microseconds); the handler
      reads it several times within a call, microseconds apart.
    - A Python exception is a value [Raise e]; each [except] clause of the
      source is a match on it.
    - JSON numbers are integers, as in every document the handler writes
      (all its counts go through [int()]); floats are outside the model.
      Text is a [string] of code points below 256.
    - Library functions whose result the handler only passes on
      ([datetime.isoformat], [datetime.fromisoformat], [int()] on text,
      [hashlib.sha256], [repr]) are fields of the class [Runtime]. *)

From Stdlib Require Import ZArith List String Ascii Bool Lia Permutation Sorted.
From stdpp Require Import gmap strings.

Set Warnings "-register-all".
Open Scope Z_scope.

(** ** Exceptions *)

Inductive exn :=
| JSONDecodeError
| UnicodeDecodeError
| ValueError
| KeyError
| TypeError
| AttributeError.

Inductive res (A : Type) :=
| Ok (a : A)
| Raise (e : exn).
Arguments Ok {A} a.
Arguments Raise {A} e.

Definition res_bind {A B} (r : res A) (k : A -> res B) : res B :=
  match r with
  | Ok a => k a
  | Raise e => Raise e
  end.

Declare Scope res_scope.
Delimit Scope res_scope with res.
Notation "'do' x <- r ; k" := (res_bind r (fun x => k))
  (at level 10, x name, r at level 100, k at level 200,
   format "'[v' 'do'  x  <-  r ; '/' k ']'") : res_scope.
Open Scope res_scope.

(** ** JSON documents, as [json.load] returns them *)

Inductive json :=
| JNull
| JBool (b : bool)
| JInt (z : Z)
| JStr (s : string)
| JArr (xs : list json)
| JObj (kvs : list (string * json)).

(** A Python [dict] keeps its keys in insertion order and the eviction
    breaks ties by that order, so a dict is an association list; its keys are
    pairwise distinct. *)
Definition dict (A : Type) := list (string * A).

Fixpoint dict_get {A} (k : string) (d : dict A) : option A :=
  match d with
  | [] => None
  | (k', v) :: d' => if String.eqb k k' then Some v else dict_get k d'
  end.

(** [d.get(k, default)] *)
Definition py_get {A} (d : dict A) (k : string) (default : A) : A :=
  match dict_get k d with
  | Some v => v
  | None => default
  end.

(** [d[k] = v]: an existing key keeps its place, a new one goes last. *)
Fixpoint dict_set {A} (k : string) (v : A) (d : dict A) : dict A :=
  match d with
  | [] => [(k, v)]
  | (k', v') :: d' =>
      if String.eqb k k' then (k, v) :: d' else (k', v') :: dict_set k v d'
  end.

Definition keys {A} (d : dict A) : list string := map fst d.

(** ** The length of [json.dump] output

    [json.dump] and [json.dumps] run with [ensure_ascii=True]: the output is
    ASCII, so its length in characters is the size of the file in bytes. *)

(** One character inside a string literal: the quote, the backslash and the
    five short escapes (b, t, n, f, r) take two characters, every other
    character outside the range from space to tilde takes six (a u escape
    with four hex digits). *)
Definition esc_len (c : ascii) : Z :=
  let n := Z.of_N (N_of_ascii c) in
  if (n =? 34) || (n =? 92) then 2
  else if (n =? 8) || (n =? 9) || (n =? 10) || (n =? 12) || (n =? 13) then 2
  else if (n <? 32) || (126 <? n) then 6
  else 1.

Fixpoint esc_string_len (s : string) : Z :=
  match s with
  | EmptyString => 0
  | String c s' => esc_len c + esc_string_len s'
  end.

Definition str_len (s : string) : Z := 2 + esc_string_len s.

(** [len(str(z))] *)
Definition int_len (z : Z) : Z :=
  match Z.to_int z with
  | Decimal.Pos u => Z.of_nat (Decimal.nb_digits u)
  | Decimal.Neg u => 1 + Z.of_nat (Decimal.nb_digits u)
  end.

(** [item_sep] and [key_sep] are the lengths of the two separators:
    [(",", ":")] for the compact form the handler writes, [(", ", ": ")]
    for the default of [json.dumps]. *)
Fixpoint dumps_len (item_sep key_sep : Z) (j : json) : Z :=
  match j with
  | JNull => 4
  | JBool true => 4
  | JBool false => 5
  | JInt z => int_len z
  | JStr s => str_len s
  | JArr xs =>
      2 + (fix items (l : list json) : Z :=
             match l with
             | [] => 0
             | [x] => dumps_len item_sep key_sep x
             | x :: l' => dumps_len item_sep key_sep x + item_sep + items l'
             end) xs
  | JObj kvs =>
      2 + (fix items (l : list (string * json)) : Z :=
             match l with
             | [] => 0
             | [(k, v)] => str_len k + key_sep + dumps_len item_sep key_sep v
             | (k, v) :: l' =>
                 str_len k + key_sep + dumps_len item_sep key_sep v
                 + item_sep + items l'
             end) kvs
  end.

Definition compact_len (j : json) : Z := dumps_len 1 1 j.
Definition default_len (j : json) : Z := dumps_len 2 2 j.

(** ** Files

    The content of a file, as far as the handler can tell: bytes that are not
    UTF-8 ([open(..., encoding="utf-8")] then raises [UnicodeDecodeError] on
    reading), text that is not JSON ([json.load] raises [JSONDecodeError]),
    or text that parses to a document.  The size on disk is part of the
    state: it is not determined by the document (white space is free). *)
Inductive file :=
| Binary (size : Z)
| Garbage (size : Z)
| Doc (size : Z) (j : json).

Definition st_size (f : file) : Z :=
  match f with
  | Binary n | Garbage n | Doc n _ => n
  end.

(** [json.load(open(path))] *)
Definition json_load (f : file) : res json :=
  match f with
  | Binary _ => Raise UnicodeDecodeError
  | Garbage _ => Raise JSONDecodeError
  | Doc _ j => Ok j
  end.

(** [json.dump(j, open(path, "w"), separators=(",", ":"))] *)
Definition json_dump (j : json) : file := Doc (compact_len j) j.

(** ** Python values and the library functions taken as given *)

(** A [datetime]: [aware] tells whether it carries a UTC offset; [instant]
    is its reading in microseconds (since the epoch when aware, on the local
    wall clock when naive). *)
Record datetime := { aware : bool; instant : Z }.

Class Runtime := {
  (** [datetime.now().isoformat()] when the clock reads [t] *)
  isoformat : Z -> string;
  (** [datetime.fromisoformat(s)]; [None] when it raises [ValueError] *)
  fromisoformat : string -> option datetime;
  (** [int(s)] for a [str]; [None] when it raises [ValueError] *)
  int_of_str : string -> option Z;
  (** [hashlib.sha256(s.encode()).hexdigest()] *)
  sha256_hexdigest : string -> string;
  (** [repr(s)] for a [str] *)
  repr_str : string -> string
}.

Definition Z_of_bool (b : bool) : Z := if b then 1 else 0.

(** [a == b] on values read from JSON; [True == 1] holds in Python. *)
Fixpoint py_eq (a b : json) {struct a} : bool :=
  match a, b with
  | JNull, JNull => true
  | JBool x, JBool y => Z_of_bool x =? Z_of_bool y
  | JBool x, JInt y => Z_of_bool x =? y
  | JInt x, JBool y => x =? Z_of_bool y
  | JInt x, JInt y => x =? y
  | JStr x, JStr y => String.eqb x y
  | JArr xs, JArr ys =>
      (fix all2 (l : list json) (r : list json) : bool :=
         match l, r with
         | [], [] => true
         | x :: l', y :: r' => py_eq x y && all2 l' r'
         | _, _ => false
         end) xs ys
  | JObj xs, JObj ys =>
      (length xs =? length ys)%nat
      && (fix sub (l : list (string * json)) : bool :=
            match l with
            | [] => true
            | (k, v) :: l' =>
                match dict_get k ys with
                | Some w => py_eq v w && sub l'
                | None => false
                end
            end) xs
  | _, _ => false
  end.

(** [a < b]; [None] when Python raises [TypeError] (values of different
    kinds, [None], objects).  Arrays compare by their first differing
    element. *)
Fixpoint py_lt (a b : json) {struct a} : option bool :=
  match a, b with
  | JBool x, JBool y => Some (Z_of_bool x <? Z_of_bool y)
  | JBool x, JInt y => Some (Z_of_bool x <? y)
  | JInt x, JBool y => Some (x <? Z_of_bool y)
  | JInt x, JInt y => Some (x <? y)
  | JStr x, JStr y => Some (String.ltb x y)
  | JArr xs, JArr ys =>
      (fix lex (l : list json) (r : list json) : option bool :=
         match l, r with
         | [], [] => Some false
         | [], _ :: _ => Some true
         | _ :: _, [] => Some false
         | x :: l', y :: r' => if py_eq x y then lex l' r' else py_lt x y
         end) xs ys
  | _, _ => None
  end.

(** [sorted(d.items(), key=lambda x: x[1], reverse=True)]: a stable sort,
    largest count first, entries with equal counts in their original order.
    [lt x y] tells whether [x < y]. *)
Fixpoint insert_desc {A} (lt : A -> A -> bool) (kv : string * A)
    (l : list (string * A)) : list (string * A) :=
  match l with
  | [] => [kv]
  | kv' :: l' =>
      if lt (snd kv) (snd kv') then kv' :: insert_desc lt kv l' else kv :: l
  end.

Definition sorted_desc {A} (lt : A -> A -> bool) (d : dict A) : dict A :=
  fold_right (insert_desc lt) [] d.

Definition json_ltb (a b : json) : bool :=
  match py_lt a b with
  | Some true => true
  | _ => false
  end.

Fixpoint comparable_all (l : list json) : bool :=
  match l with
  | [] => true
  | x :: l' =>
      forallb (fun y => match py_lt x y, py_lt y x with
                        | Some _, Some _ => true
                        | _, _ => false
                        end) l'
      && comparable_all l'
  end.

(** Sorting untyped counts.  The sort compares at least one pair as soon as
    there are two entries, and a comparison between counts that Python does
    not order raises [TypeError].  (For counts that are arrays with
    elements of mixed kinds, which pairs the library sort compares is not
    modelled: the model raises as soon as one pair is not ordered.) *)
Definition sorted_items (d : dict json) : res (dict json) :=
  if comparable_all (map snd d) then Ok (sorted_desc json_ltb d)
  else Raise TypeError.

(** ** The usage ledger ([compass-tokens.json]) *)

Definition MAX_TOKEN_SESSIONS : nat := 25.
Definition MAX_TOKEN_FILE_SIZE : Z := 256 * 1024.
Definition MAX_AGENT_TRACKING : nat := 50.
Definition MAX_PHASE_TRACKING : nat := 8.

(** The dict that [create_empty_token_data] and
    [validate_and_clean_token_data] build: its five keys are fixed, the
    counts are integers; [session_start] is copied from the file as it is. *)
Record ledger := {
  total : Z;
  by_agent : dict Z;
  by_phase : dict Z;
  session_start : json;
  last_update : string
}.

Definition counts_json (d : dict Z) : dict json :=
  map (fun kv => (fst kv, JInt (snd kv))) d.

Definition ledger_json (l : ledger) : json :=
  JObj [("total", JInt (total l));
        ("by_agent", JObj (counts_json (by_agent l)));
        ("by_phase", JObj (counts_json (by_phase l)));
        ("session_start", session_start l);
        ("last_update", JStr (last_update l))]%string.

(** Whether a file is within [MAX_TOKEN_FILE_SIZE], on disk and in the
    default [json.dumps] form that [load_json_memory_safe] measures. *)
Definition fits (f : option file) : bool :=
  match f with
  | Some (Doc n j) =>
      (n <=? MAX_TOKEN_FILE_SIZE) && (default_len j <=? MAX_TOKEN_FILE_SIZE)
  | Some fl => st_size fl <=? MAX_TOKEN_FILE_SIZE
  | None => true
  end.

(** The fields of a value returned by [get_current_session_tokens]. *)
Definition field (k : string) (v : json) : option json :=
  match v with
  | JObj d => dict_get k d
  | _ => None
  end.

Definition total_of (v : json) : option json := field "total" v.
Definition by_agent_of (v : json) : option json := field "by_agent" v.
Definition by_phase_of (v : json) : option json := field "by_phase" v.

Definition sum_amounts (l : list Z) : Z := fold_right Z.add 0 l.

(** What [get_current_session_tokens] returns when it has nothing to
    report. *)
Definition zero_totals : json :=
  JObj [("total", JInt 0); ("by_agent", JObj []); ("by_phase", JObj [])]%string.

Definition map_agent_to_phase (agent_type : string) : option string :=
  dict_get agent_type
    [("compass-captain", "coordination");
     ("compass-knowledge-query", "phase1_knowledge_query");
     ("compass-pattern-apply", "phase2_pattern_application");
     ("compass-doc-planning", "phase2_documentation_planning");
     ("compass-data-flow", "phase2_data_flow_analysis");
     ("compass-gap-analysis", "phase3_gap_analysis");
     ("compass-enhanced-analysis", "phase4_enhanced_analysis");
     ("compass-cross-reference", "phase5_cross_reference");
     ("compass-coder", "phase6_execution_bridge")]%string.

(** [isinstance(count, (int, float)) and count >= 0], then [int(count)];
    a [bool] is an [int] in Python.  Floats being outside the model, the
    [float] half of the test is not there: on a float count the source
    truncates ([int(1.9)] is 1) and raises [OverflowError] on an infinity
    that passes the test ([ValueError] cannot occur, a NaN failing it). *)
Definition clean_count (count : json) : option Z :=
  match count with
  | JInt z => if 0 <=? z then Some z else None
  | JBool b => Some (Z_of_bool b)
  | _ => None
  end.

(** The loop [for k, count in d.items(): if ...: cleaned[k] = int(count)] *)
Definition clean_counts (d : dict json) : dict Z :=
  fold_left (fun acc kv =>
               match clean_count (snd kv) with
               | Some z => dict_set (fst kv) z acc
               | None => acc
               end) d [].

Definition set_by_agent (l : ledger) (d : dict Z) : ledger :=
  {| total := total l; by_agent := d; by_phase := by_phase l;
     session_start := session_start l; last_update := last_update l |}.

Definition set_by_phase (l : ledger) (d : dict Z) : ledger :=
  {| total := total l; by_agent := by_agent l; by_phase := d;
     session_start := session_start l; last_update := last_update l |}.

(** Keep the [MAX_AGENT_TRACKING] agents with the largest counts. *)
Definition cleanup_old_agents_optimized (l : ledger) : ledger :=
  if (MAX_AGENT_TRACKING <? length (by_agent l))%nat
  then set_by_agent l (firstn MAX_AGENT_TRACKING (sorted_desc Z.ltb (by_agent l)))
  else l.

Definition cleanup_old_phases (l : ledger) : ledger :=
  if (MAX_PHASE_TRACKING <? length (by_phase l))%nat
  then set_by_phase l (firstn MAX_PHASE_TRACKING (sorted_desc Z.ltb (by_phase l)))
  else l.

(** [min(total, 1000000)] on an untyped value: [min] returns its first
    argument unless [1000000 < total]. *)
Definition min_total (t : json) : res json :=
  match t with
  | JInt z => Ok (JInt (if 1000000 <? z then 1000000 else z))
  | JBool b => Ok (JBool b)
  | _ => Raise TypeError
  end.

Section Ledger.
Context {R : Runtime}.

Definition create_empty_token_data (now : Z) : ledger :=
  {| total := 0; by_agent := []; by_phase := [];
     session_start := JStr (isoformat now); last_update := isoformat now |}.

(** [int(x)] on a value read from JSON.  Floats being outside the model,
    there is no case for them: the source truncates a finite float and
    raises [OverflowError] on an infinity and [ValueError] on a NaN. *)
Definition py_int (x : json) : res Z :=
  match x with
  | JInt z => Ok z
  | JBool b => Ok (Z_of_bool b)
  | JStr s => match int_of_str s with
              | Some z => Ok z
              | None => Raise ValueError
              end
  | JNull | JArr _ | JObj _ => Raise TypeError
  end.

Definition validate_and_clean_token_data (now : Z) (session_tokens : json)
    : res ledger :=
  match session_tokens with
  | JObj d =>
      do t <- py_int (py_get d "total" (JInt 0));
      Ok {| total := Z.max 0 t;
            by_agent :=
              match py_get d "by_agent" (JObj []) with
              | JObj ba =>
                  if (length ba <=? MAX_TOKEN_SESSIONS)%nat
                  then clean_counts ba else []
              | _ => []
              end;
            by_phase :=
              match py_get d "by_phase" (JObj []) with
              | JObj bp => clean_counts bp
              | _ => []
              end;
            session_start := py_get d "session_start" (JStr (isoformat now));
            last_update := isoformat now |}
  | _ => Ok (create_empty_token_data now)
  end.

(** Returns [None] where the source returns [None]; the
    [UnicodeDecodeError] of a file that is not UTF-8 is not among the
    exceptions it catches. *)
Definition load_json_memory_safe (f : file) : res (option json) :=
  if MAX_TOKEN_FILE_SIZE <? st_size f then Ok None
  else match json_load f with
       | Ok data =>
           if MAX_TOKEN_FILE_SIZE <? default_len data then Ok None
           else Ok (Some data)
       | Raise JSONDecodeError => Ok None
       | Raise e => Raise e
       end.

Definition perform_emergency_token_cleanup (now : Z) : option file :=
  Some (json_dump
          (JObj [("total", JInt 0);
                 ("session_start", JStr (isoformat now));
                 ("last_update", JStr (isoformat now));
                 ("by_agent", JObj []);
                 ("by_phase", JObj []);
                 ("emergency_cleanup", JBool true);
                 ("cleanup_timestamp", JStr (isoformat now))]%string)).

(** [Ok f'] is the state of the file when the function returns, [Raise e]
    an exception that escapes it (the file is then as it was: every raise
    precedes the write). *)
Definition cleanup_token_file (now : Z) (f : file) : res (option file) :=
  if MAX_TOKEN_FILE_SIZE <? st_size f then
    Ok (perform_emergency_token_cleanup now)
  else
    match json_load f with
    | Raise JSONDecodeError => Ok None
    | Raise e => Raise e
    | Ok (JObj d) =>
        do t <- min_total (py_get d "total" (JInt 0));
        do agents <- match py_get d "by_agent" (JObj []) with
                     | JObj ba => do s <- sorted_items ba; Ok (firstn 5 s)
                     | _ => Ok []
                     end;
        do phases <- match py_get d "by_phase" (JObj []) with
                     | JObj bp =>
                         do s <- sorted_items bp;
                         Ok (firstn MAX_PHASE_TRACKING s)
                     | _ => Ok []
                     end;
        Ok (Some (json_dump
                    (JObj [("total", t);
                           ("session_start", JStr (isoformat now));
                           ("last_update", JStr (isoformat now));
                           ("by_agent", JObj agents);
                           ("by_phase", JObj phases)]%string)))
    | Ok _ => Raise AttributeError
    end.

(** The body of the inner [try] of [update_session_token_count], up to the
    bounds checks: add the amount to the total and to the two buckets. *)
Definition bump (now : Z) (agent_type : string) (token_count : Z)
    (l : ledger) : ledger :=
  {| total := total l + token_count;
     by_agent :=
       dict_set agent_type (py_get (by_agent l) agent_type 0 + token_count)
                (by_agent l);
     by_phase :=
       match map_agent_to_phase agent_type with
       | Some phase =>
           dict_set phase (py_get (by_phase l) phase 0 + token_count)
                    (by_phase l)
       | None => by_phase l
       end;
     session_start := session_start l;
     last_update := isoformat now |}.

(** The two bounds checks; the result is the dict that is written. *)
Definition evict (l1 : ledger) : ledger :=
  let l2 := if (MAX_AGENT_TRACKING <? length (by_agent l1))%nat
            then cleanup_old_agents_optimized l1 else l1 in
  if (MAX_PHASE_TRACKING <? length (by_phase l2))%nat
  then cleanup_old_phases l2 else l2.

Definition add_tokens (now : Z) (agent_type : string) (token_count : Z)
    (l : ledger) : ledger :=
  evict (bump now agent_type token_count l).

(** Under the lock: the dict [session_tokens] that the update starts from.
    [Raise e] is an exception that reaches the outer [except Exception]: the
    [UnicodeDecodeError] of the load, or the [ValueError] or [TypeError] of
    the validation. *)
Definition load_session (now : Z) (f : option file) : res ledger :=
  match f with
  | Some fl =>
      do loaded <- load_json_memory_safe fl;
      match loaded with
      | Some data => validate_and_clean_token_data now data
      | None => Ok (create_empty_token_data now)
      end
  | None => Ok (create_empty_token_data now)
  end.

(** The part of [update_session_token_count] that runs under the lock; an
    exception ends the call with the file as it is. *)
Definition locked_update (now : Z) (agent_type : string) (token_count : Z)
    (f : option file) : option file :=
  match load_session now f with
  | Ok l =>
      Some (json_dump (ledger_json (add_tokens now agent_type token_count l)))
  | Raise _ => f
  end.

(** The size check that precedes the lock. *)
Definition precheck (now : Z) (f : option file) : res (option file) :=
  match f with
  | Some fl =>
      if MAX_TOKEN_FILE_SIZE <? st_size fl then cleanup_token_file now fl
      else Ok f
  | None => Ok f
  end.

(** [record(agent, amount)]: the ledger file before the call gives the
    ledger file after it; nothing is returned and nothing is raised. *)
Definition update_session_token_count (now : Z) (agent_type : string)
    (token_count : Z) (f : option file) : option file :=
  match precheck now f with
  | Ok f1 => locked_update now agent_type token_count f1
  | Raise _ => f
  end.

(** The handlers of [get_current_session_tokens]: on [JSONDecodeError],
    [ValueError] (of which [UnicodeDecodeError] is a subclass) or [KeyError]
    the file is handed to [cleanup_token_file], whose own exceptions are
    dropped; on any other exception the file is left alone.  All of them
    return [zero_totals]. *)
Definition read_recover (now : Z) (e : exn) (fl : file) : option file :=
  match e with
  | JSONDecodeError | UnicodeDecodeError | ValueError | KeyError =>
      match cleanup_token_file now fl with
      | Ok f' => f'
      | Raise _ => Some fl
      end
  | TypeError | AttributeError => Some fl
  end.

(** [read()]: the value returned and the ledger file after the call. *)
Definition get_current_session_tokens (now : Z) (f : option file)
    : json * option file :=
  match f with
  | None => (zero_totals, None)
  | Some fl =>
      if 2 * 1024 * 1024 <? st_size fl then
        match cleanup_token_file now fl with
        | Ok f' => (zero_totals, f')
        | Raise e => (zero_totals, read_recover now e fl)
        end
      else
        match json_load fl with
        | Ok token_data =>
            match validate_and_clean_token_data now token_data with
            | Ok cleaned_data => (ledger_json cleaned_data, f)
            | Raise e => (zero_totals, read_recover now e fl)
            end
        | Raise e => (zero_totals, read_recover now e fl)
        end
  end.

(** A sequence of [record] calls, each with its clock reading. *)
Record call := { at_time : Z; agent : string; amount : Z }.

Definition record_call (f : option file) (c : call) : option file :=
  update_session_token_count (at_time c) (agent c) (amount c) f.

Definition record_all (calls : list call) (f : option file) : option file :=
  fold_left record_call calls f.

(** Whether a call reaches one of the two evictions: a bucket map over its
    bound once the amount is added. *)
Definition eviction_triggered (f : option file) (c : call) : bool :=
  match precheck (at_time c) f with
  | Ok f1 =>
      match load_session (at_time c) f1 with
      | Ok l =>
          let l1 := bump (at_time c) (agent c) (amount c) l in
          (MAX_AGENT_TRACKING <? length (by_agent l1))%nat
          || (MAX_PHASE_TRACKING <? length (by_phase l1))%nat
      | Raise _ => false
      end
  | Raise _ => false
  end.

Fixpoint no_eviction (calls : list call) (f : option file) : bool :=
  match calls with
  | [] => true
  | c :: rest =>
      negb (eviction_triggered f c) && no_eviction rest (record_call f c)
  end.

(** Whether the ledger file stays within [MAX_TOKEN_FILE_SIZE] after every
    call of a sequence, on disk and as [load_json_memory_safe] measures
    it. *)
Fixpoint stays_bounded (calls : list call) (f : option file) : bool :=
  match calls with
  | [] => true
  | c :: rest =>
      fits (record_call f c) && stays_bounded rest (record_call f c)
  end.

End Ledger.

(** ** The activity sensor ([compass_context_active]) *)

(** The files the sensor looks at.  [log_file] holds the lines of the
    journal, each the document it parses to or [None] when [json.loads]
    rejects it; a journal that cannot be read behaves as an absent one (the
    exception is dropped).  [docs] holds the modification times of
    [docs/*.md], in microseconds. *)
Record disk := {
  status_file : bool;
  session_file : option file;
  log_file : option (list (option json));
  docs : list Z;
  token_file : option file
}.

Definition compass_actions : list string :=
  ["compass_required"; "agent_active"; "token_tracking"; "prompt_routing";
   "phase_update"; "compass_complete"]%string.

(** [s.replace("Z", "+00:00")] *)
Fixpoint replace_Z (s : string) : string :=
  match s with
  | EmptyString => EmptyString
  | String c s' =>
      if Ascii.eqb c "Z"%char then String.append "+00:00" (replace_Z s')
      else String c (replace_Z s')
  end.

Definition starts_with_compass (s : string) : bool :=
  String.prefix "compass-" s.

Section Activity.
Context {R : Runtime}.

(** [(now - timestamp).total_seconds()], in microseconds, where [now] is
    [datetime.now().astimezone()], an aware datetime.  [None] stands for
    the exceptions that the callers turn into [False]: a value that is not
    text, text that does not parse, and the [TypeError] of subtracting a
    naive datetime from an aware one. *)
Definition age_of (now : Z) (timestamp : json) : option Z :=
  match timestamp with
  | JStr s =>
      match fromisoformat (replace_Z s) with
      | Some dt => if aware dt then Some (now - instant dt) else None
      | None => None
      end
  | _ => None
  end.

Definition is_session_timestamp_valid (now : Z) (timestamp : json)
    (seconds_threshold : Z) : bool :=
  match age_of now timestamp with
  | Some d => d <? seconds_threshold * 1000000
  | None => false
  end.

Definition is_recent_timestamp_extended (now : Z) (timestamp : json) : bool :=
  match age_of now timestamp with
  | Some d => d <? 1800 * 1000000
  | None => false
  end.

Definition check_compass_session_active (now : Z) (f : option file)
    : res bool :=
  match f with
  | None => Ok false
  | Some fl =>
      match json_load fl with
      | Ok (JObj d) =>
          if is_session_timestamp_valid now
               (py_get d "session_start" (JStr "")) 7200
          then Ok true
          else if is_session_timestamp_valid now
                    (py_get d "last_activity" (JStr "")) 1800
          then Ok true
          else Ok false
      | Ok _ => Raise AttributeError
      | Raise JSONDecodeError => Ok false
      | Raise e => Raise e
      end
  end.

(** The loop over the last journal lines; [true] when it returns [True].
    A line that is not an object, or whose [agent_type] is not text, raises
    [AttributeError], which ends the loop (the enclosing [except Exception]
    drops it). *)
Fixpoint scan_log (now : Z) (lines : list (option json)) : bool :=
  match lines with
  | [] => false
  | None :: rest => scan_log now rest
  | Some (JObj d) :: rest =>
      if match py_get d "action" (JStr "") with
         | JStr a => existsb (String.eqb a) compass_actions
         | _ => false
         end
         && is_recent_timestamp_extended now (py_get d "timestamp" (JStr ""))
      then true
      else match py_get d "agent_type" (JStr "") with
           | JStr a =>
               if starts_with_compass a
                  && is_recent_timestamp_extended now
                       (py_get d "timestamp" (JStr ""))
               then true
               else scan_log now rest
           | _ => false
           end
  | Some _ :: _ => false
  end.

(** [lines[-20:]] *)
Definition last_20 {A} (lines : list A) : list A :=
  skipn (length lines - 20) lines.

Definition check_recent_compass_tokens (now : Z) (f : option file)
    : res bool :=
  match f with
  | None => Ok false
  | Some fl =>
      match json_load fl with
      | Ok (JObj d) =>
          if is_recent_timestamp_extended now
               (py_get d "last_update" (JStr ""))
          then Ok true
          else match py_get d "by_agent" (JObj []) with
               | JObj ba => Ok (existsb starts_with_compass (keys ba))
               | _ => Raise AttributeError
               end
      | Ok _ => Raise AttributeError
      | Raise JSONDecodeError => Ok false
      | Raise e => Raise e
      end
  end.

(** [isActive()] *)
Definition compass_context_active (now : Z) (d : disk) : res bool :=
  if status_file d then Ok true
  else
    do session <- check_compass_session_active now (session_file d);
    if session then Ok true
    else if match log_file d with
            | Some lines => scan_log now (last_20 lines)
            | None => false
            end
    then Ok true
    else if existsb (fun st_mtime => now - 1800 * 1000000 <? st_mtime) (docs d)
    then Ok true
    else check_recent_compass_tokens now (token_file d).

End Activity.

(** ** The knowledge-query cache *)

Definition KNOWLEDGE_CACHE_TTL : Z := 3600.
Definition SUBPROCESS_TIMEOUT : Z := 300.

(** A [<key>.pkl] file: its modification time (microseconds) and what
    [pickle.load] gives for it, [None] when it raises. *)
Record cache_entry := { st_mtime : Z; pickled : option json }.

(** The directory [.compass/cache/knowledge]: the cache entries by key, and
    the keys whose query script [knowledge_query_<key>.py] is present. *)
Record cache_dir := {
  entries : gmap string cache_entry;
  scripts : gset string
}.

(** What [subprocess.run] did: it ran out of time, or the process exited;
    [stdout] is what [json.loads] makes of the output, a document or the
    message of the exception. *)
Inductive completed :=
| TimeoutExpired
| Exited (returncode : Z) (stdout : string + json) (stderr : string).

(** [sorted(keywords)] for text *)
Fixpoint insert_str (x : string) (l : list string) : list string :=
  match l with
  | [] => [x]
  | y :: l' => if String.leb x y then x :: l else y :: insert_str x l'
  end.

Definition py_sorted (l : list string) : list string :=
  fold_right insert_str [] l.

(** [bool(x)] *)
Definition truthy (x : json) : bool :=
  match x with
  | JNull | JBool false | JInt 0 | JStr EmptyString | JArr [] | JObj [] => false
  | _ => true
  end.

(** [if cached_result:] holds for a payload that is not empty. *)
Definition usable (cached_result : option json) : option json :=
  match cached_result with
  | Some cached => if truthy cached then Some cached else None
  | None => None
  end.

(** The process ran out of time or exited with a code other than 0. *)
Definition failed (run : completed) : bool :=
  match run with
  | TimeoutExpired => true
  | Exited returncode _ _ => negb (returncode =? 0)
  end.

Section Cache.
Context {R : Runtime}.

(** [str(l)] for a list of text *)
Definition list_repr (l : list string) : string :=
  String.append "[" (String.append (String.concat ", " (map repr_str l)) "]").

Definition get_cache_key (task_description : string)
    (topic_keywords : list string) : string :=
  substring 0 16
    (sha256_hexdigest
       (String.append task_description
          (String.append "||" (list_repr (py_sorted topic_keywords))))).

(** [get]: the payload or [None], and the directory afterwards. *)
Definition load_cached_knowledge (now : Z) (cache_key : string)
    (c : cache_dir) : option json * cache_dir :=
  match entries c !! cache_key with
  | None => (None, c)
  | Some e =>
      if KNOWLEDGE_CACHE_TTL * 1000000 <? now - st_mtime e then
        (None, {| entries := delete cache_key (entries c);
                  scripts := scripts c |})
      else (pickled e, c)
  end.

(** [put] *)
Definition save_knowledge_cache (now : Z) (cache_key : string)
    (knowledge_data : json) (c : cache_dir) : cache_dir :=
  {| entries := <[cache_key := {| st_mtime := now;
                                  pickled := Some knowledge_data |}]>
                  (entries c);
     scripts := scripts c |}.

Definition error_result (status error task_description : string) : json :=
  JObj [("status", JStr status); ("error", JStr error);
        ("task_description", JStr task_description)]%string.

Definition write_script (cache_key : string) (c : cache_dir) : cache_dir :=
  {| entries := entries c; scripts := {[cache_key]} ∪ scripts c |}.

Definition unlink_script (cache_key : string) (c : cache_dir) : cache_dir :=
  {| entries := entries c; scripts := scripts c ∖ {[cache_key]} |}.

(** [resolve]: [now] is the clock at the lookup, [later] the clock when
    the process has exited, [run] what the process did. *)
Definition execute_knowledge_query_subprocess (now later : Z)
    (task_description : string) (topic_keywords : list string)
    (run : completed) (c : cache_dir) : json * cache_dir :=
  let cache_key := get_cache_key task_description topic_keywords in
  let (cached_result, c1) := load_cached_knowledge now cache_key c in
  match usable cached_result with
  | Some cached => (cached, c1)
  | None =>
      let c2 := write_script cache_key c1 in
      match run with
      | Exited 0 (inr knowledge_data) _ =>
          (knowledge_data,
           unlink_script cache_key
             (save_knowledge_cache later cache_key knowledge_data c2))
      | Exited 0 (inl msg) _ =>
          (error_result "setup_error" msg task_description,
           unlink_script cache_key c2)
      | Exited _ _ stderr =>
          (error_result "subprocess_error"
             (if String.eqb stderr "" then "Unknown subprocess error"
              else stderr)
             task_description,
           unlink_script cache_key c2)
      | TimeoutExpired =>
          (error_result "timeout" "Knowledge query timed out after 300s"
             task_description,
           unlink_script cache_key c2)
      end
  end.

End Cache.

(** ** The emergency cleanup ([cleanup_memory]) *)

(** The files that [cleanup_memory] touches: the ledger and the two
    files [.compass-complete] and [.compass-todo-updates], present or
    not. *)
Record residue := {
  tokens : option file;
  compass_complete : bool;
  compass_todo_updates : bool
}.

Section Cleanup.
Context {R : Runtime}.

(** The emergency cleanup.  An exception that the inner handler does not
    catch ([AttributeError] on a document that is not an object,
    [UnicodeDecodeError]) reaches the outer one, which drops it: the rest
    of the function is then skipped. *)
Definition cleanup_memory (now : Z) (s : residue) : residue :=
  let swept (f : option file) :=
    {| tokens := f; compass_complete := false;
       compass_todo_updates := false |} in
  match tokens s with
  | Some fl =>
      if MAX_TOKEN_FILE_SIZE <? st_size fl then
        match json_load fl with
        | Ok (JObj data) =>
            swept (Some (json_dump
                           (JObj [("total", py_get data "total" (JInt 0));
                                  ("session_start", JStr (isoformat now));
                                  ("last_update", JStr (isoformat now));
                                  ("by_agent", JObj []);
                                  ("by_phase", JObj [])]%string)))
        | Ok _ => s
        | Raise JSONDecodeError => swept None
        | Raise _ => s
        end
      else swept (tokens s)
  | None => swept None
  end.

End Cleanup.

(** ** The session marker ([compass-session.json]) *)

(** The length of [json.dump(j, f, indent=2)] output for a value nested
    [level] deep: every item of a list or dict that is not empty goes on a
    line of its own, two spaces deeper, and the closing bracket on a line at
    the depth of the value; the separators are [","] and [": "]. *)
Fixpoint indent_len (level : Z) (j : json) : Z :=
  match j with
  | JArr [] | JObj [] => 2
  | JArr xs =>
      2 + (1 + 2 * level)
      + (fix items (l : list json) : Z :=
           match l with
           | [] => 0
           | [x] => 1 + 2 * (level + 1) + indent_len (level + 1) x
           | x :: l' =>
               1 + 2 * (level + 1) + indent_len (level + 1) x + 1 + items l'
           end) xs
  | JObj kvs =>
      2 + (1 + 2 * level)
      + (fix items (l : list (string * json)) : Z :=
           match l with
           | [] => 0
           | [(k, v)] =>
               1 + 2 * (level + 1) + str_len k + 2 + indent_len (level + 1) v
           | (k, v) :: l' =>
               1 + 2 * (level + 1) + str_len k + 2 + indent_len (level + 1) v
               + 1 + items l'
           end) kvs
  | _ => default_len j
  end.

(** [json.dump(j, open(path, "w"), indent=2)] *)
Definition json_dump_indent (j : json) : file := Doc (indent_len 0 j) j.

Definition session_marker (start : json) (activity : string) : json :=
  JObj [("session_start", start); ("last_activity", JStr activity);
        ("compass_activated", JBool true); ("version", JStr "2.1")]%string.

(** The two functions that write the marker. *)
Inductive session_call := Create | Update.

Section Session.
Context {R : Runtime}.

(** Called on every prompt; [f] is the marker before the call.  The
    [UnicodeDecodeError] of a marker that is not UTF-8 is a [ValueError],
    which the function catches like the [JSONDecodeError]. *)
Definition create_compass_session_tracking (now : Z) (f : option file)
    : option file :=
  let current_time := JStr (isoformat now) in
  Some (json_dump_indent
          (session_marker
             match f with
             | Some fl =>
                 match json_load fl with
                 | Ok (JObj existing_data) =>
                     py_get existing_data "session_start" current_time
                 | Ok _ => current_time
                 | Raise _ => current_time
                 end
             | None => current_time
             end
             (isoformat now))).

(** Called when a COMPASS agent is used.  The item assignment raises
    [TypeError] on a value that is not a dict, which the function does not
    catch; the marker is then as it was. *)
Definition update_compass_session_activity (now : Z) (f : option file)
    : res (option file) :=
  match f with
  | None => Ok None
  | Some fl =>
      match json_load fl with
      | Ok (JObj session_data) =>
          Ok (Some (json_dump_indent
                      (JObj (dict_set "last_activity" (JStr (isoformat now))
                               session_data))))
      | Ok _ => Raise TypeError
      | Raise JSONDecodeError => Ok (create_compass_session_tracking now f)
      | Raise e => Raise e
      end
  end.

Definition session_step (f : option file) (step : Z * session_call)
    : res (option file) :=
  match snd step with
  | Create => Ok (create_compass_session_tracking (fst step) f)
  | Update => update_compass_session_activity (fst step) f
  end.

Fixpoint session_run (steps : list (Z * session_call)) (f : option file)
    : res (option file) :=
  match steps with
  | [] => Ok f
  | step :: rest => do f' <- session_step f step; session_run rest f'
  end.

End Session.

(** ** The journal ([compass-handler.log]) *)

Definition MAX_LOG_SIZE : Z := 2 * 1024 * 1024.

(** The journal [compass-handler.log]: its size in bytes and its lines.
    Every write of the handler ends its line with a newline, and the
    journal is taken to end with one whenever it is not empty, so that an
    appended line stands on its own. *)
Record journal := { log_size : Z; log_lines : list (option json) }.

(** The journal and its backup [compass-handler.log.old]. *)
Record logs := { current : option journal; backup : option journal }.

Definition empty_logs : logs := {| current := None; backup := None |}.

(** [open(log_file, "a")] and a write of [json.dumps(entry, separators=
    (",", ":")) + "\n"] *)
Definition append_line (entry : json) (j : option journal) : option journal :=
  match j with
  | Some jl =>
      Some {| log_size := log_size jl + (compact_len entry + 1);
              log_lines := log_lines jl ++ [Some entry] |}
  | None =>
      Some {| log_size := compact_len entry + 1;
              log_lines := [Some entry] |}
  end.

Inductive journal_write :=
| Activity (action details : string)
| TokenUsage (agent_type : string) (token_count : Z) (execution_type : string).

Section Journal.
Context {R : Runtime}.

(** The dict that [log_handler_activity] and [rotate_log_file] write; the
    action and the details are text at every call. *)
Definition log_entry (now : Z) (action details : string) : json :=
  JObj [("timestamp", JStr (isoformat now)); ("action", JStr action);
        ("details", JStr details); ("handler", JStr "compass-handler");
        ("version", JStr "2.1")]%string.

(** The backup is replaced by the journal, and a new journal starts with
    a line that tells so. *)
Definition rotate_log_file (now : Z) (st : logs) : logs :=
  {| current := append_line (log_entry now "log_rotated" "Rotated log file")
                  None;
     backup := current st |}.

Definition log_handler_activity (now : Z) (action details : string)
    (st : logs) : logs :=
  let st1 := match current st with
             | Some jl =>
                 if MAX_LOG_SIZE <? log_size jl then rotate_log_file now st
                 else st
             | None => st
             end in
  {| current := append_line (log_entry now action details) (current st1);
     backup := backup st1 |}.

Definition log_agent_token_usage (now : Z) (agent_type : string)
    (token_count : Z) (execution_type : string) (st : logs) : logs :=
  {| current :=
       append_line
         (JObj [("timestamp", JStr (isoformat now));
                ("action", JStr "agent_token_usage");
                ("agent_type", JStr agent_type);
                ("token_count", JInt token_count);
                ("execution_type", JStr execution_type);
                ("handler", JStr "compass-handler");
                ("version", JStr "2.1")]%string)
         (current st);
     backup := backup st |}.

Definition journal_step (st : logs) (w : Z * journal_write) : logs :=
  match snd w with
  | Activity action details => log_handler_activity (fst w) action details st
  | TokenUsage agent_type token_count execution_type =>
      log_agent_token_usage (fst w) agent_type token_count execution_type st
  end.

Definition journal_run (writes : list (Z * journal_write)) (st : logs)
    : logs :=
  fold_left journal_step writes st.

End Journal.

(** ** What a prompt and a tool call ask for

    [str.lower] and the [in] test on text, then the three functions that
    read a prompt or a tool call. *)

(** [c.lower()] for a code point below 256: the letters A to Z and the
    capital letters of Latin-1 (192 to 222, the multiplication sign 215
    apart) move up by 32. *)
Definition lower_char (c : ascii) : ascii :=
  let n := Z.of_N (N_of_ascii c) in
  if ((65 <=? n) && (n <=? 90))
     || ((192 <=? n) && (n <=? 222) && negb (n =? 215))
  then ascii_of_N (Z.to_N (n + 32))
  else c.

Fixpoint lower (s : string) : string :=
  match s with
  | EmptyString => EmptyString
  | String c s' => String (lower_char c) (lower s')
  end.

(** [sub in s] *)
Fixpoint contains (sub s : string) : bool :=
  String.prefix sub s
  || match s with
     | EmptyString => false
     | String _ s' => contains sub s'
     end.

(** [any(keyword in prompt_lower for keyword in keywords)] *)
Definition mentions (keywords : list string) (prompt_lower : string) : bool :=
  existsb (fun keyword => contains keyword prompt_lower) keywords.

Definition compass_agents : list string :=
  ["compass-captain"; "compass-knowledge-query"; "compass-pattern-apply";
   "compass-gap-analysis"; "compass-doc-planning";
   "compass-enhanced-analysis"; "compass-cross-reference"; "compass-coder";
   "compass-second-opinion"; "compass-breakthrough-doc";
   "compass-auth-performance-analyst"; "compass-auth-security-validator";
   "compass-auth-optimization-specialist"; "compass-upstream-validator";
   "compass-dependency-tracker"; "compass-writing-analyst";
   "compass-academic-analyst"; "compass-memory-enhanced-writer";
   "compass-data-flow"; "compass-todo-sync"]%string.

Definition captain_phrases : list string :=
  ["compass methodology"; "6-phase"; "institutional knowledge integration";
   "compass captain"; "coordinate compass"; "orchestrate compass"]%string.

(** The prompt is whatever the hook input holds under [prompt]: a value
    that is not text and not empty has no [lower] ([AttributeError]). *)
Definition detect_compass_agent_in_prompt (prompt : json)
    : res (option string) :=
  if negb (truthy prompt) then Ok None
  else
    match prompt with
    | JStr s =>
        let prompt_lower := lower s in
        match List.find (fun agent => contains agent prompt_lower)
                compass_agents with
        | Some agent => Ok (Some agent)
        | None =>
            if mentions captain_phrases prompt_lower
            then Ok (Some "compass-captain"%string)
            else Ok None
        end
    | _ => Raise AttributeError
    end.

Definition predict_specialist_delegation (prompt : string) : list string :=
  let prompt_lower := lower prompt in
  (if mentions ["code"; "function"; "class"; "implement"; "refactor"]%string
        prompt_lower then ["Code"%string] else [])
  ++ (if mentions ["coordinate"; "multi-step"; "complex"; "workflow"]%string
           prompt_lower then ["Task"%string] else [])
  ++ (if mentions ["debug"; "error"; "issue"; "problem";
                   "troubleshoot"]%string
           prompt_lower then ["Debugger"%string] else [])
  ++ (if mentions ["data"; "analysis"; "query"; "sql"; "bigquery"]%string
           prompt_lower then ["Data Scientist"%string] else []).

Definition complex_tools : list string :=
  ["mcp__serena__search_for_pattern"; "mcp__serena__find_symbol";
   "mcp__serena__find_referencing_symbols";
   "mcp__serena__get_symbols_overview"]%string.

Definition modification_tools : list string :=
  ["mcp__serena__replace_regex"; "mcp__serena__replace_symbol_body";
   "mcp__serena__insert_after_symbol";
   "mcp__serena__insert_before_symbol"]%string.

(** The tool name is text; the tool input is whatever the hook input holds
    under [tool_input].  A tool input that is not an object has no [get],
    a [relative_path] that is not text has no [lower]
    ([AttributeError]). *)
Definition requires_compass_methodology (tool_name : string)
    (tool_input : json) : res bool :=
  if existsb (String.eqb tool_name) complex_tools then Ok true
  else
    do systematic <-
      (if String.eqb tool_name "mcp__serena__read_file" then
         match tool_input with
         | JObj d =>
             match py_get d "relative_path" (JStr "") with
             | JStr relative_path =>
                 Ok (mentions ["src/"; "lib/"; "components/"; "services/";
                               "agents/"]%string (lower relative_path))
             | _ => Raise AttributeError
             end
         | _ => Raise AttributeError
         end
       else Ok false);
    if systematic then Ok true
    else
      do recursive <-
        (if String.eqb tool_name "mcp__serena__list_dir" then
           match tool_input with
           | JObj d => Ok (truthy (py_get d "recursive" (JBool false)))
           | _ => Raise AttributeError
           end
         else Ok false);
      if recursive then Ok true
      else Ok (existsb (String.eqb tool_name) modification_tools).

(** ** A runtime to run the model on examples

    The theorems hold for every [Runtime]; the examples need one.  This one
    keeps the clock in UTC; it writes and reads timestamps of the form
    [YYYY-MM-DDTHH:MM:SS[.ffffff][+HH:MM]], reads integers in plain decimal
    notation, quotes text without escapes, and has FNV-1a (64 bits) stand
    in for SHA-256. *)

Definition digit_char (d : Z) : ascii := ascii_of_N (Z.to_N (48 + d)).

Fixpoint pad_digits (width : nat) (n : Z) (acc : string) : string :=
  match width with
  | O => acc
  | S w => pad_digits w (n / 10) (String (digit_char (n mod 10)) acc)
  end.

Definition civil_from_days (days : Z) : Z * Z * Z :=
  let z := days + 719468 in
  let era := z / 146097 in
  let doe := z - era * 146097 in
  let yoe := (doe - doe / 1460 + doe / 36524 - doe / 146096) / 365 in
  let doy := doe - (365 * yoe + yoe / 4 - yoe / 100) in
  let mp := (5 * doy + 2) / 153 in
  let d := doy - (153 * mp + 2) / 5 + 1 in
  let m := if mp <? 10 then mp + 3 else mp - 9 in
  (yoe + era * 400 + (if m <=? 2 then 1 else 0), m, d).

Definition days_from_civil (y m d : Z) : Z :=
  let y' := if m <=? 2 then y - 1 else y in
  let era := y' / 400 in
  let yoe := y' - era * 400 in
  let doy := (153 * (if 2 <? m then m - 3 else m + 9) + 2) / 5 + d - 1 in
  era * 146097 + (yoe * 365 + yoe / 4 - yoe / 100 + doy) - 719468.

Definition utc_isoformat (t : Z) : string :=
  let us := t mod 1000000 in
  let s := t / 1000000 in
  let sod := s mod 86400 in
  let '(y, m, d) := civil_from_days (s / 86400) in
  pad_digits 4 y (String "-" (pad_digits 2 m (String "-" (pad_digits 2 d
    (String "T" (pad_digits 2 (sod / 3600) (String ":"
      (pad_digits 2 (sod mod 3600 / 60) (String ":" (pad_digits 2 (sod mod 60)
        (if us =? 0 then EmptyString
         else String "." (pad_digits 6 us EmptyString)))))))))))).

Fixpoint read_number (width : nat) (acc : Z) (s : string)
    : option (Z * string) :=
  match width with
  | O => Some (acc, s)
  | S w =>
      match s with
      | String c s' =>
          let n := Z.of_N (N_of_ascii c) in
          if (48 <=? n) && (n <=? 57)
          then read_number w (10 * acc + (n - 48)) s'
          else None
      | EmptyString => None
      end
  end.

Definition expect (c : ascii) (s : string) : option string :=
  match s with
  | String c' s' => if Ascii.eqb c c' then Some s' else None
  | EmptyString => None
  end.

Definition read_offset (s : string) : option (option Z) :=
  match s with
  | EmptyString => Some None
  | String sign s1 =>
      '(h, s2) ← read_number 2 0 s1;
      s3 ← expect ":" s2;
      '(m, s4) ← read_number 2 0 s3;
      match s4 with
      | EmptyString =>
          if Ascii.eqb sign "+" then Some (Some (h * 60 + m))
          else if Ascii.eqb sign "-" then Some (Some (- (h * 60 + m)))
          else None
      | _ => None
      end
  end.

Definition utc_fromisoformat (s : string) : option datetime :=
  '(y, s) ← read_number 4 0 s;
  s ← expect "-" s;
  '(m, s) ← read_number 2 0 s;
  s ← expect "-" s;
  '(d, s) ← read_number 2 0 s;
  s ← expect "T" s;
  '(hh, s) ← read_number 2 0 s;
  s ← expect ":" s;
  '(mm, s) ← read_number 2 0 s;
  s ← expect ":" s;
  '(ss, s) ← read_number 2 0 s;
  '(us, s) ← match expect "." s with
             | Some s' => read_number 6 0 s'
             | None => Some (0, s)
             end;
  offset ← read_offset s;
  let wall :=
    ((days_from_civil y m d * 86400 + hh * 3600 + mm * 60 + ss) * 1000000
     + us) in
  Some match offset with
       | Some minutes =>
           {| aware := true; instant := wall - minutes * 60 * 1000000 |}
       | None => {| aware := false; instant := wall |}
       end.

Fixpoint read_digits (acc : Z) (s : string) : option Z :=
  match s with
  | EmptyString => Some acc
  | String c s' =>
      let n := Z.of_N (N_of_ascii c) in
      if (48 <=? n) && (n <=? 57) then read_digits (10 * acc + (n - 48)) s'
      else None
  end.

Definition decimal_int_of_str (s : string) : option Z :=
  match s with
  | EmptyString => None
  | String c s' =>
      if Ascii.eqb c "-" then
        match s' with
        | EmptyString => None
        | _ => Z.opp <$> read_digits 0 s'
        end
      else read_digits 0 s
  end.

Fixpoint fnv1a (h : Z) (s : string) : Z :=
  match s with
  | EmptyString => h
  | String c s' =>
      fnv1a (Z.lxor h (Z.of_N (N_of_ascii c)) * 1099511628211 mod 2 ^ 64) s'
  end.

Definition hex_char (d : Z) : ascii :=
  ascii_of_N (Z.to_N (if d <? 10 then 48 + d else 87 + d)).

Fixpoint hex_digits (width : nat) (n : Z) (acc : string) : string :=
  match width with
  | O => acc
  | S w => hex_digits w (n / 16) (String (hex_char (n mod 16)) acc)
  end.

Definition sample_runtime : Runtime :=
  {| isoformat := utc_isoformat;
     fromisoformat := utc_fromisoformat;
     int_of_str := decimal_int_of_str;
     sha256_hexdigest := fun s =>
       hex_digits 16 (fnv1a 14695981039346656037 s) EmptyString;
     repr_str := fun s => String "'" (String.append s "'") |}.

(** ** The vocabulary of the statements, and sample data *)

(** The ledger the handler would write for agents [agent-01] ...
    [agent-n], the i-th with count i. *)
Definition numbered_agent (i : nat) : string :=
  String.append "agent-" (pad_digits 2 (Z.of_nat i) EmptyString).

Definition numbered_counts (first n : nat) : dict Z :=
  map (fun i => (numbered_agent i, Z.of_nat i)) (seq first n).

(** A ledger document with 26 agents, as 26 calls of [record] leave it. *)
Definition ledger_of_26 : dict json :=
  [("total", JInt 351);
   ("by_agent", JObj (counts_json (numbered_counts 1 26)));
   ("by_phase", JObj []);
   ("session_start", JStr "2026-11-06T01:09:00");
   ("last_update", JStr "2026-11-06T01:09:26")]%string.

(** Largest count first. *)
Definition descending (l : dict Z) : Prop :=
  StronglySorted (fun kv kv' => snd kv' <= snd kv) l.

(** A ledger document with seven agents, two of them with equal counts, and
    a total above the cap. *)
Definition crowded_counts : dict Z :=
  [("agent-a", 10); ("agent-b", 70); ("agent-c", 30); ("agent-d", 70);
   ("agent-e", 20); ("agent-f", 60); ("agent-g", 50)]%string.

Definition crowded_ledger : dict json :=
  [("total", JInt 2000000);
   ("by_agent", JObj (counts_json crowded_counts));
   ("by_phase", JObj (counts_json [("coordination", 5)]%string));
   ("session_start", JStr "2026-11-06T01:09:00");
   ("last_update", JStr "2026-11-06T01:09:26")]%string.

(** Two values returned by [read()] report the same counts. *)
Definition same_counts (v1 v2 : json) : Prop :=
  total_of v1 = total_of v2
  /\ by_agent_of v1 = by_agent_of v2
  /\ by_phase_of v1 = by_phase_of v2.

(** The ledger file is absent and nothing was counted, or it is a ledger
    written by the handler with total [t]. *)
Definition holds_total (f : option file) (t : Z) : Prop :=
  (f = None /\ t = 0)
  \/ exists l, f = Some (json_dump (ledger_json l)) /\ total l = t /\ 0 <= t.

(** The scenario of the specification: two agents, 100 and 50 tokens. *)
Definition two_calls : list call :=
  [{| at_time := 1793927400000000; agent := "agent-a"; amount := 100 |};
   {| at_time := 1793927401000000; agent := "agent-b"; amount := 50 |}].

(** An agent name of 2^18 = 262144 characters. *)
Fixpoint doubled (n : nat) (s : string) : string :=
  match n with
  | O => s
  | S n' => doubled n' (String.append s s)
  end.

Definition giant_name : string := doubled 18 "a".

Definition giant_then_small : list call :=
  [{| at_time := 1793927400000000; agent := giant_name; amount := 1 |};
   {| at_time := 1793927401000000; agent := "b"; amount := 2 |}].

Definition entry_of (c : call) : string * Z := (agent c, amount c).

(** After some calls with distinct agents: the ledger holds the entries
    of the last calls, at most 26 of them, and at most 8 phases. *)
Definition window_inv (done : list call) (f : option file) : Prop :=
  (done = [] /\ f = None)
  \/ exists l pre,
       f = Some (json_dump (ledger_json l))
       /\ map entry_of done = pre ++ by_agent l
       /\ (length (by_agent l) <= 26)%nat
       /\ (length (by_phase l) <= MAX_PHASE_TRACKING)%nat.

(** One call per agent name, the i-th with amount i, at times of the
    caller's choosing. *)
Fixpoint calls_from (i : nat) (clock : nat -> Z) (names : list string)
    : list call :=
  match names with
  | [] => []
  | a :: rest =>
      {| at_time := clock i; agent := a; amount := Z.of_nat i |}
      :: calls_from (S i) clock rest
  end.

(** One call per second. *)
Definition every_second (i : nat) : Z :=
  1793927400000000 + Z.of_nat i * 1000000.

(** The total that the ledger file holds. *)
Definition stored_total (f : option file) : option json :=
  match f with
  | Some (Doc _ j) => total_of j
  | _ => None
  end.

Section Staleness.
Context {R : Runtime}.

(** A timestamp source is out of its window: if the value is a timestamp,
    its instant lies at least [window] seconds before [now]. *)
Definition older_than (now window : Z) (timestamp : json) : bool :=
  match timestamp with
  | JStr s =>
      match fromisoformat (replace_Z s) with
      | Some dt => window * 1000000 <=? now - instant dt
      | None => true
      end
  | _ => true
  end.

Definition stale_session (now : Z) (f : option file) : bool :=
  match f with
  | Some (Doc _ (JObj o)) =>
      older_than now 7200 (py_get o "session_start" (JStr ""))
      && older_than now 1800 (py_get o "last_activity" (JStr ""))
  | _ => true
  end.

Definition stale_line (now : Z) (line : option json) : bool :=
  match line with
  | Some (JObj o) => older_than now 1800 (py_get o "timestamp" (JStr ""))
  | _ => true
  end.

Definition stale_tokens (now : Z) (f : option file) : bool :=
  match f with
  | Some (Doc _ (JObj o)) =>
      older_than now 1800 (py_get o "last_update" (JStr ""))
  | _ => true
  end.

(** Every timestamp source of the sensor is out of its window. *)
Definition sources_stale (now : Z) (d : disk) : bool :=
  stale_session now (session_file d)
  && match log_file d with
     | Some lines => forallb (stale_line now) lines
     | None => true
     end
  && forallb (fun st_mtime => st_mtime <=? now - 1800 * 1000000) (docs d)
  && stale_tokens now (token_file d).

End Staleness.

(** The file is absent, is not JSON, or holds a JSON object. *)
Definition holds_object (f : option file) : bool :=
  match f with
  | None | Some (Garbage _) | Some (Doc _ (JObj _)) => true
  | _ => false
  end.

(** The [by_agent] of the ledger file, when the file holds one. *)
Definition tracked_agents (f : option file) : option (list string) :=
  match f with
  | Some (Doc _ (JObj o)) =>
      match py_get o "by_agent" (JObj []) with
      | JObj ba => Some (keys ba)
      | _ => None
      end
  | _ => Some []
  end.

(** The file is absent or was written by [update_session_token_count]. *)
Definition written_by_handler (f : option file) : Prop :=
  f = None \/ exists l, f = Some (json_dump (ledger_json l)).

(** A disk whose every source is hours old: a session marker, a journal
    line, a document and a ledger that tracks no [compass-] agent. *)
Definition quiet_disk : disk :=
  {| status_file := false;
     session_file :=
       Some (Doc 120
               (JObj [("session_start", JStr "2026-11-05T20:00:00+00:00");
                      ("last_activity", JStr "2026-11-05T20:30:00Z");
                      ("compass_activated", JBool true);
                      ("version", JStr "2.1")]%string));
     log_file :=
       Some [Some (JObj [("timestamp", JStr "2026-11-05T20:30:00+00:00");
                         ("action", JStr "token_tracking");
                         ("details", JStr "processed")]%string);
             None];
     docs := [1793900000000000];
     token_file :=
       Some (json_dump
               (JObj [("total", JInt 10);
                      ("by_agent", JObj [("delegation_chain", JInt 10)]);
                      ("by_phase", JObj []);
                      ("session_start", JStr "2026-11-05T20:00:00+00:00");
                      ("last_update",
                       JStr "2026-11-05T20:30:00+00:00")]%string)) |}.

(** A disk that holds nothing but the ledger. *)
Definition ledger_only (f : option file) : disk :=
  {| status_file := false; session_file := None; log_file := None;
     docs := []; token_file := f |}.

(** A bucket map as the validation leaves it: distinct keys, counts that
    are not negative. *)
Definition clean_bucket (d : dict Z) : Prop :=
  List.NoDup (keys d) /\ Forall (fun kv => 0 <= snd kv) d.

(** The amounts recorded for one agent. *)
Definition agent_sum (a : string) (calls : list call) : Z :=
  sum_amounts
    (map amount (List.filter (fun c => String.eqb (agent c) a) calls)).

(** The agents of a sequence of calls, each once. *)
Definition distinct_agents (calls : list call) : list string :=
  nodup string_dec (map agent calls).

(** After some calls: the ledger holds one entry per agent called, with
    the sum of the amounts recorded for it. *)
Definition agents_inv (done : list call) (f : option file) : Prop :=
  (done = [] /\ f = None)
  \/ exists l,
       f = Some (json_dump (ledger_json l))
       /\ clean_bucket (by_agent l)
       /\ (forall a, In a (keys (by_agent l)) <-> In a (map agent done))
       /\ (forall a, py_get (by_agent l) a 0 = agent_sum a done).

(** Three calls, two of them for the same agent. *)
Definition three_calls : list call :=
  [{| at_time := 1793927400000000; agent := "agent-a"; amount := 100 |};
   {| at_time := 1793927401000000; agent := "agent-b"; amount := 50 |};
   {| at_time := 1793927402000000; agent := "agent-a"; amount := 25 |}].

(** The document that [cleanup_token_file] writes. *)
Definition compacted (written_at : string) (t : Z) (agents phases : dict Z)
    : json :=
  JObj [("total", JInt t);
        ("session_start", JStr written_at);
        ("last_update", JStr written_at);
        ("by_agent", JObj (counts_json agents));
        ("by_phase", JObj (counts_json phases))]%string.

(** The value is a JSON object. *)
Definition is_object (j : json) : bool :=
  match j with
  | JObj _ => true
  | _ => false
  end.

(** A ledger file from which an update takes nothing: it is above
    [MAX_TOKEN_FILE_SIZE] (on disk or as [load_json_memory_safe] measures
    it), is not JSON, or holds JSON other than an object. *)
Definition unreadable (fl : file) : bool :=
  (MAX_TOKEN_FILE_SIZE <? st_size fl)
  || match fl with
     | Binary _ => false
     | Garbage _ => true
     | Doc _ j => (MAX_TOKEN_FILE_SIZE <? default_len j) || negb (is_object j)
     end.

(** The size of a file that may be absent. *)
Definition size_of (f : option file) : Z :=
  match f with
  | Some fl => st_size fl
  | None => 0
  end.

(** The emergency cleanup gives up before it has done anything: the ledger
    is above its bound and is not UTF-8, or holds JSON other than an
    object. *)
Definition gives_up (f : option file) : bool :=
  match f with
  | Some fl =>
      (MAX_TOKEN_FILE_SIZE <? st_size fl)
      && match json_load fl with
         | Ok j => negb (is_object j)
         | Raise JSONDecodeError => false
         | Raise _ => true
         end
  | None => false
  end.

(** The directory without the entry of a key. *)
Definition without_entry (cache_key : string) (c : cache_dir) : cache_dir :=
  {| entries := delete cache_key (entries c); scripts := scripts c |}.

(** The timestamp that the handler writes when the clock reads [t] is read
    back as a naive datetime, or not read back at all. *)
Definition reads_naive `{Runtime} (t : Z) : bool :=
  match fromisoformat (replace_Z (isoformat t)) with
  | Some dt => negb (aware dt)
  | None => true
  end.

(** The disk with another journal. *)
Definition with_journal (d : disk) (lines : list (option json)) : disk :=
  {| status_file := status_file d; session_file := session_file d;
     log_file := Some lines; docs := docs d; token_file := token_file d |}.

(** Journal lines that are not JSON. *)
Definition blank_lines (n : nat) : list (option json) := repeat None n.

(** The time of the last step, [t0] when there is none. *)
Fixpoint last_time (t0 : Z) (steps : list (Z * session_call)) : Z :=
  match steps with
  | [] => t0
  | step :: rest => last_time (fst step) rest
  end.

(** The lines of a journal that may be absent. *)
Definition lines_of (j : option journal) : list (option json) :=
  match j with
  | Some jl => log_lines jl
  | None => []
  end.

(** A disk that holds nothing but the journal. *)
Definition journal_only (st : logs) : disk :=
  {| status_file := false; session_file := None;
     log_file := option_map log_lines (current st);
     docs := []; token_file := None |}.

Section Lines.
Context {R : Runtime}.

(** A line as the handler writes it at a time whose timestamp reads back
    naive: an object with that timestamp, whose [agent_type], if any, is
    text. *)
Definition handler_line (line : option json) : Prop :=
  exists t o,
    line = Some (JObj o)
    /\ reads_naive t = true
    /\ dict_get "timestamp" o = Some (JStr (isoformat t))
    /\ (dict_get "agent_type" o = None
        \/ exists a, dict_get "agent_type" o = Some (JStr a)).

End Lines.

(** The disk after a first tracked invocation at time [t]: the session
    marker and the ledger as [create_compass_session_tracking] and
    [update_session_token_count] write them at [t], the journal as the
    handler's [writes] leave it; no status-marker file and no document. *)
Definition after_invocation `{Runtime} (t : Z) (agent_type : string)
    (token_count : Z) (writes : list (Z * journal_write)) : disk :=
  {| status_file := false;
     session_file := create_compass_session_tracking t None;
     log_file := option_map log_lines (current (journal_run writes empty_logs));
     docs := [];
     token_file := update_session_token_count t agent_type token_count None |}.

(** What the journal holds after a prompt and a tracked invocation. *)
Definition prompt_and_invocation (t : Z) (details : string)
    : list (Z * journal_write) :=
  [(t, Activity "session_tracking" "COMPASS session tracking updated");
   (t, Activity "token_tracking" details)].

(** * Properties *)

(** ** The knowledge-query cache *)

(** The order on text used by [sorted] is transitive. *)
Lemma string_compare_trans (c : comparison) (s1 s2 s3 : string) :
  String.compare s1 s2 = c -> String.compare s2 s3 = c ->
  String.compare s1 s3 = c.
Proof.
  revert s2 s3.
  induction s1 as [|a1 s1 IH]; intros [|a2 s2] [|a3 s3]; simpl;
    try congruence.
  unfold Ascii.compare.
  destruct (N.compare_spec (N_of_ascii a1) (N_of_ascii a2)) as [E12|L12|G12];
    destruct (N.compare_spec (N_of_ascii a2) (N_of_ascii a3)) as [E23|L23|G23];
    intros H1 H2; subst c; try congruence.
  - rewrite E12, E23, N.compare_refl. eapply IH; [reflexivity | congruence].
  - rewrite E12. now apply N.compare_lt_iff in L23 as ->.
  - rewrite E12. now apply N.compare_gt_iff in G23 as ->.
  - rewrite <- E23. now apply N.compare_lt_iff in L12 as ->.
  - assert (N_of_ascii a1 < N_of_ascii a3)%N as L by lia.
    now apply N.compare_lt_iff in L as ->.
  - rewrite <- E23. now apply N.compare_gt_iff in G12 as ->.
  - assert (N_of_ascii a3 < N_of_ascii a1)%N as L by lia.
    now apply N.compare_gt_iff in L as ->.
Qed.

Lemma string_leb_trans (s1 s2 s3 : string) :
  String.leb s1 s2 = true -> String.leb s2 s3 = true ->
  String.leb s1 s3 = true.
Proof.
  unfold String.leb.
  destruct (String.compare s1 s2) eqn:E12; try discriminate;
    destruct (String.compare s2 s3) eqn:E23; try discriminate; intros _ _.
  - apply String.compare_eq_iff in E12 as ->. now rewrite E23.
  - apply String.compare_eq_iff in E12 as ->. now rewrite E23.
  - apply String.compare_eq_iff in E23 as <-. now rewrite E12.
  - now rewrite (string_compare_trans Lt _ _ _ E12 E23).
Qed.

Lemma string_leb_false (s1 s2 : string) :
  String.leb s1 s2 = false -> String.leb s2 s1 = true.
Proof.
  intros H. destruct (String.leb_total s1 s2); congruence.
Qed.

(** Inserting two keywords gives the same list in either order. *)
Lemma insert_str_comm (x y : string) (l : list string) :
  insert_str x (insert_str y l) = insert_str y (insert_str x l).
Proof.
  induction l as [|a l IH]; simpl.
  - destruct (String.leb x y) eqn:Exy, (String.leb y x) eqn:Eyx;
      try reflexivity.
    + now rewrite (String.leb_antisym _ _ Exy Eyx).
    + apply string_leb_false in Exy. congruence.
  - destruct (String.leb y a) eqn:Eya, (String.leb x a) eqn:Exa; simpl;
      rewrite ?Eya, ?Exa.
    + destruct (String.leb x y) eqn:Exy, (String.leb y x) eqn:Eyx;
        try reflexivity.
      * now rewrite (String.leb_antisym _ _ Exy Eyx).
      * apply string_leb_false in Exy. congruence.
    + assert (String.leb x y = false) as ->.
      { destruct (String.leb x y) eqn:Exy; [|reflexivity].
        now rewrite (string_leb_trans _ _ _ Exy Eya) in Exa. }
      reflexivity.
    + assert (String.leb y x = false) as ->.
      { destruct (String.leb y x) eqn:Eyx; [|reflexivity].
        now rewrite (string_leb_trans _ _ _ Eyx Exa) in Eya. }
      reflexivity.
    + now rewrite IH.
Qed.

Lemma py_sorted_permutation (l1 l2 : list string) :
  Permutation l1 l2 -> py_sorted l1 = py_sorted l2.
Proof.
  induction 1 as [|x l1 l2 _ IH|x y l|l1 l2 l3 _ IH1 _ IH2]; simpl.
  - reflexivity.
  - now rewrite IH.
  - apply insert_str_comm.
  - congruence.
Qed.

(** C8.  For every task description and every two keyword lists that are
    permutations of each other, [get_cache_key] returns the same digest key:
    the keywords are sorted before they are hashed. *)
Theorem get_cache_key_order_independent `{Runtime}
    (task_description : string) (keywords1 keywords2 : list string) :
  Permutation keywords1 keywords2 ->
  get_cache_key task_description keywords1
  = get_cache_key task_description keywords2.
Proof.
  intros Hperm. unfold get_cache_key.
  now rewrite (py_sorted_permutation _ _ Hperm).
Qed.

Lemma get_cache_key_order_independent_witness :
  Permutation ["heap"; "crash"; "agent"]%string ["agent"; "heap"; "crash"]%string
  /\ @get_cache_key sample_runtime "why does it crash"
       ["heap"; "crash"; "agent"]%string
     = @get_cache_key sample_runtime "why does it crash"
         ["agent"; "heap"; "crash"]%string.
Proof.
  assert (Permutation ["heap"; "crash"; "agent"]%string
                      ["agent"; "heap"; "crash"]%string) as Hperm.
  { apply Permutation_sym, (Permutation_cons_app ["heap"; "crash"]%string []).
    apply Permutation_refl. }
  split; [exact Hperm|].
  exact (@get_cache_key_order_independent sample_runtime _ _ _ Hperm).
Defined.

(** C6.  An entry stored at time [T] is returned by a lookup one second
    before its time to live (one hour) has passed; a lookup one second after
    reports a miss and removes the entry file. *)
Theorem cached_entry_hit_before_ttl_miss_after
    (T : Z) (cache_key : string) (payload : json) (c : cache_dir) :
  let stored := save_knowledge_cache T cache_key payload c in
  let before := T + KNOWLEDGE_CACHE_TTL * 1000000 - 1000000 in
  let after := T + KNOWLEDGE_CACHE_TTL * 1000000 + 1000000 in
  load_cached_knowledge before cache_key stored = (Some payload, stored)
  /\ fst (load_cached_knowledge after cache_key stored) = None
  /\ entries (snd (load_cached_knowledge after cache_key stored))
     = delete cache_key (entries stored).
Proof.
  simpl. unfold load_cached_knowledge, save_knowledge_cache; simpl.
  rewrite lookup_insert_eq; simpl.
  unfold KNOWLEDGE_CACHE_TTL.
  replace (3600 * 1000000 <? T + 3600 * 1000000 - 1000000 - T) with false
    by (symmetry; apply Z.ltb_ge; lia).
  replace (3600 * 1000000 <? T + 3600 * 1000000 + 1000000 - T) with true
    by (symmetry; apply Z.ltb_lt; lia).
  auto.
Qed.

(** What the lookup that opens [execute_knowledge_query_subprocess] does to
    the entries: nothing, or it removes the expired entry of the key. *)
Lemma load_cached_knowledge_entries (now : Z) (cache_key : string)
    (c : cache_dir) :
  let c1 := snd (load_cached_knowledge now cache_key c) in
  scripts c1 = scripts c
  /\ (entries c1 = entries c
      \/ exists e, entries c !! cache_key = Some e
                   /\ KNOWLEDGE_CACHE_TTL * 1000000 < now - st_mtime e
                   /\ entries c1 = delete cache_key (entries c)).
Proof.
  unfold load_cached_knowledge.
  destruct (entries c !! cache_key) as [e|] eqn:He; simpl; [|auto].
  destruct (KNOWLEDGE_CACHE_TTL * 1000000 <? now - st_mtime e) eqn:Hage;
    simpl; [|auto].
  split; [reflexivity|]. right. exists e. apply Z.ltb_lt in Hage. auto.
Qed.

(** C7, as the code has it.  When the lookup misses and the process times
    out or exits with a code other than 0, the call returns an error value
    with a reason, stores nothing, and leaves no script behind; the entries
    are those of the directory before the call, except that the lookup has
    removed the entry of this key if it had expired. *)
Theorem failed_query_stores_nothing `{Runtime} (now later : Z)
    (task_description : string) (topic_keywords : list string)
    (run : completed) (c : cache_dir) :
  let cache_key := get_cache_key task_description topic_keywords in
  let lookup := load_cached_knowledge now cache_key c in
  let result :=
    execute_knowledge_query_subprocess now later task_description
      topic_keywords run c in
  usable (fst lookup) = None ->
  failed run = true ->
  (exists status reason,
      fst result = error_result status reason task_description)
  /\ entries (snd result) = entries (snd lookup)
  /\ (cache_key ∉ scripts (snd result))
  /\ (entries (snd result) = entries c
      \/ exists e, entries c !! cache_key = Some e
                   /\ KNOWLEDGE_CACHE_TTL * 1000000 < now - st_mtime e
                   /\ entries (snd result) = delete cache_key (entries c)).
Proof.
  intros cache_key lookup result Hmiss Hfail.
  assert (exists status reason,
             result = (error_result status reason task_description,
                       unlink_script cache_key
                         (write_script cache_key (snd lookup)))) as Hres.
  { subst result. unfold execute_knowledge_query_subprocess.
    fold cache_key. fold lookup.
    destruct lookup as [cached c1]; simpl in *. rewrite Hmiss.
    destruct run as [|rc out err]; simpl in Hfail.
    - eauto.
    - destruct rc; try discriminate; eauto. }
  destruct Hres as (status & reason & Hres). rewrite Hres. simpl.
  split; [eauto|]. split; [reflexivity|].
  split; [intros Hin; apply elem_of_difference in Hin as [_ Hin];
          apply Hin, elem_of_singleton; reflexivity|].
  apply (load_cached_knowledge_entries now cache_key c).
Qed.

Lemma failed_query_stores_nothing_witness :
  let c := {| entries := ∅; scripts := ∅ |} in
  let result :=
    @execute_knowledge_query_subprocess sample_runtime 0 300000000
      "why does it crash" ["heap"]%string TimeoutExpired c in
  fst result
  = error_result "timeout" "Knowledge query timed out after 300s"
      "why does it crash"
  /\ entries (snd result) = entries c.
Proof.
  pose proof (@failed_query_stores_nothing sample_runtime 0 300000000
                "why does it crash" ["heap"]%string TimeoutExpired
                {| entries := ∅; scripts := ∅ |}) as Hthm.
  simpl in Hthm.
  destruct (Hthm eq_refl eq_refl) as (_ & Hentries & _).
  split; [reflexivity | exact Hentries].
Defined.

(** A failed query whose lookup finds an expired entry leaves the
    directory without that entry. *)
Lemma failed_query_drops_expired `{Runtime} (now later : Z)
    (task_description : string) (topic_keywords : list string)
    (run : completed) (c : cache_dir) (e : cache_entry) :
  let cache_key := get_cache_key task_description topic_keywords in
  entries c !! cache_key = Some e ->
  KNOWLEDGE_CACHE_TTL * 1000000 < now - st_mtime e ->
  failed run = true ->
  usable (fst (load_cached_knowledge now cache_key c)) = None
  /\ entries (snd (execute_knowledge_query_subprocess now later
                     task_description topic_keywords run c)) !! cache_key
     = None.
Proof.
  intros cache_key He Hage Hfail.
  apply Z.ltb_lt in Hage.
  unfold execute_knowledge_query_subprocess. fold cache_key.
  unfold load_cached_knowledge. rewrite He, Hage.
  split; [reflexivity|].
  cbn [usable].
  destruct run as [|rc out err]; [|destruct rc; try discriminate];
    cbn [snd entries unlink_script write_script]; apply lookup_delete_eq.
Qed.

(** C7 as stated fails when the miss is an expired entry: the call removes
    it, so the entries are not those of before the call. *)
Lemma failed_query_removes_expired_entry :
  let stale :=
    {| st_mtime := 0;
       pickled := Some (JObj [("status", JStr "success")]%string) |} in
  let cache_key :=
    @get_cache_key sample_runtime "why does it crash" ["heap"]%string in
  let c := {| entries := {[cache_key := stale]}; scripts := ∅ |} in
  let result :=
    @execute_knowledge_query_subprocess sample_runtime 7200000000 7500000000
      "why does it crash" ["heap"]%string TimeoutExpired c in
  failed TimeoutExpired = true
  /\ usable (fst (load_cached_knowledge 7200000000 cache_key c)) = None
  /\ entries c !! cache_key = Some stale
  /\ entries (snd result) !! cache_key = None
  /\ entries (snd result) <> entries c.
Proof.
  intros stale cache_key c result.
  assert (entries c !! cache_key = Some stale) as Hc
    by apply lookup_singleton_eq.
  destruct (@failed_query_drops_expired sample_runtime 7200000000 7500000000
              "why does it crash" ["heap"]%string TimeoutExpired c stale Hc)
    as [Hmiss Hgone]; [reflexivity | reflexivity |].
  repeat split; try assumption.
  intros Heq.
  change (entries (snd result) !! cache_key = None) in Hgone.
  rewrite Heq in Hgone. congruence.
Qed.

(** ** The usage ledger *)

(** The evictions leave the total alone, and leave alone a bucket map that
    is within its bound. *)
Lemma total_evict (l : ledger) : total (evict l) = total l.
Proof.
  unfold evict, cleanup_old_agents_optimized, cleanup_old_phases.
  repeat match goal with |- context [if ?b then _ else _] => destruct b end;
    reflexivity.
Qed.

Lemma total_add_tokens `{Runtime} (now : Z) (a : string) (n : Z)
    (l : ledger) :
  total (add_tokens now a n l) = total l + n.
Proof. unfold add_tokens. now rewrite total_evict. Qed.

Lemma by_agent_evict (l : ledger) :
  (length (by_agent l) <= MAX_AGENT_TRACKING)%nat ->
  by_agent (evict l) = by_agent l.
Proof.
  intros Hlen. apply Nat.ltb_ge in Hlen.
  unfold evict, cleanup_old_phases. rewrite Hlen. clear Hlen.
  destruct (_ <? _)%nat; reflexivity.
Qed.

Lemma total_of_ledger_json (l : ledger) :
  total_of (ledger_json l) = Some (JInt (total l)).
Proof. reflexivity. Qed.

Lemma by_agent_of_ledger_json (l : ledger) :
  by_agent_of (ledger_json l) = Some (JObj (counts_json (by_agent l))).
Proof. reflexivity. Qed.

Lemma by_phase_of_ledger_json (l : ledger) :
  by_phase_of (ledger_json l) = Some (JObj (counts_json (by_phase l))).
Proof. reflexivity. Qed.

(** A document with an integer total: the validation keeps the total, or
    0 when it is negative. *)
Lemma validate_total `{Runtime} (now t : Z) (d : dict json) :
  dict_get "total" d = Some (JInt t) ->
  exists l, validate_and_clean_token_data now (JObj d) = Ok l
            /\ total l = Z.max 0 t
            /\ by_agent l =
               match py_get d "by_agent" (JObj []) with
               | JObj ba =>
                   if (length ba <=? MAX_TOKEN_SESSIONS)%nat
                   then clean_counts ba else []
               | _ => []
               end.
Proof.
  intros Ht. unfold validate_and_clean_token_data, py_get at 1.
  rewrite Ht. simpl. eauto.
Qed.

(** C10.  A ledger document whose [by_agent] has more than
    [MAX_TOKEN_SESSIONS] = 25 entries comes out of the validation with an
    empty [by_agent] and its total kept.  So [read()] reports no agent at
    all, and [record()] writes a ledger whose only agent is the one of the
    call: the buckets do not survive a load once more than 25 agents are
    tracked. *)
Theorem validation_discards_by_agent_over_25 `{Runtime} (now t size : Z)
    (d ba : dict json) (agent_type : string) (token_count : Z) :
  dict_get "by_agent" d = Some (JObj ba) ->
  (MAX_TOKEN_SESSIONS < length ba)%nat ->
  dict_get "total" d = Some (JInt t) ->
  0 <= t ->
  (exists l, validate_and_clean_token_data now (JObj d) = Ok l
             /\ by_agent l = [] /\ total l = t)
  /\ (size <= 2 * 1024 * 1024 ->
      let v := fst (get_current_session_tokens now
                      (Some (Doc size (JObj d)))) in
      by_agent_of v = Some (JObj []) /\ total_of v = Some (JInt t))
  /\ (fits (Some (Doc size (JObj d))) = true ->
      exists l', update_session_token_count now agent_type token_count
                   (Some (Doc size (JObj d)))
                 = Some (json_dump (ledger_json l'))
                 /\ by_agent l' = [(agent_type, token_count)]
                 /\ total l' = t + token_count).
Proof.
  intros Hba Hlen Ht Hpos.
  destruct (validate_total now t d Ht) as (l & Hval & Htot & Hagents).
  assert (by_agent l = []) as Hnil.
  { rewrite Hagents. unfold py_get. rewrite Hba.
    apply Nat.leb_gt in Hlen. now rewrite Hlen. }
  assert (total l = t) as Htot' by lia.
  split; [eauto|]. split.
  - intros Hsize. unfold get_current_session_tokens.
    cbn [st_size json_load].
    apply Z.ltb_ge in Hsize. rewrite Hsize, Hval. cbn [fst].
    rewrite by_agent_of_ledger_json, total_of_ledger_json.
    now rewrite Hnil, Htot'.
  - unfold fits. intros [Hdisk Hdump]%andb_prop.
    apply Z.leb_le, Z.ltb_ge in Hdisk. apply Z.leb_le, Z.ltb_ge in Hdump.
    exists (add_tokens now agent_type token_count l).
    split; [|split].
    + unfold update_session_token_count, precheck.
      cbn [st_size]. rewrite Hdisk.
      unfold locked_update, load_session, load_json_memory_safe.
      cbn [st_size json_load]. rewrite Hdisk, Hdump.
      cbn [res_bind]. now rewrite Hval.
    + unfold add_tokens. rewrite by_agent_evict; simpl; rewrite Hnil; simpl.
      * reflexivity.
      * unfold MAX_AGENT_TRACKING. lia.
    + now rewrite total_add_tokens, Htot'.
Qed.

Lemma validation_discards_by_agent_over_25_witness :
  let now := 1793927400000000 in
  let f := Some (json_dump (JObj ledger_of_26)) in
  (exists l, @validate_and_clean_token_data sample_runtime now
               (JObj ledger_of_26) = Ok l
             /\ by_agent l = [] /\ total l = 351)
  /\ by_agent_of (fst (@get_current_session_tokens sample_runtime now f))
     = Some (JObj [])
  /\ total_of (fst (@get_current_session_tokens sample_runtime now f))
     = Some (JInt 351)
  /\ exists l', @update_session_token_count sample_runtime now
                  "agent-27" 27 f
                = Some (json_dump (ledger_json l'))
                /\ by_agent l' = [("agent-27"%string, 27)]
                /\ total l' = 378.
Proof.
  destruct (@validation_discards_by_agent_over_25 sample_runtime
              1793927400000000 351 (compact_len (JObj ledger_of_26))
              ledger_of_26 (counts_json (numbered_counts 1 26))
              "agent-27" 27)
    as (Hvalidate & Hread & Hrecord).
  - reflexivity.
  - vm_compute. lia.
  - reflexivity.
  - lia.
  - split; [exact Hvalidate|].
    destruct Hread as [Hagents Htotal]; [vm_compute; discriminate|].
    split; [exact Hagents|]. split; [exact Htotal|].
    apply Hrecord. vm_compute. reflexivity.
Defined.

(** C3 at a ledger file that holds [{"total":null}]: the call
    [record("x", 10)] is dropped (the [TypeError] of [int(None)] reaches the
    outer handler before anything is written), and [read()] then reports a
    total of 0, not 10. *)
Theorem record_dropped_on_invalid_total `{Runtime} (now later : Z) :
  let f := Some (Doc 14 (JObj [("total", JNull)]%string)) in
  update_session_token_count now "x" 10 f = f
  /\ get_current_session_tokens later f = (zero_totals, f)
  /\ total_of (fst (get_current_session_tokens later
                      (update_session_token_count now "x" 10 f)))
     = Some (JInt 0).
Proof. repeat split. Qed.

(** The same with [{"total":"abc"}], where [int("abc")] raises
    [ValueError]. *)
Example record_dropped_on_text_total :
  let f := Some (Doc 15 (JObj [("total", JStr "abc")]%string)) in
  @update_session_token_count sample_runtime 1793927400000000 "x" 10 f = f
  /\ @get_current_session_tokens sample_runtime 1793927401000000 f
     = (zero_totals, f).
Proof. split; reflexivity. Qed.

(** A file that does not parse is reset, as C3 says: the call is applied
    to an empty ledger. *)
Example record_after_unparseable_file :
  let f := @update_session_token_count sample_runtime 1793927400000000
             "x" 10 (Some (Garbage 7)) in
  total_of (fst (@get_current_session_tokens sample_runtime
                   1793927401000000 f)) = Some (JInt 10).
Proof. reflexivity. Qed.

(** *** Sorting by count *)

Lemma insert_desc_permutation {A} (lt : A -> A -> bool) (kv : string * A)
    (l : dict A) :
  Permutation (insert_desc lt kv l) (kv :: l).
Proof.
  induction l as [|kv' l IH]; simpl; [reflexivity|].
  destruct (lt (snd kv) (snd kv')); [|reflexivity].
  rewrite IH. apply perm_swap.
Qed.

Lemma sorted_desc_permutation {A} (lt : A -> A -> bool) (d : dict A) :
  Permutation (sorted_desc lt d) d.
Proof.
  induction d as [|kv d IH]; simpl; [reflexivity|].
  rewrite insert_desc_permutation. now apply perm_skip.
Qed.

Lemma length_sorted_desc {A} (lt : A -> A -> bool) (d : dict A) :
  length (sorted_desc lt d) = length d.
Proof. apply Permutation_length, sorted_desc_permutation. Qed.

Lemma insert_desc_descending (kv : string * Z) (l : dict Z) :
  descending l -> descending (insert_desc Z.ltb kv l).
Proof.
  unfold descending.
  induction l as [|kv' l IH]; simpl; intros Hs.
  - constructor; [constructor | constructor].
  - apply StronglySorted_inv in Hs as [Hs Hall].
    destruct (snd kv <? snd kv') eqn:Hlt.
    + apply Z.ltb_lt in Hlt. constructor; [auto|].
      eapply Permutation_Forall;
        [symmetry; apply insert_desc_permutation|].
      constructor; [lia | exact Hall].
    + apply Z.ltb_ge in Hlt. constructor.
      * constructor; assumption.
      * constructor; [exact Hlt|].
        eapply List.Forall_impl; [|exact Hall]. simpl. intros. lia.
Qed.

Lemma sorted_desc_descending (d : dict Z) : descending (sorted_desc Z.ltb d).
Proof.
  induction d as [|kv d IH]; simpl.
  - constructor.
  - now apply insert_desc_descending.
Qed.

Lemma descending_split (n : nat) (l : dict Z) :
  descending l ->
  forall kv kv', In kv (firstn n l) -> In kv' (skipn n l) ->
                 snd kv' <= snd kv.
Proof.
  unfold descending. revert l.
  induction n as [|n IH]; intros [|a l] Hs kv kv'; simpl; try tauto.
  apply StronglySorted_inv in Hs as [Hs Hall].
  intros [<-|Hin] Hin'.
  - rewrite List.Forall_forall in Hall. apply Hall.
    rewrite <- (firstn_skipn n l). apply in_or_app. now right.
  - eauto.
Qed.

(** The entries that an eviction to [n] keeps are [n] entries with the
    largest counts: together with the entries dropped they are the map, and
    no dropped count exceeds a kept one. *)
Lemma top_entries_kept (n : nat) (d : dict Z) :
  let kept := firstn n (sorted_desc Z.ltb d) in
  let dropped := skipn n (sorted_desc Z.ltb d) in
  Permutation (kept ++ dropped) d
  /\ length kept = Nat.min n (length d)
  /\ forall kv kv', In kv kept -> In kv' dropped -> snd kv' <= snd kv.
Proof.
  simpl. split; [|split].
  - rewrite firstn_skipn. apply sorted_desc_permutation.
  - now rewrite length_firstn, length_sorted_desc.
  - apply descending_split, sorted_desc_descending.
Qed.

(** On integer counts the untyped sort does not raise and agrees with the
    typed one. *)
Lemma json_ltb_int (x y : Z) : json_ltb (JInt x) (JInt y) = (x <? y).
Proof. unfold json_ltb; simpl. now destruct (x <? y). Qed.

Lemma insert_desc_counts_json (kv : string * Z) (d : dict Z) :
  insert_desc json_ltb (fst kv, JInt (snd kv)) (counts_json d)
  = counts_json (insert_desc Z.ltb kv d).
Proof.
  induction d as [|kv' d IH]; simpl; [reflexivity|].
  rewrite json_ltb_int. destruct (snd kv <? snd kv'); simpl.
  - now rewrite IH.
  - reflexivity.
Qed.

Lemma sorted_desc_counts_json (d : dict Z) :
  sorted_desc json_ltb (counts_json d) = counts_json (sorted_desc Z.ltb d).
Proof.
  induction d as [|kv d IH]; simpl; [reflexivity|].
  now rewrite IH, insert_desc_counts_json.
Qed.

Lemma comparable_all_counts_json (d : dict Z) :
  comparable_all (map snd (counts_json d)) = true.
Proof.
  induction d as [|kv d IH]; simpl; [reflexivity|].
  rewrite IH, andb_true_r. apply forallb_forall.
  intros y Hy. apply in_map_iff in Hy as (kv' & <- & Hin).
  apply in_map_iff in Hin as (kv'' & <- & _). reflexivity.
Qed.

Lemma sorted_items_counts_json (d : dict Z) :
  sorted_items (counts_json d) = Ok (counts_json (sorted_desc Z.ltb d)).
Proof.
  unfold sorted_items.
  now rewrite comparable_all_counts_json, sorted_desc_counts_json.
Qed.

(** *** Compaction *)

Lemma firstn_counts_json (n : nat) (d : dict Z) :
  firstn n (counts_json d) = counts_json (firstn n d).
Proof. apply firstn_map. Qed.

Lemma py_get_some {A} (d : dict A) (k : string) (default v : A) :
  dict_get k d = Some v -> py_get d k default = v.
Proof. unfold py_get. now intros ->. Qed.

(** C5, as the code has it.  [cleanup_token_file]
    - replaces a file above [MAX_TOKEN_FILE_SIZE] by a zeroed ledger without
      reading it (the total is not kept);
    - deletes a file within the bound whose content is not JSON;
    - rewrites a file within the bound that holds an object with an integer
      total and integer counts: the total capped at 1,000,000, both
      timestamps set to the current time, the 5 agents and the 8 phases
      with the largest counts.
    What it does on other content is not part of the statement. *)
Theorem compaction_outcomes `{Runtime} (now : Z) (f : file) :
  (MAX_TOKEN_FILE_SIZE < st_size f ->
   exists j, cleanup_token_file now f = Ok (Some (json_dump j))
             /\ total_of j = Some (JInt 0)
             /\ by_agent_of j = Some (JObj [])
             /\ by_phase_of j = Some (JObj [])
             /\ field "session_start" j = Some (JStr (isoformat now))
             /\ field "last_update" j = Some (JStr (isoformat now)))
  /\ (forall size, f = Garbage size -> size <= MAX_TOKEN_FILE_SIZE ->
      cleanup_token_file now f = Ok None)
  /\ (forall size d t ba bp,
      f = Doc size (JObj d) -> size <= MAX_TOKEN_FILE_SIZE ->
      dict_get "total" d = Some (JInt t) ->
      dict_get "by_agent" d = Some (JObj (counts_json ba)) ->
      dict_get "by_phase" d = Some (JObj (counts_json bp)) ->
      let agents := firstn 5 (sorted_desc Z.ltb ba) in
      let phases := firstn MAX_PHASE_TRACKING (sorted_desc Z.ltb bp) in
      cleanup_token_file now f
      = Ok (Some (json_dump
                    (JObj [("total", JInt (Z.min t 1000000));
                           ("session_start", JStr (isoformat now));
                           ("last_update", JStr (isoformat now));
                           ("by_agent", JObj (counts_json agents));
                           ("by_phase", JObj (counts_json phases))]%string)))
      /\ (length agents <= 5)%nat /\ (length phases <= 8)%nat
      /\ (forall kv kv', In kv agents ->
                         In kv' (skipn 5 (sorted_desc Z.ltb ba)) ->
                         snd kv' <= snd kv)).
Proof.
  split; [|split].
  - intros Hbig. apply Z.ltb_lt in Hbig.
    unfold cleanup_token_file. rewrite Hbig.
    unfold perform_emergency_token_cleanup. eexists.
    split; [reflexivity|]. repeat split.
  - intros size -> Hsize. apply Z.ltb_ge in Hsize.
    unfold cleanup_token_file. cbn [st_size json_load]. now rewrite Hsize.
  - intros size d t ba bp -> Hsize Ht Hba Hbp agents phases.
    apply Z.ltb_ge in Hsize.
    unfold cleanup_token_file. cbn [st_size json_load]. rewrite Hsize.
    rewrite (py_get_some _ _ _ _ Ht), (py_get_some _ _ _ _ Hba),
      (py_get_some _ _ _ _ Hbp).
    rewrite !sorted_items_counts_json. cbn [res_bind min_total].
    rewrite !firstn_counts_json. fold agents phases.
    replace (if 1000000 <? t then 1000000 else t) with (Z.min t 1000000)
      by (destruct (Z.ltb_spec 1000000 t); lia).
    split; [reflexivity|].
    split; [|split].
    + subst agents. rewrite length_firstn. lia.
    + subst phases. rewrite length_firstn. unfold MAX_PHASE_TRACKING. lia.
    + apply descending_split, sorted_desc_descending.
Qed.

Lemma compaction_outcomes_witness :
  let now := 1793927400000000 in
  (exists j, @cleanup_token_file sample_runtime now (Garbage 300000)
             = Ok (Some (json_dump j))
             /\ total_of j = Some (JInt 0))
  /\ @cleanup_token_file sample_runtime now (Garbage 7) = Ok None
  /\ @cleanup_token_file sample_runtime now
       (Doc (compact_len (JObj crowded_ledger)) (JObj crowded_ledger))
     = Ok (Some (json_dump
                   (JObj [("total", JInt 1000000);
                          ("session_start", JStr "2026-11-06T01:10:00");
                          ("last_update", JStr "2026-11-06T01:10:00");
                          ("by_agent",
                           JObj [("agent-b", JInt 70); ("agent-d", JInt 70);
                                 ("agent-f", JInt 60); ("agent-g", JInt 50);
                                 ("agent-c", JInt 30)]);
                          ("by_phase",
                           JObj [("coordination", JInt 5)])]%string))).
Proof.
  intros now.
  split; [|split].
  - destruct (proj1 (@compaction_outcomes sample_runtime now
                       (Garbage 300000)))
      as (j & Hj & Htotal & _); [vm_compute; reflexivity|].
    exists j. split; assumption.
  - apply (proj1 (proj2 (@compaction_outcomes sample_runtime now
                           (Garbage 7))) 7); [reflexivity|].
    vm_compute. discriminate.
  - apply (proj2 (proj2 (@compaction_outcomes sample_runtime now
                           (Doc (compact_len (JObj crowded_ledger))
                                (JObj crowded_ledger))))
             (compact_len (JObj crowded_ledger)) crowded_ledger 2000000
             crowded_counts [("coordination", 5)]%string);
      try reflexivity.
    vm_compute. discriminate.
Defined.

(** C5 as stated fails twice.  A file that holds [{"total":"abc"}] makes
    [cleanup_token_file] raise: [min("abc", 1000000)] is a [TypeError], which
    its handler does not catch.  And a file above the bound is replaced by
    a zeroed ledger even when it parses: the total 5 is not kept. *)
Lemma compaction_raises_or_resets :
  let now := 1793927400000000 in
  @cleanup_token_file sample_runtime now
    (Doc 15 (JObj [("total", JStr "abc")]%string)) = Raise TypeError
  /\ (let f := Doc 300000 (JObj [("total", JInt 5); ("by_agent", JObj []);
                                 ("by_phase", JObj [])]%string) in
      json_load f = Ok (JObj [("total", JInt 5); ("by_agent", JObj []);
                              ("by_phase", JObj [])]%string)
      /\ exists j, @cleanup_token_file sample_runtime now f
                   = Ok (Some (json_dump j))
                   /\ total_of j = Some (JInt 0)).
Proof.
  split; [reflexivity|]. split; [reflexivity|].
  eexists. split; reflexivity.
Qed.

(** *** Reading twice *)

Lemma same_counts_refl (v : json) : same_counts v v.
Proof. repeat split. Qed.

(** The clock enters the validated ledger through its timestamps only. *)
Lemma validate_clock `{Runtime} (now1 now2 : Z) (j : json) :
  match validate_and_clean_token_data now1 j,
        validate_and_clean_token_data now2 j with
  | Ok l1, Ok l2 =>
      total l1 = total l2 /\ by_agent l1 = by_agent l2
      /\ by_phase l1 = by_phase l2
  | Raise e1, Raise e2 => e1 = e2
  | _, _ => False
  end.
Proof.
  destruct j as [| | | | |d]; simpl; try (repeat split; reflexivity).
  destruct (py_int _); simpl; repeat split.
Qed.

(** The validation raises [ValueError] only on a total that is text; on
    such a document the compaction raises [TypeError]. *)
Lemma validate_ValueError `{Runtime} (now : Z) (j : json) :
  validate_and_clean_token_data now j = Raise ValueError ->
  exists d s, j = JObj d /\ py_get d "total" (JInt 0) = JStr s.
Proof.
  destruct j as [| | | | |d]; simpl; try discriminate.
  destruct (py_get d "total" (JInt 0)) as [| | |s| |] eqn:Ht; simpl;
    try discriminate.
  - eauto.
Qed.

Lemma validate_raises `{Runtime} (now : Z) (j : json) (e : exn) :
  validate_and_clean_token_data now j = Raise e ->
  e = ValueError \/ e = TypeError.
Proof.
  destruct j as [| | | | |d]; simpl; try discriminate.
  destruct (py_get d "total" (JInt 0)) as [| | |s| |]; simpl;
    try discriminate; try (intros [= <-]; auto).
  destruct (int_of_str s); simpl; [discriminate|]. intros [= <-]; auto.
Qed.

(** Reading the file that the emergency cleanup writes reports zero
    counts. *)
Lemma read_after_emergency `{Runtime} (now later : Z) :
  same_counts zero_totals
    (fst (get_current_session_tokens later
            (perform_emergency_token_cleanup now))).
Proof.
  unfold perform_emergency_token_cleanup, get_current_session_tokens.
  cbn [st_size json_dump].
  destruct (2 * 1024 * 1024 <? _) eqn:Hsize.
  - destruct (cleanup_token_file _ _); apply same_counts_refl.
  - cbn. repeat split.
Qed.

Lemma cleanup_oversized `{Runtime} (now : Z) (fl : file) :
  MAX_TOKEN_FILE_SIZE < st_size fl ->
  cleanup_token_file now fl = Ok (perform_emergency_token_cleanup now).
Proof.
  intros Hbig. apply Z.ltb_lt in Hbig.
  unfold cleanup_token_file. now rewrite Hbig.
Qed.

(** C4, as the code has it.  Two consecutive calls of [read()] report the
    same total, the same [by_agent] and the same [by_phase], whatever the
    ledger file holds and whatever the first call did to it. *)
Theorem read_twice_same_counts `{Runtime} (now1 now2 : Z) (f : option file) :
  let first := get_current_session_tokens now1 f in
  let second := get_current_session_tokens now2 (snd first) in
  same_counts (fst first) (fst second).
Proof.
  cbv zeta. destruct f as [fl|]; [|apply same_counts_refl].
  remember (get_current_session_tokens now1 (Some fl)) as first eqn:Hfirst.
  unfold get_current_session_tokens in Hfirst.
  destruct (2 * 1024 * 1024 <? st_size fl) eqn:Hhuge.
  - (* above 2 MiB: the emergency cleanup *)
    apply Z.ltb_lt in Hhuge.
    rewrite cleanup_oversized in Hfirst
      by (unfold MAX_TOKEN_FILE_SIZE; lia).
    subst first. apply read_after_emergency.
  - assert (forall e,
               (e = UnicodeDecodeError \/ e = JSONDecodeError
                \/ (e = ValueError /\ exists d s size,
                       fl = Doc size (JObj d)
                       /\ py_get d "total" (JInt 0) = JStr s)
                \/ e = TypeError) ->
               (json_load fl = Raise e
                \/ exists j, json_load fl = Ok j
                     /\ forall now,
                          validate_and_clean_token_data now j = Raise e) ->
               same_counts zero_totals
                 (fst (get_current_session_tokens now2
                         (read_recover now1 e fl)))) as Hrecover.
    { intros e He Hload.
      assert (same_counts zero_totals
                (fst (get_current_session_tokens now2 (Some fl)))) as Hsame.
      { unfold get_current_session_tokens. rewrite Hhuge.
        destruct Hload as [-> | (j & -> & Hval)]; [|rewrite Hval];
          apply same_counts_refl. }
      destruct (Z.ltb_spec MAX_TOKEN_FILE_SIZE (st_size fl)) as [Hbig|Hsmall].
      - unfold read_recover. rewrite cleanup_oversized by assumption.
        destruct e; try exact Hsame; apply read_after_emergency.
      - apply Z.ltb_ge in Hsmall.
        unfold read_recover, cleanup_token_file. rewrite Hsmall.
        destruct He as [-> | [-> | [(-> & d & s & size & -> & Ht) | ->]]];
          try exact Hsame.
        + destruct Hload as [-> | (j & -> & Hval)]; [exact Hsame|].
          destruct j as [| | | | |d]; try exact Hsame.
          specialize (Hval now1). simpl in Hval.
          destruct (py_get d "total" (JInt 0)) as [| | |s| |];
            simpl in *; try discriminate; exact Hsame.
        + destruct Hload as [-> | (j & -> & Hval)];
            [apply same_counts_refl|].
          destruct j as [| | | | |d]; try exact Hsame.
          specialize (Hval now1). simpl in Hval.
          destruct (py_get d "total" (JInt 0)) as [| | |s| |];
            simpl in *; try discriminate; exact Hsame.
        + cbn [json_load]. rewrite Ht. exact Hsame. }
    destruct fl as [size|size|size j]; cbn [json_load] in Hfirst.
    + subst first. apply Hrecover; auto.
    + subst first. apply Hrecover; auto.
    + pose proof (validate_clock now1 now2 j) as Hclock.
      destruct (validate_and_clean_token_data now1 j) as [l1|e] eqn:Hval1.
      * subst first. cbn [fst snd]. unfold get_current_session_tokens.
        cbn [st_size json_load] in *. rewrite Hhuge.
        destruct (validate_and_clean_token_data now2 j) as [l2|e2];
          [|contradiction].
        destruct Hclock as (Ht & Ha & Hp). cbn [fst].
        unfold same_counts.
        rewrite !total_of_ledger_json, !by_agent_of_ledger_json,
          !by_phase_of_ledger_json. now rewrite Ht, Ha, Hp.
      * subst first. cbn [fst snd].
        assert (forall now, validate_and_clean_token_data now j = Raise e)
          as Hall.
        { intros now. pose proof (validate_clock now1 now j) as Hc.
          rewrite Hval1 in Hc.
          destruct (validate_and_clean_token_data now j); [contradiction|].
          now subst. }
        apply Hrecover; [|right; eauto].
        destruct (validate_raises _ _ _ Hval1) as [-> | ->]; [|auto].
        destruct (validate_ValueError _ _ Hval1) as (d & s & -> & Ht).
        right; right; left. split; [reflexivity|]. eauto.
Qed.

(** C4 as stated fails on the timestamps: the validation stamps
    [last_update] with the time of the call, so two reads of an untouched
    ledger, one second apart, return different values. *)
Lemma read_twice_differs :
  let f := @update_session_token_count sample_runtime 1793927400000000
             "agent-a" 100 None in
  let first := @get_current_session_tokens sample_runtime
                 1793927401000000 f in
  let second := @get_current_session_tokens sample_runtime
                  1793927402000000 (snd first) in
  snd first = f
  /\ snd second = f
  /\ field "last_update" (fst first) = Some (JStr "2026-11-06T01:10:01")
  /\ field "last_update" (fst second) = Some (JStr "2026-11-06T01:10:02")
  /\ fst first <> fst second.
Proof.
  vm_compute. repeat split. discriminate.
Qed.

(** *** The total over a sequence of calls *)

Lemma validate_ledger_json `{Runtime} (now : Z) (l : ledger) :
  exists l', validate_and_clean_token_data now (ledger_json l) = Ok l'
             /\ total l' = Z.max 0 (total l).
Proof.
  destruct (validate_total now (total l)
              [("total", JInt (total l));
               ("by_agent", JObj (counts_json (by_agent l)));
               ("by_phase", JObj (counts_json (by_phase l)));
               ("session_start", session_start l);
               ("last_update", JStr (last_update l))]%string eq_refl)
    as (l' & Hval & Htot & _).
  eauto.
Qed.

(** Loading a ledger that fits gives it back, validated. *)
Lemma load_session_fits `{Runtime} (now : Z) (l : ledger) :
  fits (Some (json_dump (ledger_json l))) = true ->
  precheck now (Some (json_dump (ledger_json l)))
  = Ok (Some (json_dump (ledger_json l)))
  /\ load_session now (Some (json_dump (ledger_json l)))
     = validate_and_clean_token_data now (ledger_json l).
Proof.
  unfold fits, json_dump. intros [Hdisk Hdump]%andb_prop.
  apply Z.leb_le, Z.ltb_ge in Hdisk. apply Z.leb_le, Z.ltb_ge in Hdump.
  unfold precheck, load_session, load_json_memory_safe.
  cbn [st_size json_load]. rewrite Hdisk, Hdump. split; reflexivity.
Qed.

Lemma record_keeps_total `{Runtime} (now : Z) (a : string) (n t : Z)
    (f : option file) :
  holds_total f t -> fits f = true -> 0 <= n ->
  holds_total (update_session_token_count now a n f) (t + n).
Proof.
  intros [[-> ->]|(l & -> & Htot & Hpos)] Hfits Hn; right.
  - exists (add_tokens now a n (create_empty_token_data now)).
    split; [reflexivity|]. rewrite total_add_tokens. simpl. lia.
  - destruct (load_session_fits now l Hfits) as [Hpre Hload].
    destruct (validate_ledger_json now l) as (l' & Hval & Htot').
    exists (add_tokens now a n l').
    unfold update_session_token_count, locked_update.
    rewrite Hpre, Hload, Hval. split; [reflexivity|].
    rewrite total_add_tokens. lia.
Qed.

Lemma record_all_keeps_total `{Runtime} (calls : list call) :
  forall (f : option file) (t : Z),
    holds_total f t -> fits f = true ->
    Forall (fun c => 0 <= amount c) calls ->
    stays_bounded calls f = true ->
    holds_total (record_all calls f) (t + sum_amounts (map amount calls))
    /\ fits (record_all calls f) = true.
Proof.
  induction calls as [|c calls IH]; intros f t Hf Hfits Hpos Hbound; simpl.
  - rewrite Z.add_0_r. auto.
  - apply Forall_cons_1 in Hpos as [Hc Hpos].
    simpl in Hbound. apply andb_prop in Hbound as [Hfits' Hbound].
    replace (t + (amount c + sum_amounts (map amount calls)))
      with (t + amount c + sum_amounts (map amount calls)) by lia.
    apply IH; try assumption.
    now apply record_keeps_total.
Qed.

Lemma read_total `{Runtime} (later t : Z) (f : option file) :
  holds_total f t -> fits f = true ->
  total_of (fst (get_current_session_tokens later f)) = Some (JInt t).
Proof.
  intros [[-> ->]|(l & -> & Htot & Hpos)] Hfits; [reflexivity|].
  unfold fits, json_dump in Hfits.
  apply andb_prop in Hfits as [Hdisk _]. apply Z.leb_le in Hdisk.
  unfold get_current_session_tokens, json_dump. cbn [st_size json_load].
  replace (2 * 1024 * 1024 <? compact_len (ledger_json l)) with false
    by (symmetry; apply Z.ltb_ge; unfold MAX_TOKEN_FILE_SIZE in Hdisk; lia).
  destruct (validate_ledger_json later l) as (l' & -> & Htot').
  cbn [fst]. rewrite total_of_ledger_json. do 2 f_equal. lia.
Qed.

(** C1, as the code has it.  For every sequence of [record] calls starting
    from no ledger file, with amounts that are not negative, after which
    the ledger file never exceeds [MAX_TOKEN_FILE_SIZE], [read()] returns a
    total equal to the sum of the amounts (whether or not an eviction was
    triggered on the way). *)
Theorem total_is_sum_while_file_fits `{Runtime} (calls : list call)
    (later : Z) :
  Forall (fun c => 0 <= amount c) calls ->
  stays_bounded calls None = true ->
  total_of (fst (get_current_session_tokens later (record_all calls None)))
  = Some (JInt (sum_amounts (map amount calls))).
Proof.
  intros Hpos Hbound.
  destruct (record_all_keeps_total calls None 0) as [Hholds Hfits];
    try assumption; try reflexivity.
  - left; auto.
  - now apply read_total.
Qed.

Lemma total_is_sum_while_file_fits_witness :
  total_of (fst (@get_current_session_tokens sample_runtime 1793927402000000
                   (@record_all sample_runtime two_calls None)))
  = Some (JInt 150).
Proof.
  apply (@total_is_sum_while_file_fits sample_runtime two_calls
           1793927402000000).
  - repeat constructor; simpl; lia.
  - vm_compute. reflexivity.
Defined.

(** C1 as stated fails when the ledger file outgrows its bound: the first
    call writes a file above [MAX_TOKEN_FILE_SIZE], the second call finds
    it too large and has the emergency cleanup zero the total before it
    adds its own amount.  No eviction is triggered (two agents), the
    amounts sum to 3, and [read()] reports 2. *)
Lemma total_lost_when_file_outgrows_bound :
  Forall (fun c => 0 <= amount c) giant_then_small
  /\ @no_eviction sample_runtime giant_then_small None = true
  /\ sum_amounts (map amount giant_then_small) = 3
  /\ (MAX_TOKEN_FILE_SIZE
      <? match @record_all sample_runtime (firstn 1 giant_then_small) None
         with Some fl => st_size fl | None => 0 end) = true
  /\ total_of (fst (@get_current_session_tokens sample_runtime
                      1793927402000000
                      (@record_all sample_runtime giant_then_small None)))
     = Some (JInt 2).
Proof.
  split; [repeat constructor; simpl; lia|].
  split; [vm_compute; reflexivity|].
  split; [reflexivity|].
  split; vm_compute; reflexivity.
Qed.

(** *** The buckets over a sequence of calls *)

Lemma dict_get_fresh {A} (k : string) (d : dict A) :
  ~ In k (keys d) -> dict_get k d = None.
Proof.
  induction d as [|[k' v] d IH]; simpl; [reflexivity|].
  intros Hnot. destruct (String.eqb_spec k k') as [->|_].
  - exfalso. apply Hnot. now left.
  - apply IH. intros Hin. apply Hnot. now right.
Qed.

Lemma dict_set_fresh {A} (k : string) (v : A) (d : dict A) :
  ~ In k (keys d) -> dict_set k v d = d ++ [(k, v)].
Proof.
  induction d as [|[k' v'] d IH]; simpl; [reflexivity|].
  intros Hnot. destruct (String.eqb_spec k k') as [->|_].
  - exfalso. apply Hnot. now left.
  - rewrite IH; [reflexivity|]. intros Hin. apply Hnot. now right.
Qed.

Lemma length_dict_set {A} (k : string) (v : A) (d : dict A) :
  (length (dict_set k v d) <= S (length d))%nat.
Proof.
  induction d as [|[k' v'] d IH]; simpl; [lia|].
  destruct (String.eqb k k'); simpl; lia.
Qed.

Lemma length_clean_counts (d : dict json) :
  (length (clean_counts d) <= length d)%nat.
Proof.
  unfold clean_counts.
  enough (forall acc,
             (length (fold_left
                        (fun acc kv =>
                           match clean_count (snd kv) with
                           | Some z => dict_set (fst kv) z acc
                           | None => acc
                           end) d acc)
              <= length acc + length d)%nat) as Hgen
    by (specialize (Hgen []); simpl in Hgen; lia).
  induction d as [|kv d IH]; intros acc; simpl; [lia|].
  etransitivity; [apply IH|].
  destruct (clean_count (snd kv)); [|lia].
  pose proof (length_dict_set (fst kv) z acc). lia.
Qed.

(** The validation gives back the counts that the handler wrote: distinct
    keys, counts that are not negative. *)
Lemma clean_counts_counts_json (w : dict Z) :
  List.NoDup (keys w) -> Forall (fun kv => 0 <= snd kv) w ->
  clean_counts (counts_json w) = w.
Proof.
  unfold clean_counts.
  enough (forall acc,
             List.NoDup (keys acc ++ keys w) ->
             Forall (fun kv => 0 <= snd kv) w ->
             fold_left
               (fun acc kv =>
                  match clean_count (snd kv) with
                  | Some z => dict_set (fst kv) z acc
                  | None => acc
                  end) (counts_json w) acc
             = acc ++ w) as Hgen
    by (intros Hnd Hpos; apply (Hgen [] Hnd Hpos)).
  induction w as [|[k z] w IH]; intros acc Hnd Hpos; simpl.
  - now rewrite app_nil_r.
  - apply Forall_cons_1 in Hpos as [Hz Hpos]. simpl in Hz.
    apply Z.leb_le in Hz. rewrite Hz.
    rewrite dict_set_fresh.
    + rewrite IH; [now rewrite <- app_assoc| |assumption].
      unfold keys in *. rewrite map_app, <- app_assoc. exact Hnd.
    + intros Hin. simpl in Hnd. apply NoDup_remove_2 in Hnd. apply Hnd.
      apply in_or_app. now left.
Qed.

Lemma length_by_phase_evict (l : ledger) :
  (length (by_phase (evict l)) <= MAX_PHASE_TRACKING)%nat.
Proof.
  unfold evict.
  set (l2 := if (MAX_AGENT_TRACKING <? length (by_agent l))%nat
             then cleanup_old_agents_optimized l else l).
  destruct (Nat.ltb_spec MAX_PHASE_TRACKING (length (by_phase l2)))
    as [Hover|Hfine]; [|exact Hfine].
  unfold cleanup_old_phases. apply Nat.ltb_lt in Hover. rewrite Hover.
  simpl. rewrite length_firstn. lia.
Qed.

Lemma length_by_phase_bump `{Runtime} (now : Z) (a : string) (n : Z)
    (l : ledger) :
  (length (by_phase (bump now a n l)) <= S (length (by_phase l)))%nat.
Proof.
  simpl. destruct (map_agent_to_phase a); [apply length_dict_set | lia].
Qed.

(** The dict that an update starts from when the file is a ledger written
    by the handler, whatever its size: the buckets are those of the file or
    are empty (after the emergency cleanup, after a load that found the
    document too large, or with more than [MAX_TOKEN_SESSIONS] agents). *)
Lemma session_of_ledger `{Runtime} (now : Z) (l : ledger) :
  exists f1 l0,
    precheck now (Some (json_dump (ledger_json l))) = Ok f1
    /\ load_session now f1 = Ok l0
    /\ (by_agent l0 = []
        \/ ((length (by_agent l) <= MAX_TOKEN_SESSIONS)%nat
            /\ by_agent l0 = clean_counts (counts_json (by_agent l))))
    /\ (length (by_phase l0) <= length (by_phase l))%nat.
Proof.
  unfold precheck, json_dump. cbn [st_size].
  destruct (MAX_TOKEN_FILE_SIZE <? compact_len (ledger_json l)) eqn:Hdisk.
  - rewrite cleanup_oversized by (cbn [st_size]; now apply Z.ltb_lt).
    clear Hdisk. exists (perform_emergency_token_cleanup now).
    unfold perform_emergency_token_cleanup.
    unfold load_session, load_json_memory_safe, json_dump.
    cbn [st_size json_load].
    destruct (MAX_TOKEN_FILE_SIZE <? compact_len _);
      [|destruct (MAX_TOKEN_FILE_SIZE <? default_len _)];
      cbn [res_bind]; eexists; (split; [reflexivity|]);
      (split; [reflexivity|]); cbn; (split; [auto | lia]).
  - exists (Some (Doc (compact_len (ledger_json l)) (ledger_json l))).
    unfold load_session, load_json_memory_safe. cbn [st_size json_load].
    rewrite Hdisk.
    destruct (MAX_TOKEN_FILE_SIZE <? default_len (ledger_json l)).
    + exists (create_empty_token_data now). cbn.
      split; [reflexivity|]. split; [reflexivity|]. split; [auto|lia].
    + cbn. eexists. split; [reflexivity|]. split; [reflexivity|]. cbn.
      split.
      * replace (length (counts_json (by_agent l)))
          with (length (by_agent l)) by (symmetry; apply length_map).
        destruct (Nat.leb_spec (length (by_agent l)) MAX_TOKEN_SESSIONS);
          auto.
      * etransitivity; [apply length_clean_counts|].
        unfold counts_json. now rewrite length_map.
Qed.

Lemma keys_entries (calls : list call) :
  keys (map entry_of calls) = map agent calls.
Proof. unfold keys. rewrite map_map. reflexivity. Qed.

Lemma window_step `{Runtime} (done : list call) (c : call)
    (f : option file) :
  window_inv done f ->
  List.NoDup (map agent (done ++ [c])) ->
  Forall (fun c => 0 <= amount c) done ->
  window_inv (done ++ [c]) (record_call f c).
Proof.
  intros Hinv Hnd Hpos. right.
  destruct Hinv as [[-> ->]|(l & pre & -> & Hwin & Hlen & Hphases)].
  - exists (add_tokens (at_time c) (agent c) (amount c)
              (create_empty_token_data (at_time c))), [].
    split; [reflexivity|]. unfold add_tokens.
    rewrite by_agent_evict by (cbn; unfold MAX_AGENT_TRACKING; lia).
    split; [reflexivity|]. split; [cbn; lia|].
    apply length_by_phase_evict.
  - destruct (session_of_ledger (at_time c) l)
      as (f1 & l0 & Hpre & Hload & Hagents & Hphases0).
    assert (record_call (Some (json_dump (ledger_json l))) c
            = Some (json_dump (ledger_json
                       (add_tokens (at_time c) (agent c) (amount c) l0))))
      as ->.
    { unfold record_call, update_session_token_count, locked_update.
      now rewrite Hpre, Hload. }
    rewrite map_app in Hnd. simpl in Hnd.
    assert (List.NoDup (map agent done)) as Hnd_done
      by (eapply NoDup_app_remove_r; exact Hnd).
    assert (~ In (agent c) (map agent done)) as Hfresh.
    { apply NoDup_remove_2 in Hnd. now rewrite app_nil_r in Hnd. }
    rewrite <- keys_entries, Hwin in Hnd_done, Hfresh.
    unfold keys in Hnd_done, Hfresh. rewrite map_app in Hnd_done, Hfresh.
    assert (~ In (agent c) (keys (by_agent l))) as Hfresh'.
    { intros Hin. apply Hfresh, in_or_app. now right. }
    assert (by_agent l0 = []
            \/ ((length (by_agent l) <= MAX_TOKEN_SESSIONS)%nat
                /\ by_agent l0 = by_agent l)) as Hcases.
    { destruct Hagents as [Hnil|[Hle Hclean]]; [now left|right].
      split; [exact Hle|]. rewrite Hclean.
      apply clean_counts_counts_json.
      - eapply NoDup_app_remove_l. exact Hnd_done.
      - assert (Forall (fun kv => 0 <= snd kv) (map entry_of done)) as Hall.
        { apply Forall_map. exact Hpos. }
        rewrite Hwin in Hall. apply Forall_app in Hall. tauto. }
    assert ((length (by_phase
                       (add_tokens (at_time c) (agent c) (amount c) l0))
             <= MAX_PHASE_TRACKING)%nat) as Hphases'
      by apply length_by_phase_evict.
    destruct Hcases as [Hnil|[Hle Hsame]].
    + exists (add_tokens (at_time c) (agent c) (amount c) l0),
        (map entry_of done).
      split; [reflexivity|]. unfold add_tokens in *.
      rewrite by_agent_evict
        by (cbn; rewrite Hnil; cbn; unfold MAX_AGENT_TRACKING; lia).
      cbn [bump by_agent]. rewrite Hnil. cbn.
      split; [now rewrite map_app|]. split; [lia|exact Hphases'].
    + exists (add_tokens (at_time c) (agent c) (amount c) l0), pre.
      split; [reflexivity|]. unfold add_tokens in *.
      assert (by_agent (bump (at_time c) (agent c) (amount c) l0)
              = by_agent l ++ [entry_of c]) as Hbump.
      { cbn [bump by_agent]. rewrite Hsame.
        rewrite dict_set_fresh by exact Hfresh'.
        unfold py_get. rewrite dict_get_fresh by exact Hfresh'.
        reflexivity. }
      rewrite by_agent_evict; rewrite Hbump.
      * split; [now rewrite map_app, Hwin, <- app_assoc|].
        split; [|exact Hphases'].
        rewrite length_app. cbn. unfold MAX_TOKEN_SESSIONS in Hle. lia.
      * rewrite length_app. cbn.
        unfold MAX_TOKEN_SESSIONS in Hle. unfold MAX_AGENT_TRACKING. lia.
Qed.

Lemma window_run `{Runtime} (calls : list call) :
  List.NoDup (map agent calls) ->
  Forall (fun c => 0 <= amount c) calls ->
  window_inv calls (record_all calls None).
Proof.
  induction calls as [|c done IH] using rev_ind; intros Hnd Hpos.
  - left. auto.
  - unfold record_all. rewrite fold_left_app. cbn [fold_left].
    apply Forall_app in Hpos as [Hpos _].
    apply window_step; try assumption.
    apply IH; [|assumption].
    rewrite map_app in Hnd. eapply NoDup_app_remove_r. exact Hnd.
Qed.

Lemma agents_calls_from (i : nat) (clock : nat -> Z) (names : list string) :
  map agent (calls_from i clock names) = names.
Proof.
  revert i. induction names as [|a rest IH]; intros i; simpl;
    [reflexivity|]. now rewrite IH.
Qed.

Lemma amounts_calls_from (i : nat) (clock : nat -> Z) (names : list string) :
  map amount (calls_from i clock names)
  = map Z.of_nat (seq i (length names)).
Proof.
  revert i. induction names as [|a rest IH]; intros i; simpl;
    [reflexivity|]. now rewrite IH.
Qed.

Lemma amounts_nonneg (i : nat) (clock : nat -> Z) (names : list string) :
  Forall (fun c => 0 <= amount c) (calls_from i clock names).
Proof.
  revert i. induction names as [|a rest IH]; intros i; simpl;
    constructor; [simpl; lia | apply IH].
Qed.

Lemma not_in_tail_of_nodup {A} (x : A) (l1 l2 : list A) :
  List.NoDup (x :: l1 ++ l2) -> ~ In x l2.
Proof.
  intros [Hnot _]%List.NoDup_cons_iff Hin.
  apply Hnot, in_or_app. now right.
Qed.

(** C2, as the code has it.  After 51 calls of [record] for 51 distinct
    agents with amounts 1, 2, ..., 51, starting from no ledger file: the
    ledger on disk does not track the first agent and has no entry with
    count 1, its [by_agent] has at most 50 entries and its [by_phase] at
    most 8; and its total is 1326 provided the ledger file never exceeded
    [MAX_TOKEN_FILE_SIZE] on the way. *)
Theorem fifty_one_agents `{Runtime} (clock : nat -> Z)
    (first : string) (others : list string) :
  let names := first :: others in
  let calls := calls_from 1 clock names in
  List.NoDup names ->
  length names = 51%nat ->
  exists l,
    record_all calls None = Some (json_dump (ledger_json l))
    /\ ~ In first (keys (by_agent l))
    /\ Forall (fun kv => snd kv <> 1) (by_agent l)
    /\ (length (by_agent l) <= MAX_AGENT_TRACKING)%nat
    /\ (length (by_phase l) <= MAX_PHASE_TRACKING)%nat
    /\ (stays_bounded calls None = true -> total l = 1326).
Proof.
  intros names calls Hnd Hlen.
  assert (map agent calls = names) as Hagents by apply agents_calls_from.
  assert (map amount calls = map Z.of_nat (seq 1 51)) as Hamounts.
  { unfold calls. rewrite amounts_calls_from. now rewrite Hlen. }
  pose proof (amounts_nonneg 1 clock names) as Hpos. fold calls in Hpos.
  destruct (window_run calls) as [[Hnil _]|(l & pre & Hfile & Hwin & Hwlen & Hphases)];
    [now rewrite Hagents | exact Hpos | discriminate Hnil |].
  exists l. split; [exact Hfile|].
  assert (length (pre ++ by_agent l) = 51%nat) as Hlen'.
  { rewrite <- Hwin, length_map. unfold calls.
    rewrite <- (length_map agent), agents_calls_from. exact Hlen. }
  rewrite length_app in Hlen'.
  destruct pre as [|p pre]; [simpl in Hlen'; lia|].
  assert (p = (first, 1)) as ->.
  { pose proof Hwin as Hhead. unfold calls, names in Hhead.
    simpl in Hhead. injection Hhead as Hp _. now rewrite <- Hp. }
  split; [|split; [|split; [|split]]].
  - apply (not_in_tail_of_nodup first (keys pre)).
    unfold keys. rewrite <- map_app.
    change (List.NoDup (map fst (((first, 1) :: pre) ++ by_agent l))).
    rewrite <- Hwin. fold (keys (map entry_of calls)).
    rewrite keys_entries, Hagents. exact Hnd.
  - assert (List.NoDup (map snd (((first, 1) :: pre) ++ by_agent l)))
      as Hvalues.
    { rewrite <- Hwin, map_map. change (List.NoDup (map amount calls)).
      rewrite Hamounts.
      apply Finite.Injective_map_NoDup; [|apply seq_NoDup].
      intros x y. apply Nat2Z.inj. }
    simpl in Hvalues. rewrite map_app in Hvalues.
    apply not_in_tail_of_nodup in Hvalues.
    apply List.Forall_forall. intros kv Hin Hone.
    apply Hvalues. rewrite <- Hone. now apply in_map.
  - unfold MAX_AGENT_TRACKING. lia.
  - exact Hphases.
  - intros Hbound.
    destruct (record_all_keeps_total calls None 0) as [Hholds _];
      try assumption; try reflexivity; [left; auto|].
    rewrite Hamounts in Hholds.
    destruct Hholds as [[Hnone _]|(l' & Hfile' & Htot & _)];
      [congruence|].
    rewrite Hfile in Hfile'.
    apply (f_equal (fun f => match f with
                             | Some (Doc _ j) => total_of j
                             | _ => None
                             end)) in Hfile'.
    cbn [json_dump] in Hfile'. rewrite !total_of_ledger_json in Hfile'.
    injection Hfile' as ->. rewrite Htot. reflexivity.
Qed.

Lemma fifty_one_agents_witness :
  let names := map numbered_agent (seq 1 51) in
  let calls := calls_from 1 every_second names in
  exists l,
    @record_all sample_runtime calls None
    = Some (json_dump (ledger_json l))
    /\ ~ In "agent-01"%string (keys (by_agent l))
    /\ Forall (fun kv => snd kv <> 1) (by_agent l)
    /\ (length (by_agent l) <= MAX_AGENT_TRACKING)%nat
    /\ (length (by_phase l) <= MAX_PHASE_TRACKING)%nat
    /\ total l = 1326.
Proof.
  destruct (@fifty_one_agents sample_runtime every_second
              "agent-01" (map numbered_agent (seq 2 50)))
    as (l & Hfile & Hfirst & Hone & Hagents & Hphases & Htotal).
  - apply NoDup_ListNoDup, (bool_decide_unpack _). vm_compute. exact I.
  - reflexivity.
  - exists l. repeat (split; [assumption|]).
    apply Htotal. vm_compute. reflexivity.
Defined.

(** C2 as stated fails on the total when the ledger file outgrows its bound
    on the way: with a first agent name of 262144 characters, the second
    call finds the file too large and the emergency cleanup zeroes the
    total, so the ledger ends with 1325, the sum of 2, ..., 51. *)
Lemma total_lost_with_fifty_one_agents :
  let names := giant_name :: map numbered_agent (seq 2 50) in
  let calls := calls_from 1 every_second names in
  List.NoDup names
  /\ length names = 51%nat
  /\ map amount calls = map Z.of_nat (seq 1 51)
  /\ stored_total (@record_all sample_runtime calls None)
     = Some (JInt 1325).
Proof.
  intros names calls.
  split; [|split; [|split]].
  - apply NoDup_ListNoDup, (bool_decide_unpack _). vm_compute. exact I.
  - reflexivity.
  - reflexivity.
  - vm_compute. reflexivity.
Qed.

(** ** The activity sensor *)

Lemma older_not_valid `{Runtime} (now window : Z) (timestamp : json) :
  older_than now window timestamp = true ->
  is_session_timestamp_valid now timestamp window = false.
Proof.
  unfold older_than, is_session_timestamp_valid, age_of.
  destruct timestamp as [| | |s| |]; try reflexivity.
  destruct (fromisoformat (replace_Z s)) as [dt|]; [|reflexivity].
  intros Hold%Z.leb_le. destruct (aware dt); [|reflexivity].
  apply Z.ltb_ge. lia.
Qed.

Lemma older_not_recent `{Runtime} (now : Z) (timestamp : json) :
  older_than now 1800 timestamp = true ->
  is_recent_timestamp_extended now timestamp = false.
Proof. apply older_not_valid. Qed.

Lemma scan_log_stale `{Runtime} (now : Z) (lines : list (option json)) :
  forallb (stale_line now) lines = true -> scan_log now lines = false.
Proof.
  induction lines as [|line lines IH]; simpl; [reflexivity|].
  intros [Hline Hrest]%andb_prop.
  destruct line as [[| | | | |o]|]; try reflexivity; [|auto].
  simpl in Hline. rewrite (older_not_recent _ _ Hline), !andb_false_r.
  destruct (py_get o "agent_type" (JStr "")); rewrite ?andb_false_r; auto.
Qed.

Lemma forallb_skipn {A} (p : A -> bool) (n : nat) (l : list A) :
  forallb p l = true -> forallb p (skipn n l) = true.
Proof.
  revert l. induction n as [|n IH]; intros [|x l]; simpl; auto.
  intros [_ Hrest]%andb_prop. auto.
Qed.

Lemma no_recent_doc (now : Z) (mtimes : list Z) :
  forallb (fun st_mtime => st_mtime <=? now - 1800 * 1000000) mtimes = true ->
  existsb (fun st_mtime => now - 1800 * 1000000 <? st_mtime) mtimes = false.
Proof.
  induction mtimes as [|m mtimes IH]; simpl; [reflexivity|].
  intros [Hm Hrest]%andb_prop. rewrite IH by assumption.
  apply Z.leb_le in Hm. rewrite orb_false_r. apply Z.ltb_ge. lia.
Qed.

Lemma session_check_returns `{Runtime} (now : Z) (f : option file) :
  holds_object f = true ->
  exists b, check_compass_session_active now f = Ok b.
Proof.
  destruct f as [[size|size|size [| | | | |o]]|]; simpl; try discriminate;
    intros _; eauto.
  destruct (is_session_timestamp_valid _ _ _); eauto.
  destruct (is_session_timestamp_valid _ _ _); eauto.
Qed.

Lemma in_keys_dict_set {A} (k : string) (v : A) (d : dict A) :
  In k (keys (dict_set k v d)).
Proof.
  induction d as [|[k' v'] d IH]; simpl; [now left|].
  destruct (String.eqb k k'); simpl; auto.
Qed.

Lemma keys_counts_json (d : dict Z) : keys (counts_json d) = keys d.
Proof. unfold keys, counts_json. rewrite map_map. reflexivity. Qed.

(** A call of [record] on a ledger written by the handler is applied: the
    ledger it writes tracks the agent of the call. *)
Lemma record_tracks_agent `{Runtime} (now : Z) (a : string) (n : Z)
    (f : option file) :
  written_by_handler f ->
  exists l, update_session_token_count now a n f
            = Some (json_dump (ledger_json l))
            /\ In a (keys (by_agent l)).
Proof.
  assert (forall l0, (length (by_agent l0) <= MAX_TOKEN_SESSIONS)%nat ->
                     In a (keys (by_agent (add_tokens now a n l0))))
    as Htracked.
  { intros l0 Hlen. unfold add_tokens. rewrite by_agent_evict.
    - apply in_keys_dict_set.
    - cbn [bump by_agent].
      pose proof (length_dict_set a
                    (py_get (by_agent l0) a 0 + n) (by_agent l0)).
      unfold MAX_TOKEN_SESSIONS in Hlen. unfold MAX_AGENT_TRACKING. lia. }
  intros [->|(l & ->)].
  - eexists. split; [reflexivity|]. apply Htracked. cbn. lia.
  - destruct (session_of_ledger now l)
      as (f1 & l0 & Hpre & Hload & Hagents & _).
    exists (add_tokens now a n l0). split.
    + unfold update_session_token_count, locked_update.
      now rewrite Hpre, Hload.
    + apply Htracked. destruct Hagents as [->|[Hle ->]]; [cbn; lia|].
      etransitivity; [apply length_clean_counts|].
      unfold counts_json. now rewrite length_map.
Qed.

Lemma tokens_signal `{Runtime} (now : Z) (l : ledger) (a : string) :
  In a (keys (by_agent l)) -> starts_with_compass a = true ->
  check_recent_compass_tokens now (Some (json_dump (ledger_json l)))
  = Ok true.
Proof.
  intros Hin Hprefix. unfold check_recent_compass_tokens, json_dump.
  cbn [json_load ledger_json].
  destruct (is_recent_timestamp_extended _ _); [reflexivity|].
  cbn. rewrite keys_counts_json. f_equal.
  apply existsb_exists. eauto.
Qed.

(** What decides the verdict.  With no status-marker file, with every
    timestamp source out of its window, and with no agent whose name starts
    with [compass-] tracked in the ledger, [compass_context_active] returns
    false; and it returns true after a call of [record] for such an agent,
    whatever the timestamps: the test of the agent names in
    [check_recent_compass_tokens] looks at no time.  (The session marker
    and ledger files hold JSON objects when they parse.) *)
Lemma activity_verdict `{Runtime} (now : Z) (d : disk) :
  (status_file d = false ->
   sources_stale now d = true ->
   holds_object (session_file d) = true ->
   holds_object (token_file d) = true ->
   (exists agents, tracked_agents (token_file d) = Some agents
                   /\ existsb starts_with_compass agents = false) ->
   compass_context_active now d = Ok false)
  /\ (forall (recorded_at : Z) (agent_type : string) (token_count : Z)
             (before : option file),
      holds_object (session_file d) = true ->
      written_by_handler before ->
      starts_with_compass agent_type = true ->
      token_file d
      = update_session_token_count recorded_at agent_type token_count before ->
      compass_context_active now d = Ok true).
Proof.
  split.
  - intros Hstatus Hstale Hsession Htokens (agents & Hagents & Hnone).
    unfold sources_stale in Hstale.
    apply andb_prop in Hstale as [Hstale Hstale_tokens].
    apply andb_prop in Hstale as [Hstale Hstale_docs].
    apply andb_prop in Hstale as [Hstale_session Hstale_log].
    unfold compass_context_active. rewrite Hstatus.
    assert (check_compass_session_active now (session_file d) = Ok false)
      as ->.
    { destruct (session_file d) as [[size|size|size [| | | | |o]]|];
        try discriminate; try reflexivity.
      simpl in Hstale_session.
      apply andb_prop in Hstale_session as [Hstart Hlast]. simpl.
      now rewrite (older_not_valid _ _ _ Hstart),
        (older_not_valid _ _ _ Hlast). }
    cbn [res_bind].
    assert (match log_file d with
            | Some lines => scan_log now (last_20 lines)
            | None => false
            end = false) as ->.
    { destruct (log_file d) as [lines|]; [|reflexivity].
      apply scan_log_stale, forallb_skipn, Hstale_log. }
    rewrite (no_recent_doc _ _ Hstale_docs).
    destruct (token_file d) as [[size|size|size [| | | | |o]]|];
      try discriminate; try reflexivity.
    simpl in Hstale_tokens, Hagents. simpl.
    rewrite (older_not_recent _ _ Hstale_tokens).
    destruct (py_get o "by_agent" (JObj [])); try discriminate.
    injection Hagents as <-. now rewrite Hnone.
  - intros recorded_at agent_type token_count before Hsession Hbefore
      Hprefix Hfile.
    destruct (record_tracks_agent recorded_at agent_type token_count
                before Hbefore) as (l & Hwritten & Hin).
    rewrite Hwritten in Hfile.
    unfold compass_context_active.
    destruct (status_file d); [reflexivity|].
    destruct (session_check_returns now _ Hsession) as (b & ->).
    cbn [res_bind]. destruct b; [reflexivity|].
    destruct (match log_file d with
              | Some lines => scan_log now (last_20 lines)
              | None => false
              end); [reflexivity|].
    destruct (existsb _ (docs d)); [reflexivity|].
    rewrite Hfile. now apply (tokens_signal now l agent_type).
Qed.

Example activity_verdict_on_samples :
  let now := 1793927400000000 in
  @compass_context_active sample_runtime now quiet_disk = Ok false
  /\ @compass_context_active sample_runtime now
       (ledger_only (@update_session_token_count sample_runtime now
                       "compass-captain" 100 None))
     = Ok true.
Proof.
  intros now. split.
  - apply (proj1 (@activity_verdict sample_runtime now quiet_disk));
      try reflexivity.
    exists ["delegation_chain"%string]. split; reflexivity.
  - apply (proj2 (@activity_verdict sample_runtime now
                    (ledger_only (@update_session_token_count sample_runtime
                                    now "compass-captain" 100 None)))
             now "compass-captain"%string 100 None);
      try reflexivity.
    left. reflexivity.
Defined.

(** Two hours after the last call of [record], with no status marker, no
    session marker, no journal and no document, every timestamp source is
    out of its window, and the sensor still returns true, because the
    ledger tracks [compass-captain]. *)
Example stale_ledger_still_active :
  let recorded_at := 1793927400000000 in
  let now := recorded_at + 7200 * 1000000 in
  let d := ledger_only (@update_session_token_count sample_runtime
                          recorded_at "compass-captain" 100 None) in
  status_file d = false
  /\ @sources_stale sample_runtime now d = true
  /\ @compass_context_active sample_runtime now d = Ok true.
Proof. repeat split. Qed.

(** The timestamps that the handler writes carry no UTC offset, and
    subtracting such a datetime from [datetime.now().astimezone()] raises
    the [TypeError] that the checks turn into [False]: a session marker
    written one second ago is not seen by [check_compass_session_active]. *)
Example fresh_session_marker_not_seen :
  let now := 1793927400000000 in
  let marker :=
    Doc 130 (JObj [("session_start", JStr (utc_isoformat (now - 1000000)));
                   ("last_activity", JStr (utc_isoformat (now - 1000000)));
                   ("compass_activated", JBool true);
                   ("version", JStr "2.1")]%string) in
  @check_compass_session_active sample_runtime now (Some marker) = Ok false.
Proof. reflexivity. Qed.

(** * Further properties

    Properties of the same code that the specification does not state, and
    of the functions around it: the emergency cleanup, the session marker,
    the journal, and the reading of prompts and tool calls. *)

(** ** The usage ledger: buckets and validation *)

Lemma keys_dict_set {A} (k : string) (v : A) (d : dict A) :
  forall k', In k' (keys (dict_set k v d)) <-> k' = k \/ In k' (keys d).
Proof.
  induction d as [|[k0 v0] d IH]; intros k'; simpl.
  - intuition.
  - destruct (String.eqb_spec k k0) as [->|Hne]; simpl.
    + intuition.
    + rewrite IH. intuition.
Qed.

Lemma nodup_dict_set {A} (k : string) (v : A) (d : dict A) :
  List.NoDup (keys d) -> List.NoDup (keys (dict_set k v d)).
Proof.
  induction d as [|[k0 v0] d IH]; simpl; intros Hnd.
  - constructor; [intros []|constructor].
  - apply List.NoDup_cons_iff in Hnd as [Hnotin Hnd].
    destruct (String.eqb_spec k k0) as [->|Hne]; simpl.
    + constructor; assumption.
    + constructor; [|now apply IH].
      intros Hin. apply keys_dict_set in Hin as [->|Hin]; auto.
Qed.

Lemma Forall_dict_set {A} (P : string * A -> Prop) (k : string) (v : A)
    (d : dict A) :
  P (k, v) -> Forall P d -> Forall P (dict_set k v d).
Proof.
  intros Hkv. induction d as [|[k0 v0] d IH]; simpl; intros Hd.
  - constructor; [assumption|constructor].
  - apply Forall_cons_1 in Hd as [H0 Hd].
    destruct (String.eqb k k0); constructor; auto.
Qed.

Lemma dict_get_dict_set {A} (k k' : string) (v : A) (d : dict A) :
  dict_get k' (dict_set k v d)
  = if String.eqb k' k then Some v else dict_get k' d.
Proof.
  induction d as [|[k0 v0] d IH]; simpl.
  - reflexivity.
  - destruct (String.eqb_spec k k0) as [->|Hne]; simpl.
    + destruct (String.eqb k' k0); reflexivity.
    + rewrite IH. destruct (String.eqb_spec k' k0) as [->|Hne'].
      * destruct (String.eqb_spec k0 k) as [->|_]; [contradiction|reflexivity].
      * reflexivity.
Qed.

Lemma py_get_dict_set (k k' : string) (v default : Z) (d : dict Z) :
  py_get (dict_set k v d) k' default
  = if String.eqb k' k then v else py_get d k' default.
Proof.
  unfold py_get. rewrite dict_get_dict_set.
  now destruct (String.eqb k' k).
Qed.

Lemma clean_count_nonneg (count : json) (z : Z) :
  clean_count count = Some z -> 0 <= z.
Proof.
  destruct count as [|b|x| | |]; simpl; try discriminate.
  - intros [= <-]. destruct b; simpl; lia.
  - destruct (Z.leb_spec 0 x); [intros [= <-]; assumption|discriminate].
Qed.

Lemma clean_bucket_clean_counts (d : dict json) :
  clean_bucket (clean_counts d).
Proof.
  unfold clean_counts.
  enough (forall acc, clean_bucket acc ->
            clean_bucket
              (fold_left
                 (fun acc kv =>
                    match clean_count (snd kv) with
                    | Some z => dict_set (fst kv) z acc
                    | None => acc
                    end) d acc)) as Hgen.
  { apply Hgen. split; constructor. }
  induction d as [|kv d IH]; intros acc Hacc; simpl; [assumption|].
  apply IH. destruct (clean_count (snd kv)) as [z|] eqn:Hz; [|assumption].
  destruct Hacc as [Hnd Hpos]. split.
  - now apply nodup_dict_set.
  - apply Forall_dict_set; [|assumption]. simpl.
    eapply clean_count_nonneg, Hz.
Qed.

(** What the validation returns, read off its definition. *)
Lemma validate_shape `{Runtime} (now : Z) (j : json) (l : ledger) :
  validate_and_clean_token_data now j = Ok l ->
  0 <= total l
  /\ (length (by_agent l) <= MAX_TOKEN_SESSIONS)%nat
  /\ clean_bucket (by_agent l)
  /\ clean_bucket (by_phase l)
  /\ last_update l = isoformat now.
Proof.
  destruct j as [| | | | |d]; simpl;
    try (intros [= <-]; simpl;
         repeat split; try constructor; try lia; fail).
  destruct (py_int (py_get d "total" (JInt 0))) as [t|e]; simpl;
    [|discriminate].
  intros [= <-]; simpl. split; [lia|]. split; [|split; [|split]].
  - destruct (py_get d "by_agent" (JObj [])) as [| | | | |ba]; simpl; try lia.
    destruct (Nat.leb_spec (length ba) MAX_TOKEN_SESSIONS); simpl; [|lia].
    etransitivity; [apply length_clean_counts|assumption].
  - destruct (py_get d "by_agent" (JObj [])) as [| | | | |ba];
      try (split; constructor).
    destruct (_ <=? _)%nat; [apply clean_bucket_clean_counts|].
    split; constructor.
  - destruct (py_get d "by_phase" (JObj [])) as [| | | | |bp];
      try (split; constructor).
    apply clean_bucket_clean_counts.
  - reflexivity.
Qed.

(** X1.  [cleanup_old_agents_optimized] keeps the [MAX_AGENT_TRACKING] = 50
    agents with the largest counts: the map it leaves has
    [min 50 (number of agents)] entries, these and the entries dropped are
    the entries of before, no dropped count exceeds a kept one, and the
    total and the phases are left alone. *)
Theorem eviction_keeps_largest_agents (l : ledger) :
  let kept := by_agent (cleanup_old_agents_optimized l) in
  length kept = Nat.min MAX_AGENT_TRACKING (length (by_agent l))
  /\ (exists dropped,
         Permutation (kept ++ dropped) (by_agent l)
         /\ forall kv kv', In kv kept -> In kv' dropped ->
                           snd kv' <= snd kv)
  /\ total (cleanup_old_agents_optimized l) = total l
  /\ by_phase (cleanup_old_agents_optimized l) = by_phase l.
Proof.
  unfold cleanup_old_agents_optimized.
  destruct (Nat.ltb_spec MAX_AGENT_TRACKING (length (by_agent l)))
    as [Hover|Hfine]; cbn zeta.
  - destruct (top_entries_kept MAX_AGENT_TRACKING (by_agent l))
      as (Hperm & Hlen & Hord).
    simpl by_agent. split; [exact Hlen|]. split; [|split; reflexivity].
    exists (skipn MAX_AGENT_TRACKING (sorted_desc Z.ltb (by_agent l))).
    split; assumption.
  - split; [lia|]. split; [|split; reflexivity].
    exists []. rewrite app_nil_r. split; [reflexivity|]. intros ? ? _ [].
Qed.

Lemma incl_firstn_sorted {A} (lt : A -> A -> bool) (n : nat) (d : dict A) :
  incl (firstn n (sorted_desc lt d)) d.
Proof.
  intros kv Hin. apply (Permutation_in kv (sorted_desc_permutation lt d)).
  rewrite <- (firstn_skipn n (sorted_desc lt d)).
  apply in_or_app. now left.
Qed.

Lemma last_update_evict (l : ledger) : last_update (evict l) = last_update l.
Proof.
  unfold evict, cleanup_old_agents_optimized, cleanup_old_phases.
  repeat match goal with |- context [if ?b then _ else _] => destruct b end;
    reflexivity.
Qed.

(** X2.  The two bounds checks that end an update leave at most 50 agents
    and at most 8 phases; every entry that remains is an entry of before,
    with its count; the total and the two timestamps are left alone. *)
Theorem evict_bounds_buckets (l : ledger) :
  (length (by_agent (evict l)) <= MAX_AGENT_TRACKING)%nat
  /\ (length (by_phase (evict l)) <= MAX_PHASE_TRACKING)%nat
  /\ incl (by_agent (evict l)) (by_agent l)
  /\ incl (by_phase (evict l)) (by_phase l)
  /\ total (evict l) = total l
  /\ session_start (evict l) = session_start l
  /\ last_update (evict l) = last_update l.
Proof.
  split; [|split; [apply length_by_phase_evict|]].
  - unfold evict, cleanup_old_agents_optimized, cleanup_old_phases.
    destruct (Nat.ltb_spec MAX_AGENT_TRACKING (length (by_agent l)));
      simpl; destruct (_ <? _)%nat; simpl;
      rewrite ?length_firstn, ?length_sorted_desc; lia.
  - unfold evict, cleanup_old_agents_optimized, cleanup_old_phases.
    destruct (MAX_AGENT_TRACKING <? length (by_agent l))%nat; simpl;
      destruct (_ <? _)%nat; simpl;
      repeat split; try apply incl_refl; try apply incl_firstn_sorted.
Qed.

(** The ledger that an update writes, from the dict it starts from. *)
Lemma add_tokens_shape `{Runtime} (now : Z) (a : string) (n : Z)
    (l0 : ledger) :
  (length (by_agent l0) <= MAX_TOKEN_SESSIONS)%nat ->
  let l := add_tokens now a n l0 in
  by_agent l = dict_set a (py_get (by_agent l0) a 0 + n) (by_agent l0)
  /\ In a (keys (by_agent l))
  /\ (length (by_agent l) <= S MAX_TOKEN_SESSIONS)%nat
  /\ (length (by_phase l) <= MAX_PHASE_TRACKING)%nat
  /\ last_update l = isoformat now.
Proof.
  intros Hlen l.
  assert (by_agent l
          = dict_set a (py_get (by_agent l0) a 0 + n) (by_agent l0)) as Hba.
  { unfold l, add_tokens. rewrite by_agent_evict; [reflexivity|].
    simpl by_agent.
    pose proof (length_dict_set a (py_get (by_agent l0) a 0 + n)
                  (by_agent l0)).
    unfold MAX_AGENT_TRACKING, MAX_TOKEN_SESSIONS in *. lia. }
  split; [exact Hba|]. rewrite Hba.
  split; [apply in_keys_dict_set|].
  split.
  - etransitivity; [apply length_dict_set|]. lia.
  - split; [apply length_by_phase_evict|].
    unfold l, add_tokens.
    now rewrite last_update_evict.
Qed.

(** The dict that an update starts from: a fresh one, a validated one, or
    the exception that ends the call. *)
Lemma load_session_cases `{Runtime} (now : Z) (f : option file) :
  (exists l0, load_session now f = Ok l0
              /\ (length (by_agent l0) <= MAX_TOKEN_SESSIONS)%nat)
  \/ (exists fl e,
         f = Some fl /\ load_session now f = Raise e
         /\ st_size fl <= MAX_TOKEN_FILE_SIZE
         /\ (json_load fl = Raise UnicodeDecodeError
             \/ exists d e',
                  json_load fl = Ok (JObj d)
                  /\ py_int (py_get d "total" (JInt 0)) = Raise e')).
Proof.
  destruct f as [fl|]; [|left; exists (create_empty_token_data now);
                          split; [reflexivity|simpl; lia]].
  unfold load_session, load_json_memory_safe.
  destruct (Z.ltb_spec MAX_TOKEN_FILE_SIZE (st_size fl)) as [Hover|Hfine].
  { left. exists (create_empty_token_data now).
    split; [reflexivity|simpl; lia]. }
  destruct fl as [size|size|size j]; cbn [json_load res_bind].
  - right. exists (Binary size), UnicodeDecodeError. auto.
  - left. exists (create_empty_token_data now).
    split; [reflexivity|simpl; lia].
  - destruct (MAX_TOKEN_FILE_SIZE <? default_len j); cbn [res_bind].
    { left. exists (create_empty_token_data now).
      split; [reflexivity|simpl; lia]. }
    destruct (validate_and_clean_token_data now j) as [l0|e] eqn:Hval.
    + left. exists l0. split; [reflexivity|].
      now apply validate_shape in Hval.
    + right. exists (Doc size j), e. split; [reflexivity|].
      split; [reflexivity|]. split; [assumption|]. right.
      destruct j as [| | | | |d]; simpl in Hval; try discriminate.
      exists d. destruct (py_int (py_get d "total" (JInt 0))) as [t|e'];
        [discriminate|]. eauto.
Qed.

(** X3.  Whatever the ledger file holds, [record(agent, amount)] either
    writes a ledger that tracks the agent, with at most 26 agents, at most
    8 phases and [last_update] at the time of the call; or leaves the file
    as it is, which happens only when the file is within
    [MAX_TOKEN_FILE_SIZE] and is not UTF-8 or holds a JSON object (the
    validation of an object is where [int()] can raise).  An object whose
    [total] and counts are integers is never left as it is. *)
Theorem record_writes_bounded_ledger_or_nothing `{Runtime} (now : Z)
    (agent_type : string) (token_count : Z) (f : option file) :
  let f' := update_session_token_count now agent_type token_count f in
  ((exists l,
       f' = Some (json_dump (ledger_json l))
       /\ In agent_type (keys (by_agent l))
       /\ (length (by_agent l) <= S MAX_TOKEN_SESSIONS)%nat
       /\ (length (by_phase l) <= MAX_PHASE_TRACKING)%nat
       /\ last_update l = isoformat now)
   \/ (f' = f
       /\ exists fl,
            f = Some fl /\ st_size fl <= MAX_TOKEN_FILE_SIZE
            /\ (json_load fl = Raise UnicodeDecodeError
                \/ exists d, json_load fl = Ok (JObj d))))
  /\ (forall size d t ba bp,
      f = Some (Doc size (JObj d)) ->
      dict_get "total" d = Some (JInt t) ->
      dict_get "by_agent" d = Some (JObj (counts_json ba)) ->
      dict_get "by_phase" d = Some (JObj (counts_json bp)) ->
      exists l, f' = Some (json_dump (ledger_json l))).
Proof.
  intros f'.
  assert ((exists l,
              f' = Some (json_dump (ledger_json l))
              /\ In agent_type (keys (by_agent l))
              /\ (length (by_agent l) <= S MAX_TOKEN_SESSIONS)%nat
              /\ (length (by_phase l) <= MAX_PHASE_TRACKING)%nat
              /\ last_update l = isoformat now)
          \/ (f' = f
              /\ exists fl,
                   f = Some fl /\ st_size fl <= MAX_TOKEN_FILE_SIZE
                   /\ (json_load fl = Raise UnicodeDecodeError
                       \/ exists d e,
                            json_load fl = Ok (JObj d)
                            /\ py_int (py_get d "total" (JInt 0)) = Raise e)))
    as Hcases.
  { unfold f', update_session_token_count.
    assert (forall f1,
               (exists l0, load_session now f1 = Ok l0
                  /\ (length (by_agent l0) <= MAX_TOKEN_SESSIONS)%nat) ->
               exists l,
                 locked_update now agent_type token_count f1
                 = Some (json_dump (ledger_json l))
                 /\ In agent_type (keys (by_agent l))
                 /\ (length (by_agent l) <= S MAX_TOKEN_SESSIONS)%nat
                 /\ (length (by_phase l) <= MAX_PHASE_TRACKING)%nat
                 /\ last_update l = isoformat now) as Hwrite.
    { intros f1 (l0 & Hload & Hlen). unfold locked_update. rewrite Hload.
      exists (add_tokens now agent_type token_count l0).
      split; [reflexivity|].
      now destruct (add_tokens_shape now agent_type token_count l0 Hlen)
        as (_ & ? & ? & ? & ?). }
    unfold precheck. destruct f as [fl|].
    - destruct (Z.ltb_spec MAX_TOKEN_FILE_SIZE (st_size fl)) as [Hover|Hfine].
      + rewrite cleanup_oversized by assumption. left. apply Hwrite.
        destruct (load_session_cases now (perform_emergency_token_cleanup now))
          as [Hok|(fl' & e & Hfl & _ & _ & Hbad)]; [exact Hok|].
        exfalso. unfold perform_emergency_token_cleanup in Hfl.
        injection Hfl as <-. unfold json_dump in Hbad.
        cbn [json_load] in Hbad.
        destruct Hbad as [Hbad|(d & e' & [= <-] & Hbad)]; discriminate.
      + destruct (load_session_cases now (Some fl))
          as [Hok|(fl' & e & [= <-] & Hraise & _ & Hbad)].
        * left. now apply Hwrite.
        * right. unfold locked_update. rewrite Hraise. split; [reflexivity|].
          exists fl. auto.
    - left. apply Hwrite. exists (create_empty_token_data now).
      split; [reflexivity|simpl; lia]. }
  split.
  - destruct Hcases as [Hwritten|(Hsame & fl & Hfl & Hsize & Hbad)];
      [left; exact Hwritten|].
    right. split; [exact Hsame|]. exists fl.
    split; [exact Hfl|]. split; [exact Hsize|].
    destruct Hbad as [Hbad|(d & _ & Hbad & _)]; [now left|right; eauto].
  - intros size d t ba bp Hf Htotal _ _.
    destruct Hcases as [(l & Hwritten & _)|(_ & fl & Hfl & _ & Hbad)];
      [eauto|].
    exfalso. rewrite Hf in Hfl. injection Hfl as <-. cbn [json_load] in Hbad.
    destruct Hbad as [Hbad|(d' & e & [= <-] & Hbad)]; [discriminate|].
    rewrite (py_get_some _ _ _ _ Htotal) in Hbad. discriminate.
Qed.

(** X4.  A ledger file that is above [MAX_TOKEN_FILE_SIZE], is not JSON, or
    holds JSON other than an object counts for nothing: [record] writes
    what it writes when there is no file. *)
Theorem unreadable_ledger_restarts `{Runtime} (now : Z)
    (agent_type : string) (token_count : Z) (fl : file) :
  unreadable fl = true ->
  update_session_token_count now agent_type token_count (Some fl)
  = update_session_token_count now agent_type token_count None.
Proof.
  intros Hun. unfold unreadable in Hun.
  unfold update_session_token_count at 1. unfold precheck.
  destruct (Z.ltb_spec MAX_TOKEN_FILE_SIZE (st_size fl)) as [Hover|Hfine].
  - rewrite cleanup_oversized by assumption.
    unfold perform_emergency_token_cleanup, locked_update, load_session,
      load_json_memory_safe, json_dump.
    cbn [st_size json_load].
    destruct (MAX_TOKEN_FILE_SIZE <? compact_len _);
      [reflexivity|].
    destruct (MAX_TOKEN_FILE_SIZE <? default_len _); reflexivity.
  - cbn [orb] in Hun. unfold locked_update, load_session,
      load_json_memory_safe.
    apply Z.ltb_ge in Hfine. rewrite Hfine.
    destruct fl as [size|size|size j]; [discriminate|reflexivity|].
    cbn [json_load].
    destruct (MAX_TOKEN_FILE_SIZE <? default_len j); [reflexivity|].
    cbn [orb] in Hun. destruct j; try discriminate; reflexivity.
Qed.

Lemma unreadable_ledger_restarts_witness :
  @update_session_token_count sample_runtime 1793927400000000 "agent-a" 7
    (Some (Doc 9 (JArr [JInt 1; JInt 2])))
  = @update_session_token_count sample_runtime 1793927400000000 "agent-a" 7
      None.
Proof.
  apply (@unreadable_ledger_restarts sample_runtime). reflexivity.
Defined.

(** X5.  What [validate_and_clean_token_data] returns is well formed: the
    total is not negative, there are at most [MAX_TOKEN_SESSIONS] = 25
    agents, the keys of each bucket map are distinct and its counts are
    not negative, and [last_update] is the time of the call. *)
Theorem validated_ledger_well_formed `{Runtime} (now : Z) (j : json)
    (l : ledger) :
  validate_and_clean_token_data now j = Ok l ->
  0 <= total l
  /\ (length (by_agent l) <= MAX_TOKEN_SESSIONS)%nat
  /\ clean_bucket (by_agent l)
  /\ clean_bucket (by_phase l)
  /\ last_update l = isoformat now.
Proof. apply validate_shape. Qed.

Lemma validated_ledger_well_formed_witness :
  exists l,
    @validate_and_clean_token_data sample_runtime 1793927400000000
      (JObj crowded_ledger) = Ok l
    /\ 0 <= total l
    /\ (length (by_agent l) <= MAX_TOKEN_SESSIONS)%nat
    /\ clean_bucket (by_agent l)
    /\ clean_bucket (by_phase l).
Proof.
  eexists. split; [reflexivity|].
  destruct (@validated_ledger_well_formed sample_runtime 1793927400000000
              (JObj crowded_ledger) _ eq_refl) as (? & ? & ? & ? & _).
  auto.
Defined.

(** X6.  Validation is idempotent on the counts: validating the document
    of a validated ledger gives back its total, its two bucket maps and
    its [session_start]. *)
Theorem validation_idempotent `{Runtime} (now later : Z) (j : json)
    (l : ledger) :
  validate_and_clean_token_data now j = Ok l ->
  exists l',
    validate_and_clean_token_data later (ledger_json l) = Ok l'
    /\ total l' = total l
    /\ by_agent l' = by_agent l
    /\ by_phase l' = by_phase l
    /\ session_start l' = session_start l.
Proof.
  intros Hval.
  destruct (validate_shape now j l Hval)
    as (Htot & Hlen & [Hnda Hposa] & [Hndp Hposp] & _).
  eexists. split; [reflexivity|]. cbn.
  split; [lia|]. split; [|split; [|reflexivity]].
  - replace (length (counts_json (by_agent l))) with (length (by_agent l))
      by (symmetry; apply length_map).
    apply Nat.leb_le in Hlen. rewrite Hlen.
    now apply clean_counts_counts_json.
  - now apply clean_counts_counts_json.
Qed.

Lemma validation_idempotent_witness :
  exists l l',
    @validate_and_clean_token_data sample_runtime 1793927400000000
      (JObj crowded_ledger) = Ok l
    /\ @validate_and_clean_token_data sample_runtime 1793927460000000
         (ledger_json l) = Ok l'
    /\ total l' = total l
    /\ by_agent l' = by_agent l
    /\ by_phase l' = by_phase l.
Proof.
  eexists.
  destruct (@validation_idempotent sample_runtime 1793927400000000
              1793927460000000 (JObj crowded_ledger) _ eq_refl)
    as (l' & Hval & Ht & Ha & Hp & _).
  exists l'. split; [reflexivity|]. auto.
Defined.

(** ** The usage ledger: the counts per agent *)

Lemma validate_clean_ledger `{Runtime} (now : Z) (l : ledger) :
  clean_bucket (by_agent l) ->
  (length (by_agent l) <= MAX_TOKEN_SESSIONS)%nat ->
  exists l',
    validate_and_clean_token_data now (ledger_json l) = Ok l'
    /\ by_agent l' = by_agent l
    /\ total l' = Z.max 0 (total l).
Proof.
  intros [Hnd Hpos] Hlen. eexists. split; [reflexivity|]. cbn.
  split; [|reflexivity].
  replace (length (counts_json (by_agent l))) with (length (by_agent l))
    by (symmetry; apply length_map).
  apply Nat.leb_le in Hlen. rewrite Hlen.
  now apply clean_counts_counts_json.
Qed.

Lemma stays_bounded_app `{Runtime} (l1 l2 : list call) :
  forall f,
    stays_bounded (l1 ++ l2) f
    = stays_bounded l1 f && stays_bounded l2 (record_all l1 f).
Proof.
  induction l1 as [|c l1 IH]; intros f; simpl; [reflexivity|].
  rewrite IH. now rewrite andb_assoc.
Qed.

Lemma record_all_snoc `{Runtime} (done : list call) (c : call)
    (f : option file) :
  record_all (done ++ [c]) f = record_call (record_all done f) c.
Proof. unfold record_all. now rewrite fold_left_app. Qed.

Lemma agent_sum_snoc (a : string) (done : list call) (c : call) :
  agent_sum a (done ++ [c])
  = agent_sum a done + (if String.eqb (agent c) a then amount c else 0).
Proof.
  unfold agent_sum. rewrite List.filter_app, map_app. simpl.
  assert (forall l1 l2, sum_amounts (l1 ++ l2)
                        = sum_amounts l1 + sum_amounts l2) as Happ.
  { induction l1 as [|x l1 IH]; intros l2; simpl; [reflexivity|].
    rewrite IH. lia. }
  rewrite Happ. destruct (String.eqb (agent c) a); unfold sum_amounts; simpl;
    lia.
Qed.

Lemma length_distinct_agents_app (done rest : list call) :
  (length (distinct_agents done)
   <= length (distinct_agents (done ++ rest)))%nat.
Proof.
  unfold distinct_agents. apply NoDup_incl_length; [apply NoDup_nodup|].
  intros a Ha. apply nodup_In in Ha. apply nodup_In.
  rewrite map_app. apply in_or_app. now left.
Qed.

Lemma length_tracked_agents (done : list call) (d : dict Z) :
  List.NoDup (keys d) ->
  (forall a, In a (keys d) -> In a (map agent done)) ->
  (length d <= length (distinct_agents done))%nat.
Proof.
  intros Hnd Hincl. replace (length d) with (length (keys d))
    by apply length_map.
  apply NoDup_incl_length; [assumption|].
  intros a Ha. apply nodup_In. auto.
Qed.

Lemma agents_step `{Runtime} (done : list call) (c : call)
    (f : option file) :
  agents_inv done f -> fits f = true -> 0 <= amount c ->
  (length (distinct_agents done) <= MAX_TOKEN_SESSIONS)%nat ->
  Forall (fun c => 0 <= amount c) done ->
  agents_inv (done ++ [c]) (record_call f c).
Proof.
  intros Hinv Hfits Hc Hdistinct Hpos. right.
  assert (forall l0,
             clean_bucket (by_agent l0) ->
             (length (by_agent l0) <= MAX_TOKEN_SESSIONS)%nat ->
             (forall a, In a (keys (by_agent l0)) <-> In a (map agent done)) ->
             (forall a, py_get (by_agent l0) a 0 = agent_sum a done) ->
             let l := add_tokens (at_time c) (agent c) (amount c) l0 in
             clean_bucket (by_agent l)
             /\ (forall a, In a (keys (by_agent l))
                           <-> In a (map agent (done ++ [c])))
             /\ (forall a, py_get (by_agent l) a 0
                           = agent_sum a (done ++ [c]))) as Hadd.
  { intros l0 [Hnd Hnn] Hlen Hkeys Hsum l.
    destruct (add_tokens_shape (at_time c) (agent c) (amount c) l0 Hlen)
      as (Hba & _). fold l in Hba. rewrite Hba. split; [split|split].
    - now apply nodup_dict_set.
    - apply Forall_dict_set; [|assumption]. simpl.
      rewrite Hsum. unfold agent_sum.
      assert (forall l, Forall (fun c => 0 <= amount c) l ->
                        0 <= sum_amounts (map amount l)) as Hge.
      { induction 1; simpl; lia. }
      pose proof (Hge (List.filter
                         (fun c0 => String.eqb (agent c0) (agent c))
                         done)) as Hge'.
      assert (Forall (fun c0 => 0 <= amount c0)
                (List.filter (fun c0 => String.eqb (agent c0) (agent c))
                   done)).
      { apply List.Forall_forall. intros x Hx. apply filter_In in Hx as [Hx _].
        eapply List.Forall_forall in Hpos; eauto. }
      specialize (Hge' H0). lia.
    - intros a. rewrite keys_dict_set, Hkeys, map_app, in_app_iff. simpl.
      intuition.
    - intros a. rewrite py_get_dict_set, agent_sum_snoc.
      destruct (String.eqb_spec a (agent c)) as [->|Hne].
      + rewrite String.eqb_refl, Hsum. reflexivity.
      + destruct (String.eqb_spec (agent c) a) as [<-|_];
          [contradiction|]. rewrite Hsum. lia. }
  destruct Hinv as [[-> ->]|(l & -> & Hclean & Hkeys & Hsum)].
  - exists (add_tokens (at_time c) (agent c) (amount c)
              (create_empty_token_data (at_time c))).
    split; [reflexivity|].
    apply Hadd; simpl; try lia; try tauto; try (split; constructor).
  - assert (length (by_agent l) <= MAX_TOKEN_SESSIONS)%nat as Hlen.
    { etransitivity; [|exact Hdistinct].
      apply length_tracked_agents; [apply Hclean|]. intros a. apply Hkeys. }
    destruct (load_session_fits (at_time c) l Hfits) as [Hpre Hload].
    destruct (validate_clean_ledger (at_time c) l Hclean Hlen)
      as (l' & Hval & Hba & _).
    exists (add_tokens (at_time c) (agent c) (amount c) l').
    unfold record_call, update_session_token_count, locked_update.
    rewrite Hpre, Hload, Hval. split; [reflexivity|].
    apply Hadd; rewrite Hba; assumption.
Qed.

Lemma agents_run `{Runtime} (calls : list call) :
  Forall (fun c => 0 <= amount c) calls ->
  (length (distinct_agents calls) <= MAX_TOKEN_SESSIONS)%nat ->
  stays_bounded calls None = true ->
  agents_inv calls (record_all calls None)
  /\ fits (record_all calls None) = true.
Proof.
  induction calls as [|c done IH] using rev_ind; intros Hpos Hdistinct Hbound.
  - split; [left; auto|reflexivity].
  - apply Forall_app in Hpos as [Hpos Hc].
    apply Forall_cons_1 in Hc as [Hc _].
    rewrite stays_bounded_app in Hbound.
    apply andb_prop in Hbound as [Hdone Hlast].
    simpl in Hlast. rewrite andb_true_r in Hlast.
    pose proof (length_distinct_agents_app done [c]) as Hmono.
    destruct IH as [Hinv Hfits]; [assumption|lia|assumption|].
    rewrite record_all_snoc. split; [|exact Hlast].
    apply agents_step; try assumption. lia.
Qed.

(** X7.  For every sequence of [record] calls starting from no ledger
    file, with amounts that are not negative, at most
    [MAX_TOKEN_SESSIONS] = 25 distinct agents, and a ledger file that stays
    within [MAX_TOKEN_FILE_SIZE]: [read()] reports a [by_agent] map with
    one entry per agent called, whose count is the sum of the amounts
    recorded for that agent. *)
Theorem per_agent_counts_are_sums `{Runtime} (calls : list call)
    (later : Z) :
  Forall (fun c => 0 <= amount c) calls ->
  (length (distinct_agents calls) <= MAX_TOKEN_SESSIONS)%nat ->
  stays_bounded calls None = true ->
  exists counts,
    by_agent_of (fst (get_current_session_tokens later
                        (record_all calls None)))
    = Some (JObj (counts_json counts))
    /\ List.NoDup (keys counts)
    /\ (forall a, In a (keys counts) <-> In a (map agent calls))
    /\ (forall a, py_get counts a 0 = agent_sum a calls).
Proof.
  intros Hpos Hdistinct Hbound.
  destruct (agents_run calls Hpos Hdistinct Hbound)
    as [[[-> ->]|(l & -> & Hclean & Hkeys & Hsum)] Hfits].
  - exists []. split; [reflexivity|]. split; [constructor|].
    split; [reflexivity|]. reflexivity.
  - exists (by_agent l).
    assert (length (by_agent l) <= MAX_TOKEN_SESSIONS)%nat as Hlen.
    { etransitivity; [|exact Hdistinct].
      apply length_tracked_agents; [apply Hclean|]. intros a. apply Hkeys. }
    destruct (validate_clean_ledger later l Hclean Hlen)
      as (l' & Hval & Hba & _).
    unfold fits, json_dump in Hfits.
    apply andb_prop in Hfits as [Hdisk _]. apply Z.leb_le in Hdisk.
    unfold get_current_session_tokens, json_dump. cbn [st_size json_load].
    replace (2 * 1024 * 1024 <? compact_len (ledger_json l)) with false
      by (symmetry; apply Z.ltb_ge; unfold MAX_TOKEN_FILE_SIZE in Hdisk; lia).
    rewrite Hval. cbn [fst]. rewrite by_agent_of_ledger_json, Hba.
    split; [reflexivity|]. split; [apply Hclean|]. split; assumption.
Qed.

Lemma per_agent_counts_are_sums_witness :
  exists counts,
    by_agent_of (fst (@get_current_session_tokens sample_runtime
                        1793927403000000
                        (@record_all sample_runtime three_calls None)))
    = Some (JObj (counts_json counts))
    /\ py_get counts "agent-a" 0 = 125
    /\ py_get counts "agent-b" 0 = 50.
Proof.
  destruct (@per_agent_counts_are_sums sample_runtime three_calls
              1793927403000000) as (counts & Hread & _ & _ & Hsum).
  - repeat constructor; simpl; lia.
  - vm_compute. lia.
  - vm_compute. reflexivity.
  - exists counts. split; [exact Hread|].
    split; rewrite Hsum; reflexivity.
Defined.

(** ** The usage ledger: compaction and the emergency cleanup *)

Lemma cleanup_token_file_counts `{Runtime} (now size t : Z) (d : dict json)
    (ba bp : dict Z) :
  size <= MAX_TOKEN_FILE_SIZE ->
  dict_get "total" d = Some (JInt t) ->
  dict_get "by_agent" d = Some (JObj (counts_json ba)) ->
  dict_get "by_phase" d = Some (JObj (counts_json bp)) ->
  cleanup_token_file now (Doc size (JObj d))
  = Ok (Some (json_dump
                (compacted (isoformat now) (Z.min t 1000000)
                   (firstn 5 (sorted_desc Z.ltb ba))
                   (firstn MAX_PHASE_TRACKING (sorted_desc Z.ltb bp))))).
Proof.
  intros Hsize Ht Hba Hbp. apply Z.ltb_ge in Hsize.
  unfold cleanup_token_file. cbn [st_size json_load]. rewrite Hsize.
  rewrite (py_get_some _ _ _ _ Ht), (py_get_some _ _ _ _ Hba),
    (py_get_some _ _ _ _ Hbp).
  rewrite !sorted_items_counts_json. cbn [res_bind min_total].
  rewrite !firstn_counts_json.
  replace (if 1000000 <? t then 1000000 else t) with (Z.min t 1000000)
    by (destruct (Z.ltb_spec 1000000 t); lia).
  reflexivity.
Qed.

Lemma descending_firstn (n : nat) (l : dict Z) :
  descending l -> descending (firstn n l).
Proof.
  unfold descending. revert n.
  induction l as [|kv l IH]; intros n Hl; destruct n; simpl;
    try constructor.
  - apply IH. now inversion Hl.
  - inversion Hl as [|? ? _ Hall]; subst.
    apply List.Forall_forall. intros kv' Hin.
    eapply List.Forall_forall in Hall; [exact Hall|].
    rewrite <- (firstn_skipn n l). apply in_or_app. now left.
Qed.

Lemma sorted_desc_descending_id (l : dict Z) :
  descending l -> sorted_desc Z.ltb l = l.
Proof.
  unfold descending, sorted_desc.
  induction l as [|kv l IH]; intros Hl; [reflexivity|].
  inversion Hl as [|? ? Hl' Hall]; subst. simpl. rewrite IH by assumption.
  destruct l as [|kv' l]; [reflexivity|]. simpl.
  apply Forall_cons_1 in Hall as [Hle _].
  now replace (snd kv <? snd kv') with false
    by (symmetry; apply Z.ltb_ge; exact Hle).
Qed.

Lemma top_of_top (n : nat) (d : dict Z) :
  firstn n (sorted_desc Z.ltb (firstn n (sorted_desc Z.ltb d)))
  = firstn n (sorted_desc Z.ltb d).
Proof.
  rewrite sorted_desc_descending_id
    by apply descending_firstn, sorted_desc_descending.
  rewrite firstn_firstn. f_equal. lia.
Qed.

(** X8.  Compaction is idempotent on the counts.  On a file within the
    bound that holds an integer total and integer counts,
    [cleanup_token_file] writes the capped total, the top 5 agents and the
    top 8 phases; run again on its own output (when that is within the
    bound) it writes the same total, agents and phases, with new
    timestamps. *)
Theorem compaction_is_idempotent `{Runtime} (now later size t : Z)
    (d : dict json) (ba bp : dict Z) :
  size <= MAX_TOKEN_FILE_SIZE ->
  dict_get "total" d = Some (JInt t) ->
  dict_get "by_agent" d = Some (JObj (counts_json ba)) ->
  dict_get "by_phase" d = Some (JObj (counts_json bp)) ->
  let agents := firstn 5 (sorted_desc Z.ltb ba) in
  let phases := firstn MAX_PHASE_TRACKING (sorted_desc Z.ltb bp) in
  let once := compacted (isoformat now) (Z.min t 1000000) agents phases in
  cleanup_token_file now (Doc size (JObj d)) = Ok (Some (json_dump once))
  /\ (compact_len once <= MAX_TOKEN_FILE_SIZE ->
      cleanup_token_file later (json_dump once)
      = Ok (Some (json_dump
                    (compacted (isoformat later) (Z.min t 1000000)
                       agents phases)))).
Proof.
  intros Hsize Ht Hba Hbp agents phases once.
  split; [now apply cleanup_token_file_counts|].
  intros Hfits. unfold json_dump, once, compacted.
  rewrite (cleanup_token_file_counts later _ (Z.min t 1000000)
             [("total", JInt (Z.min t 1000000));
              ("session_start", JStr (isoformat now));
              ("last_update", JStr (isoformat now));
              ("by_agent", JObj (counts_json agents));
              ("by_phase", JObj (counts_json phases))]%string
             agents phases Hfits eq_refl eq_refl eq_refl).
  unfold agents, phases. rewrite !top_of_top. unfold compacted.
  replace (Z.min (Z.min t 1000000) 1000000) with (Z.min t 1000000) by lia.
  reflexivity.
Qed.

Lemma compaction_is_idempotent_witness :
  let agents :=
    [("agent-b", 70); ("agent-d", 70); ("agent-f", 60); ("agent-g", 50);
     ("agent-c", 30)]%string in
  let phases := [("coordination", 5)]%string in
  let once := compacted "2026-11-06T01:10:00" 1000000 agents phases in
  @cleanup_token_file sample_runtime 1793927400000000
    (Doc (compact_len (JObj crowded_ledger)) (JObj crowded_ledger))
  = Ok (Some (json_dump once))
  /\ @cleanup_token_file sample_runtime 1793927460000000 (json_dump once)
     = Ok (Some (json_dump
                   (compacted "2026-11-06T01:11:00" 1000000 agents phases))).
Proof.
  destruct (@compaction_is_idempotent sample_runtime 1793927400000000
              1793927460000000 (compact_len (JObj crowded_ledger)) 2000000
              crowded_ledger crowded_counts [("coordination", 5)]%string)
    as [Hfirst Hsecond].
  - vm_compute. discriminate.
  - reflexivity.
  - reflexivity.
  - reflexivity.
  - split; [exact Hfirst|]. apply Hsecond. vm_compute. discriminate.
Defined.

(** X9.  [cleanup_memory] keeps the total of a ledger above
    [MAX_TOKEN_FILE_SIZE] (where [cleanup_token_file] zeroes it): when the
    file holds an object with an integer total that is not negative,
    [read()] after the cleanup reports that total, with no agents and no
    phases. *)
Theorem cleanup_memory_keeps_total `{Runtime} (now later size t : Z)
    (data : dict json) (s : residue) :
  tokens s = Some (Doc size (JObj data)) ->
  MAX_TOKEN_FILE_SIZE < size ->
  dict_get "total" data = Some (JInt t) ->
  0 <= t ->
  size_of (tokens (cleanup_memory now s)) <= 2 * 1024 * 1024 ->
  let v := fst (get_current_session_tokens later
                  (tokens (cleanup_memory now s))) in
  total_of v = Some (JInt t)
  /\ by_agent_of v = Some (JObj [])
  /\ by_phase_of v = Some (JObj []).
Proof.
  intros Htokens Hover Htotal Ht. unfold cleanup_memory. rewrite Htokens.
  cbn [st_size json_load]. apply Z.ltb_lt in Hover. rewrite Hover.
  rewrite (py_get_some data "total" (JInt 0) (JInt t) Htotal).
  cbn [tokens size_of json_dump st_size]. intros Hsmall.
  unfold get_current_session_tokens. cbn [st_size json_load].
  match goal with
  | |- context [if ?b then _ else _] =>
      replace b with false by (symmetry; apply Z.ltb_ge; exact Hsmall)
  end.
  cbn. repeat split. do 2 f_equal. lia.
Qed.

Lemma cleanup_memory_keeps_total_witness :
  let s := {| tokens := Some (Doc 300000 (JObj crowded_ledger));
              compass_complete := true; compass_todo_updates := false |} in
  total_of (fst (@get_current_session_tokens sample_runtime 1793927460000000
                   (tokens (@cleanup_memory sample_runtime
                              1793927400000000 s))))
  = Some (JInt 2000000).
Proof.
  intros s.
  apply (@cleanup_memory_keeps_total sample_runtime 1793927400000000
           1793927460000000 300000 2000000 crowded_ledger s).
  - reflexivity.
  - reflexivity.
  - reflexivity.
  - lia.
  - vm_compute. discriminate.
Defined.

(** X10.  [cleanup_memory] removes [.compass-complete] and
    [.compass-todo-updates] and leaves alone a ledger within its bound,
    unless the ledger is above the bound and is not UTF-8 or holds JSON
    other than an object: the exception then ends the function before it
    has changed anything. *)
Theorem cleanup_memory_sweeps_or_gives_up `{Runtime} (now : Z)
    (s : residue) :
  (gives_up (tokens s) = true -> cleanup_memory now s = s)
  /\ (gives_up (tokens s) = false ->
      compass_complete (cleanup_memory now s) = false
      /\ compass_todo_updates (cleanup_memory now s) = false
      /\ (size_of (tokens s) <= MAX_TOKEN_FILE_SIZE ->
          tokens (cleanup_memory now s) = tokens s)).
Proof.
  unfold cleanup_memory, gives_up.
  destruct (tokens s) as [fl|] eqn:Htokens; cbn [size_of].
  - destruct (Z.ltb_spec MAX_TOKEN_FILE_SIZE (st_size fl)) as [Hover|Hfine];
      cbn [andb].
    + destruct (json_load fl) as [[| | | | |data]|[]]; cbn;
        split; try discriminate; try reflexivity; intros _;
        repeat split; intros; lia.
    + split; [discriminate|]. intros _. cbn. auto.
  - split; [discriminate|]. intros _. cbn. auto.
Qed.

Lemma cleanup_memory_sweeps_or_gives_up_witness :
  let s := {| tokens := Some (Doc 300000 (JArr [JInt 1]));
              compass_complete := true; compass_todo_updates := true |} in
  let s' := {| tokens := Some (Garbage 300000);
               compass_complete := true; compass_todo_updates := true |} in
  @cleanup_memory sample_runtime 1793927400000000 s = s
  /\ compass_complete (@cleanup_memory sample_runtime 1793927400000000 s')
     = false.
Proof.
  intros s s'. split.
  - apply (proj1 (@cleanup_memory_sweeps_or_gives_up sample_runtime
                    1793927400000000 s)). reflexivity.
  - apply (proj2 (@cleanup_memory_sweeps_or_gives_up sample_runtime
                    1793927400000000 s')). reflexivity.
Defined.

(** ** The knowledge-query cache, further *)

(** What a call of [resolve] does to the directory, case by case. *)
Lemma resolve_directory `{Runtime} (now later : Z)
    (task_description : string) (topic_keywords : list string)
    (run : completed) (c : cache_dir) :
  let cache_key := get_cache_key task_description topic_keywords in
  let lookup := load_cached_knowledge now cache_key c in
  let result :=
    execute_knowledge_query_subprocess now later task_description
      topic_keywords run c in
  (exists cached, usable (fst lookup) = Some cached
                  /\ result = (cached, snd lookup))
  \/ (usable (fst lookup) = None
      /\ scripts (snd result) = scripts c ∖ {[cache_key]}
      /\ match run with
         | Exited 0 (inr knowledge_data) _ =>
             fst result = knowledge_data
             /\ entries (snd result)
                = <[cache_key := {| st_mtime := later;
                                    pickled := Some knowledge_data |}]>
                    (entries (snd lookup))
         | _ => entries (snd result) = entries (snd lookup)
         end).
Proof.
  intros cache_key lookup result.
  pose proof (load_cached_knowledge_entries now cache_key c) as [Hscripts _].
  fold lookup in Hscripts. cbn zeta in Hscripts.
  subst result. unfold execute_knowledge_query_subprocess.
  fold cache_key. fold lookup. clearbody lookup. clearbody cache_key.
  destruct lookup as [cached c1]. cbn [fst snd] in *.
  destruct (usable cached) as [payload|]; [left; eauto|right].
  split; [reflexivity|].
  assert (({[cache_key]} ∪ scripts c1) ∖ {[cache_key]}
          = scripts c ∖ {[cache_key]}) as Hset.
  { rewrite Hscripts. apply set_eq. intros k.
    rewrite !elem_of_difference, elem_of_union, elem_of_singleton.
    tauto. }
  destruct run as [|rc out err].
  - cbn [snd fst]. split; [exact Hset|]. reflexivity.
  - destruct rc as [|p|p]; [destruct out as [msg|knowledge_data]|..];
      cbn [snd fst]; (split; [exact Hset|]); try reflexivity.
    split; reflexivity.
Qed.

(** X11.  [resolve] touches only its own key: the entries of all other
    keys are those of before the call, no script is present afterwards
    that was not present before, and the script of the query's key is
    present afterwards only if the call was answered from the cache. *)
Theorem resolve_touches_only_its_key `{Runtime} (now later : Z)
    (task_description : string) (topic_keywords : list string)
    (run : completed) (c : cache_dir) :
  let cache_key := get_cache_key task_description topic_keywords in
  let result :=
    execute_knowledge_query_subprocess now later task_description
      topic_keywords run c in
  (forall k, k <> cache_key -> entries (snd result) !! k = entries c !! k)
  /\ (forall k, k ∈ scripts (snd result) -> k ∈ scripts c)
  /\ (cache_key ∈ scripts (snd result) ->
      usable (fst (load_cached_knowledge now cache_key c)) <> None).
Proof.
  intros cache_key result.
  pose proof (load_cached_knowledge_entries now cache_key c)
    as [Hscripts Hentries].
  cbn zeta in Hscripts, Hentries.
  assert (forall k, k <> cache_key ->
            entries (snd (load_cached_knowledge now cache_key c)) !! k
            = entries c !! k) as Hframe.
  { intros k Hk. destruct Hentries as [->|(e & _ & _ & ->)];
      [reflexivity|]. now apply lookup_delete_ne. }
  pose proof (resolve_directory now later task_description topic_keywords
                run c) as Hdir.
  cbn zeta in Hdir. fold cache_key in Hdir. fold result in Hdir.
  destruct Hdir as [(cached & Hhit & Hres)|(Hmiss & Hs & He)].
  - rewrite Hres. cbn [snd]. split; [exact Hframe|].
    split; [now rewrite Hscripts|]. intros _. rewrite Hhit. discriminate.
  - split; [|split].
    + intros k Hk.
      assert (entries (snd result) !! k
              = entries (snd (load_cached_knowledge now cache_key c)) !! k)
        as ->; [|now apply Hframe].
      destruct run as [|rc out err]; [now rewrite He|].
      destruct rc; try (now rewrite He).
      destruct out; [now rewrite He|].
      destruct He as [_ ->]. now apply lookup_insert_ne.
    + intros k. rewrite Hs. now intros [? _]%elem_of_difference.
    + rewrite Hs. intros [_ Hin]%elem_of_difference.
      exfalso. apply Hin. now apply elem_of_singleton.
Qed.

(** X12.  Once a query has succeeded with an answer that is not empty, the
    answer comes from the cache: a second [resolve] of the same query
    within the TTL returns it and leaves the directory as it is, whatever
    the subprocess would do; the first call leaves no script behind. *)
Theorem successful_query_is_cached `{Runtime} (now later again later' : Z)
    (task_description : string) (topic_keywords : list string)
    (knowledge_data : json) (stderr : string) (run' : completed)
    (c : cache_dir) :
  let cache_key := get_cache_key task_description topic_keywords in
  let first :=
    execute_knowledge_query_subprocess now later task_description
      topic_keywords (Exited 0 (inr knowledge_data) stderr) c in
  let second :=
    execute_knowledge_query_subprocess again later' task_description
      topic_keywords run' (snd first) in
  usable (fst (load_cached_knowledge now cache_key c)) = None ->
  truthy knowledge_data = true ->
  again - later <= KNOWLEDGE_CACHE_TTL * 1000000 ->
  fst first = knowledge_data
  /\ (cache_key ∉ scripts (snd first))
  /\ second = (knowledge_data, snd first).
Proof.
  intros cache_key first second Hmiss Htruthy Hage.
  pose proof (resolve_directory now later task_description topic_keywords
                (Exited 0 (inr knowledge_data) stderr) c) as Hdir.
  cbn zeta in Hdir. fold cache_key in Hdir. fold first in Hdir.
  destruct Hdir as [(cached & Hhit & _)|(_ & Hs & Hfst & He)].
  { rewrite Hmiss in Hhit. discriminate. }
  split; [exact Hfst|]. split.
  { rewrite Hs. intros [_ Hin]%elem_of_difference.
    apply Hin. now apply elem_of_singleton. }
  subst second. unfold execute_knowledge_query_subprocess at 1.
  fold cache_key. unfold load_cached_knowledge. rewrite He.
  rewrite lookup_insert_eq. cbn [st_mtime pickled].
  replace (KNOWLEDGE_CACHE_TTL * 1000000 <? again - later) with false
    by (symmetry; apply Z.ltb_ge; lia).
  cbn [usable]. rewrite Htruthy. reflexivity.
Qed.

Lemma successful_query_is_cached_witness :
  let c := {| entries := ∅; scripts := ∅ |} in
  let answer := JObj [("status", JStr "success")]%string in
  let first :=
    @execute_knowledge_query_subprocess sample_runtime 0 2000000
      "why does it crash" ["heap"]%string (Exited 0 (inr answer) "") c in
  fst first = answer
  /\ @execute_knowledge_query_subprocess sample_runtime 60000000 360000000
       "why does it crash" ["heap"]%string TimeoutExpired (snd first)
     = (answer, snd first).
Proof.
  intros c answer first.
  destruct (@successful_query_is_cached sample_runtime 0 2000000 60000000
              360000000 "why does it crash" ["heap"]%string answer ""
              TimeoutExpired c) as (Hfst & _ & Hsecond).
  - reflexivity.
  - reflexivity.
  - vm_compute. discriminate.
  - split; [exact Hfst | exact Hsecond].
Defined.

(** X13.  An entry without a usable payload (one that cannot be unpickled,
    or whose payload is empty) is a miss: [resolve] returns what it
    returns when the entry is not there. *)
Theorem unusable_entry_is_a_miss `{Runtime} (now later : Z)
    (task_description : string) (topic_keywords : list string)
    (run : completed) (c : cache_dir) (e : cache_entry) :
  let cache_key := get_cache_key task_description topic_keywords in
  entries c !! cache_key = Some e ->
  usable (pickled e) = None ->
  fst (execute_knowledge_query_subprocess now later task_description
         topic_keywords run c)
  = fst (execute_knowledge_query_subprocess now later task_description
           topic_keywords run (without_entry cache_key c)).
Proof.
  intros cache_key He Hunusable.
  unfold execute_knowledge_query_subprocess. fold cache_key.
  unfold load_cached_knowledge. rewrite He.
  cbn [entries without_entry]. rewrite lookup_delete_eq.
  destruct (KNOWLEDGE_CACHE_TTL * 1000000 <? now - st_mtime e);
    [|rewrite Hunusable]; cbn [usable];
    destruct run as [|rc out err]; try reflexivity;
    destruct rc; try reflexivity; destruct out; reflexivity.
Qed.

Lemma unusable_entry_is_a_miss_witness :
  let cache_key :=
    @get_cache_key sample_runtime "why does it crash" ["heap"]%string in
  let empty := {| st_mtime := 0; pickled := Some (JObj []) |} in
  let c := {| entries := {[cache_key := empty]}; scripts := ∅ |} in
  fst (@execute_knowledge_query_subprocess sample_runtime 60000000 90000000
         "why does it crash" ["heap"]%string TimeoutExpired c)
  = error_result "timeout" "Knowledge query timed out after 300s"
      "why does it crash".
Proof.
  intros cache_key empty c.
  rewrite (@unusable_entry_is_a_miss sample_runtime 60000000 90000000
             "why does it crash" ["heap"]%string TimeoutExpired c empty).
  - reflexivity.
  - apply lookup_singleton_eq.
  - reflexivity.
Defined.

(** X14.  Keys are independent: storing under one key does not change what
    a lookup of another key returns, and a lookup leaves the entry of every
    other key as it is. *)
Theorem cache_keys_are_independent (now stored_at : Z)
    (cache_key other : string) (knowledge_data : json) (c : cache_dir) :
  other <> cache_key ->
  fst (load_cached_knowledge now other
         (save_knowledge_cache stored_at cache_key knowledge_data c))
  = fst (load_cached_knowledge now other c)
  /\ entries (snd (load_cached_knowledge now other c)) !! cache_key
     = entries c !! cache_key.
Proof.
  intros Hne. unfold load_cached_knowledge, save_knowledge_cache.
  cbn [entries]. rewrite lookup_insert_ne by congruence.
  destruct (entries c !! other) as [e|]; [|auto].
  destruct (_ <? _); cbn [fst snd entries]; [|auto].
  split; [reflexivity|]. apply lookup_delete_ne. congruence.
Qed.

Lemma cache_keys_are_independent_witness :
  let c := {| entries := {["k1" := {| st_mtime := 0;
                                      pickled := Some (JInt 1) |}]}%string;
              scripts := ∅ |} in
  fst (load_cached_knowledge 1000000 "k1"
         (save_knowledge_cache 500000 "k2" (JInt 2) c))
  = Some (JInt 1).
Proof.
  intros c.
  destruct (cache_keys_are_independent 1000000 500000 "k2" "k1" (JInt 2) c)
    as [-> _].
  - discriminate.
  - reflexivity.
Defined.

(** ** The activity sensor, further *)

Lemma last_20_app {A} (older recent : list A) :
  (20 <= length recent)%nat -> last_20 (older ++ recent) = last_20 recent.
Proof.
  intros Hlen. unfold last_20. rewrite length_app.
  replace (length older + length recent - 20)%nat
    with (length older + (length recent - 20))%nat by lia.
  rewrite skipn_app, skipn_all2 by lia. simpl. f_equal. lia.
Qed.

(** X15.  Only the last twenty lines of the journal count: lines that
    precede twenty or more others do not change the verdict. *)
Theorem only_last_twenty_lines_count `{Runtime} (now : Z) (d : disk)
    (older recent : list (option json)) :
  (20 <= length recent)%nat ->
  compass_context_active now (with_journal d (older ++ recent))
  = compass_context_active now (with_journal d recent).
Proof.
  intros Hlen. unfold compass_context_active, with_journal.
  cbn [status_file session_file log_file docs token_file].
  now rewrite last_20_app.
Qed.

Lemma only_last_twenty_lines_count_witness :
  let now := 1793927400000000 in
  let fresh := Some (JObj [("timestamp", JStr "2026-11-06T01:09:00+00:00");
                           ("action", JStr "token_tracking")]%string) in
  @compass_context_active sample_runtime now
    (with_journal (ledger_only None) ([fresh] ++ blank_lines 20))
  = Ok false.
Proof.
  intros now fresh.
  rewrite (@only_last_twenty_lines_count sample_runtime now
             (ledger_only None) [fresh] (blank_lines 20)).
  - reflexivity.
  - simpl. lia.
Defined.

(** X16.  When there is no status file and the session marker holds JSON
    other than an object, the sensor raises [AttributeError], whatever the
    other sources hold. *)
Theorem sensor_raises_on_marker_that_is_no_object `{Runtime} (now : Z)
    (d : disk) (size : Z) (j : json) :
  status_file d = false ->
  session_file d = Some (Doc size j) ->
  is_object j = false ->
  compass_context_active now d = Raise AttributeError.
Proof.
  intros Hstatus Hsession Hobj. unfold compass_context_active.
  rewrite Hstatus, Hsession. unfold check_compass_session_active.
  cbn [json_load]. destruct j; try discriminate; reflexivity.
Qed.

Lemma sensor_raises_on_marker_that_is_no_object_witness :
  @compass_context_active sample_runtime 1793927400000000
    {| status_file := false; session_file := Some (Doc 2 (JArr []));
       log_file := None; docs := [1793927399000000]; token_file := None |}
  = Raise AttributeError.
Proof.
  apply (@sensor_raises_on_marker_that_is_no_object sample_runtime
           1793927400000000 _ 2 (JArr [])); reflexivity.
Defined.

(** A timestamp that reads back naive is never within a window: the
    subtraction from the aware [now] raises. *)
Lemma naive_not_valid `{Runtime} (now t : Z) :
  reads_naive t = true ->
  forall threshold,
    is_session_timestamp_valid now (JStr (isoformat t)) threshold = false.
Proof.
  unfold reads_naive, is_session_timestamp_valid, age_of. intros Hnaive ?.
  destruct (fromisoformat (replace_Z (isoformat t))) as [dt|]; [|reflexivity].
  destruct (aware dt); [discriminate|reflexivity].
Qed.

(** The update of a ledger that the handler wrote goes through. *)
Lemma record_on_handler_file `{Runtime} (now : Z) (a : string) (n : Z)
    (f : option file) :
  written_by_handler f ->
  exists l, update_session_token_count now a n f
            = Some (json_dump (ledger_json l))
            /\ last_update l = isoformat now.
Proof.
  intros Hf.
  assert (exists f1 l0, precheck now f = Ok f1 /\ load_session now f1 = Ok l0)
    as (f1 & l0 & Hpre & Hload).
  { destruct Hf as [->|[l ->]].
    - exists None, (create_empty_token_data now). split; reflexivity.
    - destruct (session_of_ledger now l) as (f1 & l0 & ? & ? & _). eauto. }
  exists (add_tokens now a n l0).
  unfold update_session_token_count, locked_update. rewrite Hpre, Hload.
  split; [reflexivity|]. unfold add_tokens.
  unfold evict, cleanup_old_agents_optimized, cleanup_old_phases.
  repeat match goal with |- context [if ?b then _ else _] => destruct b end;
    reflexivity.
Qed.

(** X17.  The signal of a ledger that the handler wrote does not depend on
    the clock.  After [record] on a ledger file that is absent or was
    written by the handler, at a time whose timestamp reads back naive,
    [check_recent_compass_tokens] returns at every time whether some
    tracked agent name starts with [compass-]: the [last_update] it has
    just written never counts. *)
Theorem ledger_signal_ignores_the_clock `{Runtime} (recorded_at now : Z)
    (agent_type : string) (token_count : Z) (before : option file) :
  written_by_handler before ->
  reads_naive recorded_at = true ->
  exists l,
    update_session_token_count recorded_at agent_type token_count before
    = Some (json_dump (ledger_json l))
    /\ check_recent_compass_tokens now (Some (json_dump (ledger_json l)))
       = Ok (existsb starts_with_compass (keys (by_agent l))).
Proof.
  intros Hbefore Hnaive.
  destruct (record_on_handler_file recorded_at agent_type token_count
              before Hbefore) as (l & Hwritten & Hupdate).
  exists l. split; [exact Hwritten|].
  unfold check_recent_compass_tokens, json_dump. cbn [json_load].
  cbn [ledger_json]. unfold py_get. cbn [dict_get String.eqb Ascii.eqb
                                          Bool.eqb].
  rewrite Hupdate.
  change (is_recent_timestamp_extended now (JStr (isoformat recorded_at)))
    with (is_session_timestamp_valid now (JStr (isoformat recorded_at)) 1800).
  rewrite naive_not_valid by assumption.
  now rewrite keys_counts_json.
Qed.

Lemma ledger_signal_ignores_the_clock_witness :
  let recorded_at := 1793927400000000 in
  exists l,
    @update_session_token_count sample_runtime recorded_at
      "delegation_chain" 40 None
    = Some (json_dump (ledger_json l))
    /\ @check_recent_compass_tokens sample_runtime (recorded_at + 1000000)
         (Some (json_dump (ledger_json l)))
       = Ok (existsb starts_with_compass (keys (by_agent l))).
Proof.
  apply (@ledger_signal_ignores_the_clock sample_runtime 1793927400000000
           (1793927400000000 + 1000000) "delegation_chain" 40 None).
  - left. reflexivity.
  - reflexivity.
Defined.

(** ** The session marker *)

Lemma session_run_marker `{Runtime} (steps : list (Z * session_call)) :
  forall (start : json) (t0 : Z),
    session_run steps
      (Some (json_dump_indent (session_marker start (isoformat t0))))
    = Ok (Some (json_dump_indent
                  (session_marker start (isoformat (last_time t0 steps))))).
Proof.
  induction steps as [|[t [|]] rest IH]; intros start t0;
    [reflexivity|exact (IH start t)..].
Qed.

(** X18.  The start of a session survives.  After
    [create_compass_session_tracking], every sequence of further calls of
    it and of [update_compass_session_activity] goes through and leaves a
    marker with the [session_start] of that first call and the
    [last_activity] of the last one; from no marker the start is the time
    of the first call. *)
Theorem session_start_survives `{Runtime} (t0 : Z) (f0 : option file)
    (steps : list (Z * session_call)) :
  (exists start,
      create_compass_session_tracking t0 f0
      = Some (json_dump_indent (session_marker start (isoformat t0)))
      /\ session_run steps (create_compass_session_tracking t0 f0)
         = Ok (Some (json_dump_indent
                       (session_marker start
                          (isoformat (last_time t0 steps))))))
  /\ session_run steps (create_compass_session_tracking t0 None)
     = Ok (Some (json_dump_indent
                   (session_marker (JStr (isoformat t0))
                      (isoformat (last_time t0 steps))))).
Proof.
  split; [|apply session_run_marker].
  eexists. split; [reflexivity|]. apply session_run_marker.
Qed.

(** X19.  On a marker that is not JSON,
    [update_compass_session_activity] writes a fresh marker, which starts
    at the time of the call.  On a marker that holds JSON other than an
    object it raises [TypeError], where
    [create_compass_session_tracking] writes a fresh marker. *)
Theorem update_of_a_corrupt_marker `{Runtime} (now size : Z) :
  let fresh :=
    Some (json_dump_indent
            (session_marker (JStr (isoformat now)) (isoformat now))) in
  update_compass_session_activity now (Some (Garbage size)) = Ok fresh
  /\ forall j,
       is_object j = false ->
       update_compass_session_activity now (Some (Doc size j))
       = Raise TypeError
       /\ create_compass_session_tracking now (Some (Doc size j)) = fresh.
Proof.
  split; [reflexivity|].
  intros j Hj. destruct j; try discriminate; split; reflexivity.
Qed.

Lemma update_of_a_corrupt_marker_witness :
  @update_compass_session_activity sample_runtime 1793927400000000
    (Some (Doc 2 (JArr []))) = Raise TypeError
  /\ @create_compass_session_tracking sample_runtime 1793927400000000
       (Some (Doc 2 (JArr [])))
     = Some (json_dump_indent
               (session_marker (JStr "2026-11-06T01:10:00")
                  "2026-11-06T01:10:00")).
Proof.
  apply (proj2 (@update_of_a_corrupt_marker sample_runtime 1793927400000000
                  2) (JArr [])).
  reflexivity.
Defined.

(** X20.  The marker that the handler writes never makes
    [check_compass_session_active] return true: when the timestamps of the
    first and of the last call read back naive, the check returns false at
    every time. *)
Theorem session_marker_is_never_recognised `{Runtime} (t0 now : Z)
    (steps : list (Z * session_call)) :
  reads_naive t0 = true ->
  reads_naive (last_time t0 steps) = true ->
  exists f,
    session_run steps (create_compass_session_tracking t0 None) = Ok f
    /\ check_compass_session_active now f = Ok false.
Proof.
  intros Hstart Hlast. eexists. split; [apply session_run_marker|].
  unfold check_compass_session_active, json_dump_indent, session_marker.
  cbn [json_load]. unfold py_get.
  cbn [dict_get String.eqb Ascii.eqb Bool.eqb].
  now rewrite !naive_not_valid.
Qed.

Lemma session_marker_is_never_recognised_witness :
  let t0 := 1793927400000000 in
  exists f,
    @session_run sample_runtime [(t0 + 60000000, Update)]
      (@create_compass_session_tracking sample_runtime t0 None) = Ok f
    /\ @check_compass_session_active sample_runtime (t0 + 61000000) f
       = Ok false.
Proof.
  apply (@session_marker_is_never_recognised sample_runtime
           1793927400000000 (1793927400000000 + 61000000)
           [(1793927400000000 + 60000000, Update)]); reflexivity.
Defined.

(** ** The journal *)

(** X21.  [log_handler_activity] appends its entry as the last line of the
    journal.  What precedes it is within [MAX_LOG_SIZE], or is the single
    line that tells of the rotation; every line of the journal of before
    is in the journal or in the backup afterwards; the backup is the one
    of before or the journal of before. *)
Theorem log_handler_activity_appends `{Runtime} (now : Z)
    (action details : string) (st : logs) :
  let st' := log_handler_activity now action details st in
  let entry := log_entry now action details in
  (exists jl kept,
      current st' = Some jl
      /\ log_lines jl = kept ++ [Some entry]
      /\ (log_size jl - (compact_len entry + 1) <= MAX_LOG_SIZE
          \/ kept = [Some (log_entry now "log_rotated" "Rotated log file")]))
  /\ (forall line, In line (lines_of (current st)) ->
                   In line (lines_of (current st'))
                   \/ In line (lines_of (backup st')))
  /\ (backup st' = backup st \/ backup st' = current st).
Proof.
  unfold log_handler_activity. destruct (current st) as [jl|] eqn:Hcur.
  - destruct (Z.ltb_spec MAX_LOG_SIZE (log_size jl)) as [Hover|Hfine];
      cbn [current backup rotate_log_file append_line lines_of log_lines
           log_size].
    + rewrite Hcur. split; [|split; [|auto]].
      * eexists _, [_]. split; [reflexivity|]. split; [reflexivity|].
        right. reflexivity.
      * intros line Hin. right. exact Hin.
    + rewrite Hcur. cbn [append_line lines_of log_lines log_size].
      split; [|split; [|auto]].
      * eexists _, _. split; [reflexivity|]. split; [reflexivity|].
        left. cbn [log_size]. lia.
      * intros line Hin. left. apply in_or_app. now left.
  - rewrite Hcur. cbn [current backup append_line lines_of].
    split; [|split; [|auto]].
    + eexists _, []. split; [reflexivity|]. split; [reflexivity|].
      left. cbn [log_size]. unfold MAX_LOG_SIZE. lia.
    + intros _ [].
Qed.

Lemma scan_log_handler_lines `{Runtime} (now : Z)
    (lines : list (option json)) :
  Forall handler_line lines -> scan_log now lines = false.
Proof.
  induction 1 as [|line lines (t & o & -> & Hnaive & Hts & Hagent) _ IH];
    [reflexivity|].
  cbn [scan_log]. unfold py_get at 2 4. rewrite Hts.
  change (is_recent_timestamp_extended now (JStr (isoformat t)))
    with (is_session_timestamp_valid now (JStr (isoformat t)) 1800).
  rewrite naive_not_valid by assumption. rewrite !andb_false_r.
  unfold py_get. destruct Hagent as [->|[a ->]];
    rewrite ?andb_false_r; exact IH.
Qed.

Lemma handler_line_entry `{Runtime} (t : Z) (action details : string) :
  reads_naive t = true -> handler_line (Some (log_entry t action details)).
Proof. intros Hnaive. exists t. eexists. repeat split; auto. Qed.

Lemma handler_lines_append `{Runtime} (entry : json) (j : option journal) :
  handler_line (Some entry) ->
  Forall handler_line (lines_of j) ->
  Forall handler_line (lines_of (append_line entry j)).
Proof.
  intros Hentry Hj. destruct j as [jl|]; cbn [append_line lines_of log_lines].
  - apply Forall_app. split; [exact Hj|]. now constructor.
  - now constructor.
Qed.

Lemma journal_step_handler_lines `{Runtime} (st : logs)
    (w : Z * journal_write) :
  reads_naive (fst w) = true ->
  Forall handler_line (lines_of (current st)) ->
  Forall handler_line (lines_of (current (journal_step st w))).
Proof.
  intros Hnaive Hst. destruct w as [t [action details|a n e]];
    cbn [fst snd journal_step] in *.
  - unfold log_handler_activity.
    assert (Forall handler_line
              (lines_of
                 (current
                    match current st with
                    | Some jl =>
                        if MAX_LOG_SIZE <? log_size jl
                        then rotate_log_file t st else st
                    | None => st
                    end))) as Hst1.
    { destruct (current st) as [jl|] eqn:Hcur; [|now rewrite Hcur].
      destruct (MAX_LOG_SIZE <? log_size jl); [|now rewrite Hcur].
      cbn [current rotate_log_file append_line lines_of log_lines].
      constructor; [|constructor]. now apply handler_line_entry. }
    cbn [current]. apply handler_lines_append; [|exact Hst1].
    now apply handler_line_entry.
  - unfold log_agent_token_usage. cbn [current].
    apply handler_lines_append; [|exact Hst].
    exists t. eexists. split; [reflexivity|]. split; [assumption|].
    split; [reflexivity|]. right. exists a. reflexivity.
Qed.

Lemma journal_run_handler_lines `{Runtime}
    (writes : list (Z * journal_write)) :
  forall st,
    forallb (fun w => reads_naive (fst w)) writes = true ->
    Forall handler_line (lines_of (current st)) ->
    Forall handler_line (lines_of (current (journal_run writes st))).
Proof.
  induction writes as [|w writes IH]; intros st Hnaive Hst; [exact Hst|].
  cbn [forallb] in Hnaive. apply andb_prop in Hnaive as [Hw Hnaive].
  apply IH; [assumption|]. now apply journal_step_handler_lines.
Qed.

(** X22.  A journal written by [log_handler_activity] and
    [log_agent_token_usage] at times whose timestamps read back naive never
    makes the sensor return true: with nothing else on disk the verdict is
    false at every time, whatever the actions and agents logged. *)
Theorem journal_never_activates_sensor `{Runtime} (now : Z)
    (writes : list (Z * journal_write)) :
  forallb (fun w => reads_naive (fst w)) writes = true ->
  compass_context_active now (journal_only (journal_run writes empty_logs))
  = Ok false.
Proof.
  intros Hnaive.
  pose proof (journal_run_handler_lines writes empty_logs Hnaive
                (List.Forall_nil _)) as Hlines.
  unfold compass_context_active, journal_only.
  cbn [status_file session_file log_file docs token_file
       check_compass_session_active res_bind existsb
       check_recent_compass_tokens].
  destruct (current (journal_run writes empty_logs)) as [jl|];
    [|reflexivity].
  cbn [option_map lines_of] in *.
  rewrite scan_log_handler_lines; [reflexivity|].
  unfold last_20. apply List.Forall_forall. intros line Hin.
  eapply List.Forall_forall in Hlines; [exact Hlines|].
  rewrite <- (firstn_skipn (length (log_lines jl) - 20) (log_lines jl)).
  apply in_or_app. now right.
Qed.

Lemma journal_never_activates_sensor_witness :
  let t := 1793927400000000 in
  @compass_context_active sample_runtime (t + 2000000)
    (journal_only
       (@journal_run sample_runtime
          [(t, Activity "token_tracking"
                 "compass-captain: 120 tokens estimated");
           (t + 1000000,
            TokenUsage "compass-captain" 120 "parallel_group")]
          empty_logs))
  = Ok false.
Proof.
  apply (@journal_never_activates_sensor sample_runtime).
  reflexivity.
Defined.

(** ** What a prompt and a tool call ask for *)

Lemma prefix_app (sub s : string) :
  String.prefix sub s = true <-> exists post, s = String.append sub post.
Proof.
  revert s. induction sub as [|c sub IH]; intros s.
  - split; [intros _; now exists s|intros _; now destruct s].
  - destruct s as [|c' s]; simpl;
      [split; [discriminate|intros [? [=]]]|].
    destruct (Ascii.ascii_dec c c') as [->|Hne].
    + rewrite IH. split; intros [post Hpost]; exists post;
        [now rewrite Hpost|now injection Hpost].
    + split; [discriminate|]. intros [post [= Hc _]]. congruence.
Qed.

Lemma contains_app (sub s : string) :
  contains sub s = true
  <-> exists pre post, s = String.append pre (String.append sub post).
Proof.
  induction s as [|c s IH]; cbn [contains].
  - rewrite orb_false_r, prefix_app. split.
    + intros [post ->]. now exists EmptyString, post.
    + intros (pre & post & Heq). destruct pre as [|? ?]; [|discriminate].
      now exists post.
  - rewrite orb_true_iff, IH, prefix_app. split.
    + intros [[post Hpost]|(pre & post & ->)].
      * now exists EmptyString, post.
      * now exists (String c pre), post.
    + intros (pre & post & Heq). destruct pre as [|c' pre].
      * left. now exists post.
      * right. injection Heq as _ ->. now exists pre, post.
Qed.

Lemma append_assoc (a b c : string) :
  String.append (String.append a b) c = String.append a (String.append b c).
Proof.
  induction a as [|x a IH]; [reflexivity|].
  change (String x (String.append (String.append a b) c)
          = String x (String.append a (String.append b c))).
  now f_equal.
Qed.

(** A text that contains [sub] contains what [sub] contains. *)
Lemma contains_trans (inner sub s : string) :
  contains inner sub = true -> contains sub s = true ->
  contains inner s = true.
Proof.
  rewrite !contains_app. intros (p1 & q1 & ->) (p2 & q2 & ->).
  exists (String.append p2 p1), (String.append q1 q2).
  now rewrite !append_assoc.
Qed.

Lemma detect_cases (s : string) :
  s <> EmptyString ->
  detect_compass_agent_in_prompt (JStr s)
  = match List.find (fun agent => contains agent (lower s))
            compass_agents with
    | Some agent => Ok (Some agent)
    | None =>
        if mentions captain_phrases (lower s)
        then Ok (Some "compass-captain"%string)
        else Ok None
    end.
Proof. destruct s; [contradiction|reflexivity]. Qed.

(** X23.  An agent that [detect_compass_agent_in_prompt] returns is one of
    the twenty names of its list, starts with [compass-], and is mentioned
    in the prompt (in any case of the letters), or it is [compass-captain]
    and the prompt holds one of the captain phrases; the prompt is
    text. *)
Theorem detected_agent_is_mentioned (prompt : json) (agent : string) :
  detect_compass_agent_in_prompt prompt = Ok (Some agent) ->
  exists s,
    prompt = JStr s
    /\ In agent compass_agents
    /\ starts_with_compass agent = true
    /\ (contains agent (lower s) = true
        \/ (agent = "compass-captain"%string
            /\ mentions captain_phrases (lower s) = true)).
Proof.
  intros Hdetect.
  assert (forall a, In a compass_agents -> starts_with_compass a = true)
    as Hall.
  { intros a Ha. unfold compass_agents in Ha. simpl in Ha.
    repeat destruct Ha as [<-|Ha]; try reflexivity. contradiction. }
  destruct prompt as [|b|z|s|xs|kvs]; try discriminate;
    try (destruct b; discriminate);
    try (destruct z; discriminate);
    try (destruct xs; discriminate);
    try (destruct kvs; discriminate).
  exists s. split; [reflexivity|].
  destruct s as [|c s]; [discriminate|].
  rewrite detect_cases in Hdetect by discriminate.
  destruct (List.find _ compass_agents) as [a|] eqn:Hfind.
  - injection Hdetect as ->. apply List.find_some in Hfind as [Hin Hc].
    auto.
  - destruct (mentions captain_phrases _) eqn:Hphrase; [|discriminate].
    injection Hdetect as <-. split; [simpl; auto|]. split; [reflexivity|].
    right. auto.
Qed.

Lemma detected_agent_is_mentioned_witness :
  starts_with_compass "compass-coder" = true
  /\ contains "compass-coder"
       (lower "Use COMPASS-Coder to refactor the parser") = true.
Proof.
  destruct (detected_agent_is_mentioned
              (JStr "Use COMPASS-Coder to refactor the parser")
              "compass-coder" eq_refl)
    as (s & [= <-] & _ & Hstart & [Hmention|[[=] _]]).
  split; assumption.
Defined.

(** X24.  [detect_compass_agent_in_prompt] returns [None] on a text exactly
    when the text is empty or mentions none of the twenty agent names and
    none of the captain phrases. *)
Theorem undetected_prompt_mentions_nothing (s : string) :
  detect_compass_agent_in_prompt (JStr s) = Ok None <->
  s = EmptyString
  \/ (forall agent, In agent compass_agents ->
                    contains agent (lower s) = false)
     /\ mentions captain_phrases (lower s) = false.
Proof.
  destruct s as [|c s]; [split; [now left|reflexivity]|].
  rewrite detect_cases by discriminate.
  destruct (List.find _ compass_agents) as [a|] eqn:Hfind.
  - apply List.find_some in Hfind as [Hin Hc]. split; [discriminate|].
    intros [Hempty|[Hnone _]]; [discriminate|].
    rewrite (Hnone a Hin) in Hc. discriminate.
  - destruct (mentions captain_phrases _) eqn:Hphrase.
    + split; [discriminate|]. intros [Hempty|[_ Hno]]; discriminate.
    + split; [|reflexivity]. intros _. right. split; [|reflexivity].
      intros agent Hin. now apply (List.find_none _ _ Hfind).
Qed.

Lemma undetected_prompt_mentions_nothing_witness :
  "fix the typo in the readme"%string = EmptyString
  \/ (forall agent, In agent compass_agents ->
                    contains agent (lower "fix the typo in the readme")
                    = false)
     /\ mentions captain_phrases (lower "fix the typo in the readme") = false.
Proof.
  apply (proj1 (undetected_prompt_mentions_nothing
                  "fix the typo in the readme")).
  reflexivity.
Defined.

(** X25.  A prompt attributed to [compass-coder] always predicts the [Code]
    specialist first: the name of the agent contains the keyword
    [code]. *)
Theorem coder_prompt_predicts_code (prompt : string) :
  detect_compass_agent_in_prompt (JStr prompt)
  = Ok (Some "compass-coder"%string) ->
  exists rest, predict_specialist_delegation prompt = "Code"%string :: rest.
Proof.
  intros Hdetect.
  assert (contains "compass-coder" (lower prompt) = true) as Hcoder.
  { destruct prompt as [|c s]; [discriminate|].
    rewrite detect_cases in Hdetect by discriminate.
    destruct (List.find _ compass_agents) as [a|] eqn:Hfind.
    - injection Hdetect as ->. now apply List.find_some in Hfind as [_ Hc].
    - destruct (mentions captain_phrases _); discriminate. }
  assert (contains "code" (lower prompt) = true) as Hcode.
  { eapply contains_trans; [|exact Hcoder]. reflexivity. }
  unfold predict_specialist_delegation. cbn zeta.
  unfold mentions at 1. cbn [existsb]. rewrite Hcode. cbn [orb].
  eexists. reflexivity.
Qed.

Lemma coder_prompt_predicts_code_witness :
  exists rest,
    predict_specialist_delegation "Use COMPASS-Coder to fix the parser"
    = "Code"%string :: rest.
Proof.
  apply coder_prompt_predicts_code. reflexivity.
Defined.

(** X26.  [requires_compass_methodology] returns true only for ten tools,
    all of them named [mcp__serena__...]. *)
Theorem only_serena_tools_require_methodology (tool_name : string)
    (tool_input : json) :
  requires_compass_methodology tool_name tool_input = Ok true ->
  String.prefix "mcp__serena__" tool_name = true
  /\ In tool_name
       (complex_tools
        ++ ["mcp__serena__read_file"; "mcp__serena__list_dir"]%string
        ++ modification_tools).
Proof.
  assert (forall names, existsb (String.eqb tool_name) names = true ->
                        In tool_name names) as Hin.
  { intros names [x [Hx Heq]]%existsb_exists.
    apply String.eqb_eq in Heq. now subst. }
  assert (In tool_name
            (complex_tools
             ++ ["mcp__serena__read_file"; "mcp__serena__list_dir"]%string
             ++ modification_tools) ->
          String.prefix "mcp__serena__" tool_name = true) as Hprefix.
  { unfold complex_tools, modification_tools. simpl.
    intros H. repeat destruct H as [<-|H]; try reflexivity. contradiction. }
  intros Hreq. enough (In tool_name
            (complex_tools
             ++ ["mcp__serena__read_file"; "mcp__serena__list_dir"]%string
             ++ modification_tools)) by auto.
  unfold requires_compass_methodology in Hreq.
  destruct (existsb (String.eqb tool_name) complex_tools) eqn:Hcomplex.
  { apply in_or_app. left. now apply Hin. }
  destruct (String.eqb_spec tool_name "mcp__serena__read_file") as [->|_].
  { apply in_or_app. right. simpl. auto. }
  cbn [res_bind] in Hreq.
  destruct (String.eqb_spec tool_name "mcp__serena__list_dir") as [->|_].
  { apply in_or_app. right. simpl. auto. }
  cbn [res_bind] in Hreq. injection Hreq as Hmod.
  apply in_or_app. right. apply in_or_app. right. now apply Hin.
Qed.

Lemma only_serena_tools_require_methodology_witness :
  String.prefix "mcp__serena__" "mcp__serena__read_file" = true
  /\ In "mcp__serena__read_file"%string
       (complex_tools
        ++ ["mcp__serena__read_file"; "mcp__serena__list_dir"]%string
        ++ modification_tools).
Proof.
  apply (only_serena_tools_require_methodology "mcp__serena__read_file"
           (JObj [("relative_path", JStr "SRC/Main.py")]%string)).
  reflexivity.
Defined.

(** * The sensor after a tracked invocation *)

(** The signal of a ledger whose [last_update] reads back naive: whether
    some tracked agent name starts with [compass-], at every time. *)
Lemma tokens_signal_naive `{Runtime} (now t : Z) (l : ledger) :
  reads_naive t = true ->
  last_update l = isoformat t ->
  check_recent_compass_tokens now (Some (json_dump (ledger_json l)))
  = Ok (existsb starts_with_compass (keys (by_agent l))).
Proof.
  intros Hnaive Hupdate.
  unfold check_recent_compass_tokens, json_dump. cbn [json_load].
  cbn [ledger_json]. unfold py_get.
  cbn [dict_get String.eqb Ascii.eqb Bool.eqb].
  rewrite Hupdate.
  change (is_recent_timestamp_extended now (JStr (isoformat t)))
    with (is_session_timestamp_valid now (JStr (isoformat t)) 1800).
  rewrite naive_not_valid by assumption.
  now rewrite keys_counts_json.
Qed.

(** The first update writes a ledger that tracks the agent of the call and
    no other. *)
Lemma first_record `{Runtime} (t : Z) (a : string) (n : Z) :
  exists l,
    update_session_token_count t a n None = Some (json_dump (ledger_json l))
    /\ keys (by_agent l) = [a]
    /\ last_update l = isoformat t.
Proof.
  exists (add_tokens t a n (create_empty_token_data t)).
  split; [reflexivity|].
  destruct (add_tokens_shape t a n (create_empty_token_data t))
    as (Hba & _ & _ & _ & Hupdate); [cbn; lia|].
  split; [|exact Hupdate]. rewrite Hba. reflexivity.
Qed.

(** C9.  The verdict of [compass_context_active] after a tracked
    invocation follows the name of the agent, not the time.  After a first
    call [record(agent_type, token_count)] at a time [t], with the session
    marker written at [t] and a journal written by the handler, and with no
    status-marker file and no document, the sensor returns at every time
    [now] whether [agent_type] starts with [compass-]: true for
    [compass-captain] however long ago the call was, false for another
    agent however fresh the marker, the journal and the ledger are.  (The
    timestamps that the handler writes read back naive, so none of its
    timestamp tests succeeds on them, and the test of the agent names in
    [check_recent_compass_tokens] looks at no time.) *)
Theorem verdict_follows_agent_name `{Runtime} (t now : Z)
    (agent_type : string) (token_count : Z)
    (writes : list (Z * journal_write)) :
  reads_naive t = true ->
  forallb (fun w => reads_naive (fst w)) writes = true ->
  compass_context_active now
    (after_invocation t agent_type token_count writes)
  = Ok (starts_with_compass agent_type).
Proof.
  intros Hnaive Hwrites.
  destruct (first_record t agent_type token_count)
    as (l & Hwritten & Hkeys & Hupdate).
  pose proof (journal_run_handler_lines writes empty_logs Hwrites
                (List.Forall_nil _)) as Hlines.
  unfold compass_context_active, after_invocation.
  cbn [status_file session_file log_file docs token_file existsb].
  assert (check_compass_session_active now
            (create_compass_session_tracking t None) = Ok false) as ->.
  { unfold create_compass_session_tracking, check_compass_session_active,
      json_dump_indent, session_marker.
    cbn [json_load]. unfold py_get.
    cbn [dict_get String.eqb Ascii.eqb Bool.eqb].
    now rewrite !naive_not_valid. }
  cbn [res_bind].
  assert (match option_map log_lines (current (journal_run writes empty_logs))
          with
          | Some lines => scan_log now (last_20 lines)
          | None => false
          end = false) as ->.
  { destruct (current (journal_run writes empty_logs)) as [jl|];
      [|reflexivity].
    cbn [option_map lines_of] in *.
    apply scan_log_handler_lines.
    unfold last_20. apply List.Forall_forall. intros line Hin.
    eapply List.Forall_forall in Hlines; [exact Hlines|].
    rewrite <- (firstn_skipn (length (log_lines jl) - 20) (log_lines jl)).
    apply in_or_app. now right. }
  rewrite Hwritten, (tokens_signal_naive now t l Hnaive Hupdate), Hkeys.
  cbn [existsb]. now rewrite orb_false_r.
Qed.

(** Both halves on the sample runtime.  Three hours after
    [record("compass-captain", 100)] every timestamp source is out of its
    window and the sensor returns true; one second after
    [record("agent-a", 100)] the marker, the journal and the ledger are
    fresh and the sensor returns false. *)
Lemma verdict_follows_agent_name_witness :
  let t := 1793927400000000 in
  let stale :=
    @after_invocation sample_runtime t "compass-captain" 100
      (prompt_and_invocation t "compass-captain: 100 tokens estimated") in
  let fresh :=
    @after_invocation sample_runtime t "agent-a" 100
      (prompt_and_invocation t "agent-a: 100 tokens estimated") in
  (@sources_stale sample_runtime (t + 10800 * 1000000) stale = true
   /\ @compass_context_active sample_runtime (t + 10800 * 1000000) stale
      = Ok true)
  /\ (@sources_stale sample_runtime (t + 1000000) fresh = false
      /\ @compass_context_active sample_runtime (t + 1000000) fresh
         = Ok false).
Proof.
  intros t stale fresh. split; (split; [reflexivity|]).
  - apply (@verdict_follows_agent_name sample_runtime t
             (t + 10800 * 1000000) "compass-captain" 100
             (prompt_and_invocation t
                "compass-captain: 100 tokens estimated")); reflexivity.
  - apply (@verdict_follows_agent_name sample_runtime t (t + 1000000)
             "agent-a" 100
             (prompt_and_invocation t "agent-a: 100 tokens estimated"));
      reflexivity.
Defined.
